(** * GTEx loader: streaming parser, node caches and edge coalescing

    A shallow embedding of [parsers/GTEx/src/loadGTEx.py] (class
    [GTExLoader]) together with the properties of its variant cache, its
    record parser and its sort-merge edge coalescer.

    Python values are modelled as follows.
    - [str] is [string]; [s.split(c)], [s[3:]] and [s.find(t) != -1] are
      the functions [split], [drop_chars] and [contains] below.
    - [float] is [spec_float], the IEEE 754 value datatype of the standard
      library; [x > 0] is [SFltb] against positive zero.
    - [dict] and [set] are [gmap] and [gset]; a [list] is a [list].
    - A raised exception is the [Raise] alternative of [result]; the two
      mutable objects the methods work on, the loader ([self]) and the
      [KGXFileWriter], are threaded explicitly in a [world]. *)

From Stdlib Require Import ZArith String Ascii List Bool Lia.
From Stdlib Require Import Permutation Sorted OrdersEx SpecFloat.
From stdpp Require Import base option list strings gmap.

Local Open Scope string_scope.
Local Open Scope list_scope.

(** ** Exceptions and the error monad *)

Inductive exn : Type :=
  | IndexError
  | ValueError
  | KeyError
  | RuntimeError
  | SourceDataFailedError (cause : exn).

Inductive result (A : Type) : Type :=
  | Ok (a : A)
  | Raise (e : exn).

Arguments Ok {A} a.
Arguments Raise {A} e.

#[global] Instance result_ret : MRet result := fun _ a => Ok a.

#[global] Instance result_bind : MBind result := fun _ _ f m =>
  match m with
  | Ok a => f a
  | Raise e => Raise e
  end.

Definition is_ok {A} (r : result A) : bool :=
  match r with Ok _ => true | Raise _ => false end.

(** ** Python string and list primitives *)

Module Py.

(** [s.split(sep)] for a one-character separator. *)
Fixpoint split (sep : ascii) (s : string) : list string :=
  match s with
  | EmptyString => [EmptyString]
  | String c rest =>
      if Ascii.eqb c sep then EmptyString :: split sep rest
      else match split sep rest with
           | [] => [String c EmptyString]
           | w :: ws => String c w :: ws
           end
  end.

(** [s[n:]] *)
Fixpoint drop_chars (n : nat) (s : string) : string :=
  match n, s with
  | O, _ => s
  | S _, EmptyString => EmptyString
  | S n', String _ rest => drop_chars n' rest
  end.

(** [s.find(sub) != -1] *)
Fixpoint contains (sub s : string) : bool :=
  String.prefix sub s
  || match s with
     | EmptyString => false
     | String _ rest => contains sub rest
     end.

(** [l[i]] for a non-negative index: [IndexError] out of range. *)
Definition index {A} (l : list A) (i : nat) : result A :=
  match l !! i with
  | Some x => Ok x
  | None => Raise IndexError
  end.

(** Truth value of an optional string: [None] and the empty string are
    false. *)
Definition truthy (o : option string) : option string :=
  match o with
  | Some EmptyString => None
  | Some s => Some s
  | None => None
  end.

(** Python compares tuples of strings lexicographically, and strings by
    code point. *)
Definition tuple_compare (a b : string * string * string) : comparison :=
  let '(a1, a2, a3) := a in
  let '(b1, b2, b3) := b in
  match String_as_OT.compare a1 b1 with
  | Eq => match String_as_OT.compare a2 b2 with
          | Eq => String_as_OT.compare a3 b3
          | c => c
          end
  | c => c
  end.

Definition tuple_ltb (a b : string * string * string) : bool :=
  match tuple_compare a b with Lt => true | _ => false end.

(** [sorted(l, key=key)] is a stable sort that only uses [<] on keys.
    The result of a stable sort is unique, so it is given here by
    insertion from the right: an element goes before the first element
    whose key is not smaller than its own. *)
Section Sorted.
Context {A K : Type} (ltb : K -> K -> bool) (key : A -> K).

Fixpoint insert_sorted (x : A) (l : list A) : list A :=
  match l with
  | [] => [x]
  | y :: l' =>
      if ltb (key y) (key x) then y :: insert_sorted x l'
      else x :: y :: l'
  end.

Fixpoint sorted (l : list A) : list A :=
  match l with
  | [] => []
  | x :: l' => insert_sorted x (sorted l')
  end.
End Sorted.

End Py.

(** ** Collaborators outside the loader

    Constants imported from [Common.prefixes] and [Common.node_types], the
    HGVS conversion of [Common.hgvs_utils], the node normalization service
    and the builtins [int] and [float]. *)

Record hgvs_request : Type := {
  chromosome : string;
  position : Z;
  ref_allele : string;
  alt_allele : string;
  reference_genome : string;
  reference_patch : string
}.

Class Collaborators : Type := {
  HGVS : string;
  SEQUENCE_VARIANT : string;
  GENE : string;
  (** [None] stands for a [None] result; an empty string is possible too. *)
  convert_variant_to_hgvs : hgvs_request -> option string;
  (** the normalizer's lookup table after the batch call *)
  node_normalization_lookup : string -> list string;
  (** [int(s)] and [float(s)]; [None] stands for [ValueError] *)
  py_int : string -> option Z;
  py_float : string -> option spec_float
}.

(** ** Data model *)

(** One accumulated edge, the dict built by [create_edge]. *)
Record edge : Type := {
  subject : string;
  object : string;
  predicate : string;
  expressed_in : string;
  p_value : spec_float;
  slope : spec_float
}.

(** The arguments of a call of [write_node] and of [write_edge]. *)
Record kgx_node : Type := {
  node_id : string;
  node_name : string;
  node_types : list string
}.

Record edge_properties : Type := {
  prop_expressed_in : list string;
  prop_p_value : list spec_float;
  prop_slope : list spec_float
}.

Record kgx_edge : Type := {
  subject_id : string;
  object_id : string;
  edge_predicate : string;
  original_knowledge_source : string;
  properties : edge_properties
}.

(** Modelled from the spec: the graph sink [KGXFileWriter] of
    [Common.kgx_file_writer], which is not part of the loader.  The spec
    has it as a sink with write-node and write-edge operations whose dedup
    flag the loader disables, so a sink is what has been written to it, in
    order. *)
Record KGXFileWriter : Type := {
  written_nodes : list kgx_node;
  written_edges : list kgx_edge
}.

(** Modelled from the spec: [write_node] with the dedup flag disabled
    records the node as it comes. *)
Definition write_node (n : kgx_node) (k : KGXFileWriter) : KGXFileWriter :=
  {| written_nodes := written_nodes k ++ [n];
     written_edges := written_edges k |}.

(** Modelled from the spec: [write_edge] records the edge as it comes. *)
Definition write_edge (e : kgx_edge) (k : KGXFileWriter) : KGXFileWriter :=
  {| written_nodes := written_nodes k;
     written_edges := written_edges k ++ [e] |}.

(** The attributes of [GTExLoader] set in [__init__]. *)
Record GTExLoader : Type := {
  anatomy_id_lookup : gmap string string;
  gtex_variant_to_hgvs_lookup : gmap string (option string);
  variants_that_failed_hgvs_conversion : gset string;
  written_genes : gset string;
  edge_list : list edge
}.

(** The loader, the writer it is handed, and the requests made so far to
    [convert_variant_to_hgvs]. *)
Record world : Type := {
  self : GTExLoader;
  kgx_file_writer : KGXFileWriter;
  conversions : list hgvs_request
}.

Definition with_self (f : GTExLoader -> GTExLoader) (w : world) : world :=
  {| self := f (self w);
     kgx_file_writer := kgx_file_writer w;
     conversions := conversions w |}.

Definition with_writer (f : KGXFileWriter -> KGXFileWriter) (w : world) : world :=
  {| self := self w;
     kgx_file_writer := f (kgx_file_writer w);
     conversions := conversions w |}.

Definition record_conversion (r : hgvs_request) (w : world) : world :=
  {| self := self w;
     kgx_file_writer := kgx_file_writer w;
     conversions := conversions w ++ [r] |}.

Definition set_anatomy_id_lookup (m : gmap string string) (s : GTExLoader) : GTExLoader :=
  {| anatomy_id_lookup := m;
     gtex_variant_to_hgvs_lookup := gtex_variant_to_hgvs_lookup s;
     variants_that_failed_hgvs_conversion := variants_that_failed_hgvs_conversion s;
     written_genes := written_genes s;
     edge_list := edge_list s |}.

Definition set_variant_lookup (m : gmap string (option string)) (s : GTExLoader) : GTExLoader :=
  {| anatomy_id_lookup := anatomy_id_lookup s;
     gtex_variant_to_hgvs_lookup := m;
     variants_that_failed_hgvs_conversion := variants_that_failed_hgvs_conversion s;
     written_genes := written_genes s;
     edge_list := edge_list s |}.

Definition set_failed_variants (f : gset string) (s : GTExLoader) : GTExLoader :=
  {| anatomy_id_lookup := anatomy_id_lookup s;
     gtex_variant_to_hgvs_lookup := gtex_variant_to_hgvs_lookup s;
     variants_that_failed_hgvs_conversion := f;
     written_genes := written_genes s;
     edge_list := edge_list s |}.

Definition set_written_genes (g : gset string) (s : GTExLoader) : GTExLoader :=
  {| anatomy_id_lookup := anatomy_id_lookup s;
     gtex_variant_to_hgvs_lookup := gtex_variant_to_hgvs_lookup s;
     variants_that_failed_hgvs_conversion := variants_that_failed_hgvs_conversion s;
     written_genes := g;
     edge_list := edge_list s |}.

Definition set_edge_list (l : list edge) (s : GTExLoader) : GTExLoader :=
  {| anatomy_id_lookup := anatomy_id_lookup s;
     gtex_variant_to_hgvs_lookup := gtex_variant_to_hgvs_lookup s;
     variants_that_failed_hgvs_conversion := variants_that_failed_hgvs_conversion s;
     written_genes := written_genes s;
     edge_list := l |}.

(** [GTExLoader.__init__]: empty caches and an empty accumulator. *)
Definition init_loader (tissues : gmap string string) : GTExLoader :=
  {| anatomy_id_lookup := tissues;
     gtex_variant_to_hgvs_lookup := ∅;
     variants_that_failed_hgvs_conversion := ∅;
     written_genes := ∅;
     edge_list := [] |}.

Definition init_world (tissues : gmap string string) : world :=
  {| self := init_loader tissues;
     kgx_file_writer := {| written_nodes := []; written_edges := [] |};
     conversions := [] |}.

Definition provenance_id : string := "infores:gtex".

(** ** The loader's operations *)

Section Loader.
Context `{Collaborators}.

Definition int_of (s : string) : result Z :=
  match py_int s with Some z => Ok z | None => Raise ValueError end.

Definition float_of (s : string) : result spec_float :=
  match py_float s with Some f => Ok f | None => Raise ValueError end.

(** The token format is [chr1_1413898_T_C_b38]: the first three
    characters are dropped and the rest is split at underscores. *)
Definition variant_request (gtex_variant_id : string) : result hgvs_request :=
  let variant_data := Py.split "_" (Py.drop_chars 3 gtex_variant_id) in
  chromosome ← Py.index variant_data 0;
  position_text ← Py.index variant_data 1;
  position ← int_of position_text;
  ref_allele ← Py.index variant_data 2;
  alt_allele ← Py.index variant_data 3;
  reference_genome ← Py.index variant_data 4;
  Ok {| chromosome := chromosome;
        position := position;
        ref_allele := ref_allele;
        alt_allele := alt_allele;
        reference_genome := reference_genome;
        reference_patch := "p1" |}.

Definition variant_node (variant_id hgvs : string) : kgx_node :=
  {| node_id := variant_id;
     node_name := hgvs;
     node_types := [SEQUENCE_VARIANT] |}.

Definition cache_variant (gtex_variant_id : string) (variant_id : option string)
    (w : world) : world :=
  with_self (fun s =>
    set_variant_lookup
      (<[gtex_variant_id := variant_id]> (gtex_variant_to_hgvs_lookup s)) s) w.

Definition process_variant (gtex_variant_id : string) (w : world)
    : result (option string * world) :=
  match gtex_variant_to_hgvs_lookup (self w) !! gtex_variant_id with
  | None =>
      request ← variant_request gtex_variant_id;
      let hgvs := convert_variant_to_hgvs request in
      let w := record_conversion request w in
      match Py.truthy hgvs with
      | Some hgvs =>
          let variant_id := HGVS +:+ ":" +:+ hgvs in
          let w := cache_variant gtex_variant_id (Some variant_id) w in
          let w := with_writer (write_node (variant_node variant_id hgvs)) w in
          let w := cache_variant gtex_variant_id (Some variant_id) w in
          Ok (Some variant_id, w)
      | None =>
          let w := with_self (fun s =>
            set_failed_variants
              ({[gtex_variant_id]} ∪ variants_that_failed_hgvs_conversion s) s) w in
          let w := cache_variant gtex_variant_id None w in
          Ok (None, w)
      end
  | Some variant_id => Ok (variant_id, w)
  end.

Definition gene_node (gtex_gene_id name : string) : kgx_node :=
  {| node_id := gtex_gene_id;
     node_name := name;
     node_types := [GENE] |}.

Definition process_gene (gtex_gene_id : string) (w : world)
    : result (string * world) :=
  if decide (gtex_gene_id ∈ written_genes (self w)) then Ok (gtex_gene_id, w)
  else
    name ← Py.index (Py.split ":" gtex_gene_id) 1;
    let w := with_writer (write_node (gene_node gtex_gene_id name)) w in
    let w := with_self (fun s =>
      set_written_genes ({[gtex_gene_id]} ∪ written_genes s) s) w in
    Ok (gtex_gene_id, w).

Definition affects_splicing : string := "CTD:affects_splicing_of".
Definition increases_expression : string := "CTD:increases_expression_of".
Definition decreases_expression : string := "CTD:decreases_expression_of".

(** [x > 0] on a Python float *)
Definition positive (x : spec_float) : bool := SFltb (S754_zero false) x.

Definition create_edge (anatomy_id variant_id gene_id p_value slope : string)
    (is_sqtl : bool) (w : world) : result world :=
  predicate ←
    (if is_sqtl then Ok affects_splicing
     else
       s ← float_of slope;
       Ok (if positive s then increases_expression else decreases_expression));
  p ← float_of p_value;
  s ← float_of slope;
  let item := {| subject := variant_id;
                 object := gene_id;
                 predicate := predicate;
                 expressed_in := anatomy_id;
                 p_value := p;
                 slope := s |} in
  Ok (with_self (fun l => set_edge_list (edge_list l ++ [item]) l) w).

(** *** The archive reader and the record parser

    A tar archive is the list of its members in archive order; a member
    carries its name and the text lines its gzip stream decompresses to.
    The generator is modelled by the sequence of things it does until it
    is exhausted or raises. *)

Record tar_member : Type := {
  name : string;
  lines : list string
}.

(** anatomy id, variant token, gene id, p-value text, slope text *)
Definition relationship : Type := string * string * string * string * string.

Inductive action : Type :=
  | Extractfile (member : string)
  | GzipOpen (member : string)
  | LogReading (member : string)
  | LogColumnCount (member : string) (i : nat) (line : string)
  | LogKeyError
  | LogSkipping (member : string)
  | Yield (r : relationship).

Record generator : Type := {
  actions : list action;
  raised : option exn
}.

Definition exhausted : generator := {| actions := []; raised := None |}.

Definition raising (e : exn) : generator := {| actions := []; raised := Some e |}.

Definition doing (a : action) (g : generator) : generator :=
  {| actions := a :: actions g; raised := raised g |}.

Definition variant_column_index : nat := 0.
Definition gene_column_index : nat := 1.
Definition pval_column_index : nat := 6.
Definition slope_column_index : nat := 7.

(** The body of the [try] block for one line that has twelve columns. *)
Definition extract_relationship (is_sqtl : bool) (anatomy_id : string)
    (line_split : list string) : result relationship :=
  gtex_variant_id ← Py.index line_split variant_column_index;
  gene_id ←
    (if is_sqtl then
       phenotype_id ← Py.index line_split gene_column_index;
       gene ← Py.index (Py.split ":" phenotype_id) 4;
       Py.index (Py.split "." gene) 0
     else
       column ← Py.index line_split gene_column_index;
       Py.index (Py.split "." column) 0);
  let gene_id := "ENSEMBL:" +:+ gene_id in
  p_value ← Py.index line_split pval_column_index;
  slope ← Py.index line_split slope_column_index;
  Ok (anatomy_id, gtex_variant_id, gene_id, p_value, slope).

(** The loop over the lines after the header; [i] is the line number. *)
Fixpoint parse_lines (is_sqtl : bool) (anatomy_id member : string) (i : nat)
    (ls : list string) : generator :=
  match ls with
  | [] => exhausted
  | line :: rest =>
      let line_split := Py.split "009" line in
      if negb (Nat.eqb (List.length line_split) 12) then
        doing (LogColumnCount member i line)
              (parse_lines is_sqtl anatomy_id member (S i) rest)
      else
        match extract_relationship is_sqtl anatomy_id line_split with
        | Ok r => doing (Yield r) (parse_lines is_sqtl anatomy_id member (S i) rest)
        | Raise KeyError =>
            doing LogKeyError (parse_lines is_sqtl anatomy_id member (S i) rest)
        | Raise e => raising e
        end
  end.

(** What is done for one member once its handle has been obtained; the
    rest of the archive is [next].  [next(compressed_file)] on a member
    without lines raises [StopIteration], which leaves a generator as
    [RuntimeError] (Python 3.7 and later). *)
Definition parse_member (is_sqtl : bool) (lookup : gmap string string)
    (tissue_file : tar_member) (next : generator) : generator :=
  if Py.contains "signif" (name tissue_file) then
    doing (LogReading (name tissue_file))
      match
        directory ← Py.index (Py.split "/" (name tissue_file)) 1;
        Py.index (Py.split "." directory) 0
      with
      | Raise e => raising e
      | Ok tissue_name =>
          match lookup !! tissue_name with
          | Some anatomy_id =>
              doing (GzipOpen (name tissue_file))
                match lines tissue_file with
                | [] => raising RuntimeError
                | _header :: ls =>
                    let g := parse_lines is_sqtl anatomy_id (name tissue_file) 1 ls in
                    match raised g with
                    | Some _ => g
                    | None => {| actions := actions g ++ actions next;
                                 raised := raised next |}
                    end
                end
          | None => doing (LogSkipping (name tissue_file)) next
          end
      end
  else next.

Fixpoint parse_members (is_sqtl : bool) (lookup : gmap string string)
    (tar_files : list tar_member) : generator :=
  match tar_files with
  | [] => exhausted
  | tissue_file :: rest =>
      doing (Extractfile (name tissue_file))
        (parse_member is_sqtl lookup tissue_file
           (parse_members is_sqtl lookup rest))
  end.

Definition parse_file_and_yield_relationships (tar_files : list tar_member)
    (is_sqtl : bool) (s : GTExLoader) : generator :=
  parse_members is_sqtl (anatomy_id_lookup s) tar_files.

Definition yielded (g : generator) : list relationship :=
  omap (fun a => match a with Yield r => Some r | _ => None end) (actions g).

(** *** The edge coalescer *)

(** [lambda i: (i['subject'], i['object'], i['predicate'])] *)
Definition sort_key (i : edge) : string * string * string :=
  (subject i, object i, predicate i).

(** [item["subject"] + item["predicate"] + item["object"]] *)
Definition group_key (item : edge) : string :=
  subject item +:+ predicate item +:+ object item.

(** The local variables of the scan. *)
Record scan : Type := {
  anatomy_ids : list string;
  p_values : list spec_float;
  slopes : list spec_float;
  start_group_key : string;
  cur_record : edge
}.

(** The call of [write_edge] for the group collected so far. *)
Definition coalesced_edge (sc : scan) : kgx_edge :=
  {| subject_id := subject (cur_record sc);
     object_id := object (cur_record sc);
     edge_predicate := predicate (cur_record sc);
     original_knowledge_source := provenance_id;
     properties := {| prop_expressed_in := anatomy_ids sc;
                      prop_p_value := p_values sc;
                      prop_slope := slopes sc |} |}.

(** One iteration of [for item in self.edge_list]. *)
Definition scan_item (st : scan * KGXFileWriter) (item : edge)
    : scan * KGXFileWriter :=
  let '(sc, k) := st in
  let cur_group_key := group_key item in
  let '(sc, k) :=
    if negb (String.eqb cur_group_key (start_group_key sc)) then
      ({| anatomy_ids := [];
          p_values := [];
          slopes := [];
          start_group_key := cur_group_key;
          cur_record := item |},
       write_edge (coalesced_edge sc) k)
    else (sc, k) in
  ({| anatomy_ids := anatomy_ids sc ++ [expressed_in item];
      p_values := p_values sc ++ [p_value item];
      slopes := slopes sc ++ [slope item];
      start_group_key := start_group_key sc;
      cur_record := cur_record sc |}, k).

(** [if len(anatomy_ids) > 0: ...] after the loop *)
Definition save_what_is_left (st : scan * KGXFileWriter) : KGXFileWriter :=
  let '(sc, k) := st in
  if Nat.ltb 0 (List.length (anatomy_ids sc))
  then write_edge (coalesced_edge sc) k
  else k.

Definition coalesce_and_write_edges (w : world) : result world :=
  let sorted_list := Py.sorted Py.tuple_ltb sort_key (edge_list (self w)) in
  let w := with_self (set_edge_list sorted_list) w in
  item ← Py.index sorted_list 0;
  let sc := {| anatomy_ids := [];
               p_values := [];
               slopes := [];
               start_group_key := group_key item;
               cur_record := item |} in
  let st := fold_left scan_item sorted_list (sc, kgx_file_writer w) in
  Ok (with_writer (fun _ => save_what_is_left st) w).

(** *** Anatomy normalization and the main loop *)

Definition normalize_anatomy_ids (w : world) : world :=
  with_self (fun s =>
    set_anatomy_id_lookup
      ((fun anatomy_id =>
          match node_normalization_lookup anatomy_id with
          | real_anatomy_id :: _ => real_anatomy_id
          | [] => anatomy_id
          end) <$> anatomy_id_lookup s) s) w.

(** The body of the [for gtex_relationship in ...] loops of [load]. *)
Definition load_relationship (is_sqtl : bool) (gtex_relationship : relationship)
    (w : world) : result world :=
  let '(anatomy_id, gtex_variant, gtex_gene, p_value, slope) := gtex_relationship in
  '(variant_id, w) ← process_variant gtex_variant w;
  match Py.truthy variant_id with
  | Some variant_id =>
      '(gene_id, w) ← process_gene gtex_gene w;
      create_edge anatomy_id variant_id gene_id p_value slope is_sqtl w
  | None => Ok w
  end.

Fixpoint load_relationships (is_sqtl : bool) (rs : list relationship) (w : world)
    : result world :=
  match rs with
  | [] => Ok w
  | r :: rs' =>
      w ← load_relationship is_sqtl r w;
      load_relationships is_sqtl rs' w
  end.

(** Driving the generator to its end: every yielded tuple is handed to
    the loop body, and an exception of the generator surfaces after the
    tuples yielded before it. *)
Definition consume (is_sqtl : bool) (g : generator) (w : world) : result world :=
  w ← load_relationships is_sqtl (yielded g) w;
  match raised g with
  | Some e => Raise e
  | None => Ok w
  end.

(** One dataset: parse, accumulate, coalesce, clear. *)
Definition load_dataset (tar_files : list tar_member) (is_sqtl : bool) (w : world)
    : result world :=
  w ← consume is_sqtl (parse_file_and_yield_relationships tar_files is_sqtl (self w)) w;
  w ← coalesce_and_write_edges w;
  Ok (with_self (set_edge_list []) w).

(** [load], given the two downloaded archives: any exception is wrapped
    into [SourceDataFailedError]. *)
Definition load (eqtl_tar sqtl_tar : list tar_member) (w : world) : result world :=
  let w := normalize_anatomy_ids w in
  match
    w ← load_dataset eqtl_tar false w;
    load_dataset sqtl_tar true w
  with
  | Ok w => Ok w
  | Raise e => Raise (SourceDataFailedError e)
  end.

(** *** Observing repeated variant resolution

    What one call of [process_variant] returned and what it added to the
    conversion requests and to the sink. *)

Record resolution : Type := {
  token : string;
  returned : option string;
  converted : list hgvs_request;
  emitted : list kgx_node
}.

Definition observe (gtex_variant_id : string) (w : world)
    : result (resolution * world) :=
  '(variant_id, w') ← process_variant gtex_variant_id w;
  Ok ({| token := gtex_variant_id;
         returned := variant_id;
         converted := drop (List.length (conversions w)) (conversions w');
         emitted := drop (List.length (written_nodes (kgx_file_writer w)))
                         (written_nodes (kgx_file_writer w')) |}, w').

(** The canonical id a conversion request leads to, and the node written
    with it. *)
Definition resolved_id (request : hgvs_request) : option string :=
  match Py.truthy (convert_variant_to_hgvs request) with
  | Some hgvs => Some (HGVS +:+ ":" +:+ hgvs)
  | None => None
  end.

Definition resolved_nodes (request : hgvs_request) : list kgx_node :=
  match Py.truthy (convert_variant_to_hgvs request) with
  | Some hgvs => [variant_node (HGVS +:+ ":" +:+ hgvs) hgvs]
  | None => []
  end.

(** A call that converts, and a call that finds the token in the cache. *)
Definition first_resolution (t : string) (request : hgvs_request) : resolution :=
  {| token := t;
     returned := resolved_id request;
     converted := [request];
     emitted := resolved_nodes request |}.

Definition later_resolution (t : string) (variant_id : option string) : resolution :=
  {| token := t;
     returned := variant_id;
     converted := [];
     emitted := [] |}.

Fixpoint process_variants (tokens : list string) (w : world)
    : result (list resolution * world) :=
  match tokens with
  | [] => Ok ([], w)
  | t :: rest =>
      '(o, w) ← observe t w;
      '(os, w) ← process_variants rest w;
      Ok (o :: os, w)
  end.

End Loader.

(** ** Vocabulary of the statements *)

(** The (subject, predicate, object) triple of an accumulated edge and of
    a written one. *)
Definition triple (e : edge) : string * string * string :=
  (subject e, predicate e, object e).

Definition written_triple (e : kgx_edge) : string * string * string :=
  (subject_id e, edge_predicate e, object_id e).

(** The tissue observation an accumulated edge carries. *)
Definition observation (e : edge) : string * spec_float * spec_float :=
  (expressed_in e, p_value e, slope e).

(** The maximal runs of consecutive records with one group key, each with
    its first record apart. *)
Fixpoint runs (l : list edge) : list (edge * list edge) :=
  match l with
  | [] => []
  | x :: l' =>
      match runs l' with
      | (y, g) :: gs =>
          if String.eqb (group_key x) (group_key y)
          then (x, y :: g) :: gs
          else (x, []) :: (y, g) :: gs
      | [] => [(x, [])]
      end
  end.

Definition run_records (r : edge * list edge) : list edge := fst r :: snd r.

(** The arrays read off a list of records in order. *)
Definition arrays_of (rs : list edge) : edge_properties :=
  {| prop_expressed_in := map expressed_in rs;
     prop_p_value := map p_value rs;
     prop_slope := map slope rs |}.

(** The edge written for a run: the triple of its first record and the
    three arrays of its records. *)
Definition run_edge (r : edge * list edge) : kgx_edge :=
  {| subject_id := subject (fst r);
     object_id := object (fst r);
     edge_predicate := predicate (fst r);
     original_knowledge_source := provenance_id;
     properties := arrays_of (run_records r) |}.

(** The edges a call of [coalesce_and_write_edges] adds to the sink. *)
Definition coalesced_edges (w : world) : result (list kgx_edge) :=
  w' ← coalesce_and_write_edges w;
  Ok (drop (List.length (written_edges (kgx_file_writer w)))
           (written_edges (kgx_file_writer w'))).

(** The observations of a written edge: its three arrays read side by
    side. *)
Definition edge_observations (e : kgx_edge) : list (string * spec_float * spec_float) :=
  combine (combine (prop_expressed_in (properties e)) (prop_p_value (properties e)))
          (prop_slope (properties e)).

(** Two written edges that differ at most in the order of their
    observations. *)
Definition same_edge_up_to_order (e e' : kgx_edge) : Prop :=
  written_triple e = written_triple e' /\
  original_knowledge_source e = original_knowledge_source e' /\
  Permutation (edge_observations e) (edge_observations e').

(** The arrays of a written edge have one length, and every position of
    them holds the values of one record of [l]. *)
Definition aligned_with (l : list edge) (e : kgx_edge) : Prop :=
  let p := properties e in
  List.length (prop_expressed_in p) = List.length (prop_p_value p) /\
  List.length (prop_p_value p) = List.length (prop_slope p) /\
  forall i a pv sl,
    prop_expressed_in p !! i = Some a ->
    prop_p_value p !! i = Some pv ->
    prop_slope p !! i = Some sl ->
    exists r, r ∈ l /\ expressed_in r = a /\ p_value r = pv /\ slope r = sl.

(** The sort of [coalesce_and_write_edges]. *)
Abbreviation sorted_edges := (Py.sorted Py.tuple_ltb sort_key).
Abbreviation insert_edge := (Py.insert_sorted Py.tuple_ltb sort_key).

(** The records of a list that carry a given sort key, in list order. *)
Definition with_key (k : string * string * string) (l : list edge) : list edge :=
  filter (fun e => sort_key e = k) l.

(** [j <= k] on sort keys, the way a sort that only has [<] sees it, and
    the order it induces on the records. *)
Definition tuple_le (j k : string * string * string) : Prop :=
  Py.tuple_ltb k j = false.

Definition key_le (x y : edge) : Prop := tuple_le (sort_key x) (sort_key y).

(** Two lists made of the same sequence of key blocks, corresponding
    blocks being related by [Q]. *)
Inductive blockwise (Q : list edge -> list edge -> Prop)
    : list edge -> list edge -> Prop :=
  | blockwise_nil : blockwise Q [] []
  | blockwise_block k b b' t t' :
      Forall (fun e => sort_key e = k) b ->
      Forall (fun e => sort_key e = k) b' ->
      Q b b' ->
      blockwise Q t t' ->
      blockwise Q (b ++ t) (b' ++ t').

(** The concatenated group key tells the triples of a list apart. *)
Definition unambiguous (l : list edge) : Prop :=
  forall a b, a ∈ l -> b ∈ l -> group_key a = group_key b -> triple a = triple b.

(** A float other than NaN stands for the number [m * 2^e] of its signed
    mantissa [m], or for an infinity; [signed_mantissa] has the sign of
    that number.  A float is above zero when it stands for a number
    greater than zero. *)
Definition signed_mantissa (x : spec_float) : option Z :=
  match x with
  | S754_zero _ => Some 0%Z
  | S754_infinity s => Some (if s then (-1)%Z else 1%Z)
  | S754_nan => None
  | S754_finite s m _ => Some (if s then Z.neg m else Z.pos m)
  end.

Definition above_zero (x : spec_float) : Prop :=
  exists m, signed_mantissa x = Some m /\ (0 < m)%Z.

(** The members whose handle the generator obtains, in the order of
    the calls of [extractfile]. *)
Definition handles (g : generator) : list string :=
  omap (fun a => match a with Extractfile n => Some n | _ => None end) (actions g).

(** What a generator does when the code of [next] comes after the code
    of [g]: an exception of [g] ends it. *)
Definition followed_by (g next : generator) : generator :=
  match raised g with
  | Some _ => g
  | None => {| actions := actions g ++ actions next; raised := raised next |}
  end.

(** ** Vocabulary of the further statements *)

(** The sort key of a written edge. *)
Definition written_key (e : kgx_edge) : string * string * string :=
  (subject_id e, object_id e, edge_predicate e).

(** The text of [s] before its first [c], all of [s] when it has none:
    what [s.split(c)[0]] is. *)
Fixpoint text_before (c : ascii) (s : string) : string :=
  match s with
  | EmptyString => EmptyString
  | String a rest =>
      if Ascii.eqb a c then EmptyString else String a (text_before c rest)
  end.

(** A line of a tissue table with the expected number of columns. *)
Definition twelve_columns (line : string) : Prop :=
  List.length (Py.split "009" line) = 12.

#[global] Instance twelve_columns_dec line : Decision (twelve_columns line).
Proof. unfold twelve_columns. apply _. Defined.

(** The relationship an eQTL line with twelve columns stands for. *)
Definition eqtl_row (anatomy_id line : string) (r : relationship) : Prop :=
  exists variant gene pval slope,
    Py.split "009" line !! 0 = Some variant /\
    Py.split "009" line !! 1 = Some gene /\
    Py.split "009" line !! 6 = Some pval /\
    Py.split "009" line !! 7 = Some slope /\
    r = (anatomy_id, variant, "ENSEMBL:" +:+ text_before "." gene, pval, slope).

(** The tissue a member is named after:
    [tissue_file.name.split('/')[1].split('.')[0]]. *)
Definition tissue_name (member : string) : result string :=
  directory ← Py.index (Py.split "/" member) 1;
  Py.index (Py.split "." directory) 0.

(** The components of a relationship tuple. *)
Definition anatomy_of (r : relationship) : string := r.1.1.1.1.
Definition gene_of (r : relationship) : string := r.1.1.2.
Definition variant_of (r : relationship) : string := r.1.1.1.2.
Definition p_value_of (r : relationship) : string := r.1.2.
Definition slope_of (r : relationship) : string := r.2.

(** A relationship one of whose two number texts [float] rejects. *)
Definition unparsable `{Collaborators} (r : relationship) : Prop :=
  py_float (p_value_of r) = None \/ py_float (slope_of r) = None.

(** The loop of [load] over a dataset, started in [w0], comes to the
    relationship [r] in [w1]: the generator yields [r], and the loop body
    has gone through for the relationships yielded before it. *)
Definition comes_to `{Collaborators} (is_sqtl : bool) (tar_files : list tar_member)
    (w0 : world) (r : relationship) (w1 : world) : Prop :=
  exists before rest,
    yielded (parse_file_and_yield_relationships tar_files is_sqtl (self w0))
      = before ++ r :: rest /\
    load_relationships is_sqtl before w0 = Ok w1.

(** A generator with the anatomy ids of its relationships renamed. *)
Definition rename_anatomy (f : string -> string) (a : action) : action :=
  match a with
  | Yield (anatomy_id, variant, gene, pval, slope) =>
      Yield (f anatomy_id, variant, gene, pval, slope)
  | other => other
  end.

Definition renamed (f : string -> string) (g : generator) : generator :=
  {| actions := map (rename_anatomy f) (actions g); raised := raised g |}.

(** What [normalize_anatomy_ids] does to one anatomy id. *)
Definition normalized `{Collaborators} (anatomy_id : string) : string :=
  match node_normalization_lookup anatomy_id with
  | real_anatomy_id :: _ => real_anatomy_id
  | [] => anatomy_id
  end.

(** The gene registrar called on one id after the other. *)
Fixpoint process_genes `{Collaborators} (gene_ids : list string) (w : world)
    : result world :=
  match gene_ids with
  | [] => Ok w
  | g :: rest =>
      '(_, w) ← process_gene g w;
      process_genes rest w
  end.

(** The ids of the nodes in the sink. *)
Definition node_ids (w : world) : list string :=
  map node_id (written_nodes (kgx_file_writer w)).

(** The state of the variant caches agrees with what has been converted
    and written: the failed set holds the tokens cached without an id, a
    cached id has its node in the sink, a cached outcome is the outcome of
    the conversion of its token, and there has been one conversion request
    per cached token. *)
Definition cache_consistent `{Collaborators} (w : world) : Prop :=
  (forall t, t ∈ variants_that_failed_hgvs_conversion (self w) <->
             gtex_variant_to_hgvs_lookup (self w) !! t = Some None) /\
  (forall t id, gtex_variant_to_hgvs_lookup (self w) !! t = Some (Some id) ->
                id ∈ node_ids w) /\
  (forall t v, gtex_variant_to_hgvs_lookup (self w) !! t = Some v ->
               exists request, variant_request t = Ok request /\
                               v = resolved_id request) /\
  List.length (conversions w) = size (gtex_variant_to_hgvs_lookup (self w)).

(** The three relations [create_edge] assigns. *)
Definition known_predicate (p : string) : Prop :=
  p = affects_splicing \/ p = increases_expression \/ p = decreases_expression.

(** No dangling reference: the ids in the caches, in the accumulator and
    on the written edges are ids of written nodes, and the predicates are
    the known ones. *)
Definition linked (w : world) : Prop :=
  (forall t id, gtex_variant_to_hgvs_lookup (self w) !! t = Some (Some id) ->
                id ∈ node_ids w) /\
  (forall g, g ∈ written_genes (self w) -> g ∈ node_ids w) /\
  Forall (fun e => subject e ∈ node_ids w /\ object e ∈ node_ids w /\
                   known_predicate (predicate e))
         (edge_list (self w)) /\
  Forall (fun e => subject_id e ∈ node_ids w /\ object_id e ∈ node_ids w /\
                   known_predicate (edge_predicate e))
         (written_edges (kgx_file_writer w)).

(** [c] is one of the characters of [s]. *)
Fixpoint occurs (c : ascii) (s : string) : bool :=
  match s with
  | EmptyString => false
  | String a rest => Ascii.eqb a c || occurs c rest
  end.

(** No relation of [create_edge] followed by the prefix of a gene id
    occurs in [s]. *)
Definition relation_free (s : string) : Prop :=
  forall p, known_predicate p -> Py.contains (p +:+ "ENSEMBL:") s = false.

(** The shape of the records [load] accumulates: the predicate is one of
    the three relations of [create_edge], the object is a gene id as the
    generator yields it, and the subject is a variant id in which no
    relation followed by the gene prefix occurs. *)
Definition accumulated_shape (e : edge) : Prop :=
  known_predicate (predicate e) /\
  (exists x, object e = "ENSEMBL:" +:+ x) /\
  relation_free (subject e).

(** The variant ids made of what the converter returns for the requests
    of variant tokens are free of relations. *)
Definition relation_free_converter `{Collaborators} : Prop :=
  forall t request hgvs,
    variant_request t = Ok request ->
    convert_variant_to_hgvs request = Some hgvs ->
    relation_free (HGVS +:+ ":" +:+ hgvs).

(** A loader whose accumulator has that shape and whose cached variant
    ids are free of relations. *)
Definition shaped (w : world) : Prop :=
  Forall accumulated_shape (edge_list (self w)) /\
  forall t id, gtex_variant_to_hgvs_lookup (self w) !! t = Some (Some id) ->
               relation_free id.

(** ** Sample data *)

Module Sample.

Definition digit (c : ascii) : option Z :=
  let n := Z.of_nat (nat_of_ascii c) in
  if (48 <=? n)%Z && (n <=? 57)%Z then Some (n - 48)%Z else None.

Fixpoint digits (acc : Z) (s : string) : option Z :=
  match s with
  | EmptyString => Some acc
  | String c rest =>
      match digit c with
      | Some d => digits (10 * acc + d)%Z rest
      | None => None
      end
  end.

(** decimal numerals without sign *)
Definition int (s : string) : option Z :=
  match s with
  | EmptyString => None
  | _ => digits 0 s
  end.

Definition half : spec_float := S754_finite false 4503599627370496 (-53).
Definition minus_half : spec_float := S754_finite true 4503599627370496 (-53).
Definition quarter : spec_float := S754_finite false 4503599627370496 (-54).

(** a few numerals that binary64 represents exactly *)
Definition float (s : string) : option spec_float :=
  if String.eqb s "0.0" then Some (S754_zero false)
  else if String.eqb s "-0.0" then Some (S754_zero true)
  else if String.eqb s "0.5" then Some half
  else if String.eqb s "-0.5" then Some minus_half
  else if String.eqb s "0.25" then Some quarter
  else if String.eqb s "nan" then Some S754_nan
  else if String.eqb s "inf" then Some (S754_infinity false)
  else None.

(** a conversion that gives up on the alternate allele [N] *)
Definition convert (r : hgvs_request) : option string :=
  if String.eqb (alt_allele r) "N" then None
  else Some ("chr" +:+ chromosome r +:+ ":g." +:+ ref_allele r +:+ ">" +:+ alt_allele r).

#[export] Instance collaborators : Collaborators := {|
  HGVS := "HGVS";
  SEQUENCE_VARIANT := "biolink:SequenceVariant";
  GENE := "biolink:Gene";
  convert_variant_to_hgvs := convert;
  node_normalization_lookup := fun _ => [];
  py_int := int;
  py_float := float
|}.

Definition tab : string := String "009" EmptyString.

(** a line of a tissue table from its columns *)
Definition row (columns : list string) : string := String.concat tab columns.

Definition tissues : gmap string string :=
  {[ "Liver" := "UBERON:0002107"; "Lung" := "UBERON:0002048" ]}.

Definition table_row (variant gene pval slope : string) : string :=
  row [variant; gene; "1"; "2"; "3"; "4"; pval; slope; "8"; "9"; "10"; "11"].

Definition header : string := table_row "variant_id" "gene_id" "pval_nominal" "slope".

(** an accumulated edge as [create_edge] builds it *)
Definition record (s o p a : string) (pv sl : spec_float) : edge :=
  {| subject := s; object := o; predicate := p;
     expressed_in := a; p_value := pv; slope := sl |}.

(** a loader that has accumulated the edges [l] *)
Definition accumulated (l : list edge) : world :=
  with_self (set_edge_list l) (init_world tissues).

(** Two records whose triples differ although the concatenations of
    subject, predicate and object agree. *)
Definition short_subject : edge :=
  record "HGVS:x"
         "ENSEMBL:wCTD:increases_expression_ofENSEMBL:G"
         "CTD:increases_expression_of" "UBERON:0002107" quarter half.

Definition long_subject : edge :=
  record "HGVS:xCTD:increases_expression_ofENSEMBL:w"
         "ENSEMBL:G"
         "CTD:increases_expression_of" "UBERON:0002048" half quarter.

(** An sQTL line with twelve columns whose phenotype id has four
    components, followed by a regular line. *)
Definition short_phenotype_line : string :=
  table_row "chr1_100_A_T_b38" "chr1:497299:498399:clu_51878" "0.25" "0.5".

Definition regular_sqtl_line : string :=
  table_row "chr1_200_A_T_b38" "chr1:497299:498399:clu_51878:ENSG00000237094.11"
            "0.25" "0.5".

Definition sqtl_archive : list tar_member :=
  [ {| name := "GTEx_Analysis_v8_sQTL/Liver.v8.sqtl_signifpairs.txt.gz";
       lines := [header; short_phenotype_line; regular_sqtl_line] |} ].

Definition eqtl_archive : list tar_member :=
  [ {| name := "GTEx_Analysis_v8_eQTL/Liver.v8.signif_variant_gene_pairs.txt.gz";
       lines := [header;
                 table_row "chr1_100_A_T_b38" "ENSG00000227232.5" "0.25" "0.5"] |} ].

(** An eQTL archive with a slope that is not a number. *)
Definition bad_slope_archive : list tar_member :=
  [ {| name := "GTEx_Analysis_v8_eQTL/Liver.v8.signif_variant_gene_pairs.txt.gz";
       lines := [header;
                 table_row "chr1_100_A_T_b38" "ENSG00000227232.5" "0.25" "abc";
                 table_row "chr1_200_A_T_b38" "ENSG00000227232.5" "0.25" "0.5"] |} ].

(** An eQTL archive whose only variant does not convert. *)
Definition unresolved_archive : list tar_member :=
  [ {| name := "GTEx_Analysis_v8_eQTL/Liver.v8.signif_variant_gene_pairs.txt.gz";
       lines := [header;
                 table_row "chr1_100_A_N_b38" "ENSG00000227232.5" "0.25" "0.5"] |} ].

(** An sQTL archive with one regular line. *)
Definition good_sqtl_archive : list tar_member :=
  [ {| name := "GTEx_Analysis_v8_sQTL/Liver.v8.sqtl_signifpairs.txt.gz";
       lines := [header;
                 table_row "chr1_100_A_T_b38"
                   "chr1:497299:498399:clu_51878:ENSG00000227232.5"
                   "0.25" "-0.5"] |} ].

(** An archive whose only member is not a table of significant pairs. *)
Definition readme_archive : list tar_member :=
  [ {| name := "GTEx_Analysis_v8_eQTL/README.txt"; lines := [] |} ].

(** An eQTL archive whose first line has a slope that is not a number
    and a variant that does not convert. *)
Definition unresolved_bad_slope_archive : list tar_member :=
  [ {| name := "GTEx_Analysis_v8_eQTL/Liver.v8.signif_variant_gene_pairs.txt.gz";
       lines := [header;
                 table_row "chr1_100_A_N_b38" "ENSG00000227232.5" "0.25" "abc";
                 table_row "chr1_200_A_T_b38" "ENSG00000227232.5" "0.25" "0.5"] |} ].

(** An sQTL archive with a p-value that is not a number. *)
Definition bad_pvalue_sqtl_archive : list tar_member :=
  [ {| name := "GTEx_Analysis_v8_sQTL/Liver.v8.sqtl_signifpairs.txt.gz";
       lines := [header;
                 table_row "chr1_100_A_T_b38"
                   "chr1:497299:498399:clu_51878:ENSG00000227232.5"
                   "n/a" "-0.5"] |} ].

(** A table of significant pairs of a tissue that is not in the anatomy
    table, and an archive with that member before the liver table. *)
Definition unknown_tissue_member : tar_member :=
  {| name := "GTEx_Analysis_v8_eQTL/Spleen.v8.signif_variant_gene_pairs.txt.gz";
     lines := [header;
               table_row "chr1_300_A_T_b38" "ENSG00000227232.5" "0.25" "0.5"] |}.

Definition unknown_tissue_archive : list tar_member :=
  unknown_tissue_member :: eqtl_archive.

(** An archive with such a member before a table of significant pairs. *)
Definition mixed_archive : list tar_member :=
  {| name := "GTEx_Analysis_v8_eQTL/README.txt"; lines := [] |} :: eqtl_archive.

End Sample.

(** * Properties *)

(** ** The order on sort keys *)

Module KeyOrder.

Lemma string_compare_refl s : String_as_OT.compare s s = Eq.
Proof.
  destruct (String_as_OT.compare_spec s s) as [_|Hlt|Hlt]; [reflexivity | |];
    exfalso; exact (irreflexivity String_as_OT.lt s Hlt).
Qed.

Lemma string_compare_eq a b : String_as_OT.compare a b = Eq -> a = b.
Proof.
  destruct (String_as_OT.compare_spec a b) as [Heq|_|_]; [auto | discriminate ..].
Qed.

Lemma string_lt_trans a b c :
  String_as_OT.compare a b = Lt -> String_as_OT.compare b c = Lt ->
  String_as_OT.compare a c = Lt.
Proof. exact (transitivity (R := String_as_OT.lt) (x := a) (y := b) (z := c)). Qed.

Lemma string_lt_irrefl a : String_as_OT.compare a a <> Lt.
Proof. rewrite string_compare_refl. discriminate. Qed.

Lemma string_gt_lt a b :
  String_as_OT.compare a b = Gt -> String_as_OT.compare b a = Lt.
Proof.
  destruct (String_as_OT.compare_spec a b) as [_|_|Hlt]; [discriminate .. | auto].
Qed.

Lemma string_lt_gt a b :
  String_as_OT.compare a b = Lt -> String_as_OT.compare b a = Gt.
Proof.
  intros Hab. destruct (String_as_OT.compare b a) eqn:Hba; [| |reflexivity].
  - apply string_compare_eq in Hba. subst. now apply string_lt_irrefl in Hab.
  - exfalso. apply (string_lt_irrefl a). eapply string_lt_trans; eauto.
Qed.

(** case analysis on the comparison of two strings, with what each
    outcome says about the pair and about the reversed pair *)
Lemma string_cases a b :
  (a = b /\ String_as_OT.compare a b = Eq) \/
  (String_as_OT.compare a b = Lt /\ String_as_OT.compare b a = Gt /\ a <> b) \/
  (String_as_OT.compare a b = Gt /\ String_as_OT.compare b a = Lt /\ a <> b).
Proof.
  destruct (String_as_OT.compare a b) eqn:Hab.
  - left. split; [now apply string_compare_eq | reflexivity].
  - right; left. repeat split; [now apply string_lt_gt |].
    intros ->. now apply string_lt_irrefl in Hab.
  - right; right. repeat split; [now apply string_gt_lt |].
    intros ->. rewrite string_compare_refl in Hab. discriminate.
Qed.

Lemma ltb_irrefl k : Py.tuple_ltb k k = false.
Proof.
  destruct k as [[a b] c]. unfold Py.tuple_ltb, Py.tuple_compare.
  now rewrite !string_compare_refl.
Qed.

Lemma ltb_total j k :
  Py.tuple_ltb j k = false -> Py.tuple_ltb k j = false -> j = k.
Proof.
  destruct j as [[a1 a2] a3], k as [[b1 b2] b3].
  unfold Py.tuple_ltb, Py.tuple_compare.
  destruct (string_cases a1 b1) as [[-> ->]|[(-> & -> & _)|(-> & -> & _)]];
    try discriminate.
  destruct (string_cases a2 b2) as [[-> ->]|[(-> & -> & _)|(-> & -> & _)]];
    try discriminate.
  destruct (string_cases a3 b3) as [[-> ->]|[(-> & -> & _)|(-> & -> & _)]];
    try discriminate.
  reflexivity.
Qed.

Lemma ltb_trans i j k :
  Py.tuple_ltb i j = true -> Py.tuple_ltb j k = true -> Py.tuple_ltb i k = true.
Proof.
  destruct i as [[a1 a2] a3], j as [[b1 b2] b3], k as [[c1 c2] c3].
  unfold Py.tuple_ltb, Py.tuple_compare.
  destruct (string_cases a1 b1) as [[-> ->]|[(H1 & _ & _)|(-> & _ & _)]];
    try discriminate.
  - destruct (string_cases b1 c1) as [[-> ->]|[(-> & _ & _)|(-> & _ & _)]];
      try discriminate; [|reflexivity].
    destruct (string_cases a2 b2) as [[-> ->]|[(H2 & _ & _)|(-> & _ & _)]];
      try discriminate.
    + destruct (string_cases b2 c2) as [[-> ->]|[(-> & _ & _)|(-> & _ & _)]];
        try discriminate; [|reflexivity].
      destruct (String_as_OT.compare a3 b3) eqn:H3; try discriminate.
      destruct (String_as_OT.compare b3 c3) eqn:H3'; try discriminate.
      now rewrite (string_lt_trans _ _ _ H3 H3').
    + rewrite H2.
      destruct (string_cases b2 c2) as [[-> ->]|[(H2' & _ & _)|(-> & _ & _)]];
        try discriminate.
      * now rewrite H2.
      * now rewrite (string_lt_trans _ _ _ H2 H2').
  - rewrite H1.
    destruct (string_cases b1 c1) as [[-> ->]|[(H1' & _ & _)|(-> & _ & _)]];
      try discriminate.
    + now rewrite H1.
    + now rewrite (string_lt_trans _ _ _ H1 H1').
Qed.

Lemma le_refl k : tuple_le k k.
Proof. apply ltb_irrefl. Qed.

Lemma le_trans i j k : tuple_le i j -> tuple_le j k -> tuple_le i k.
Proof.
  unfold tuple_le. intros Hij Hjk.
  destruct (Py.tuple_ltb k i) eqn:Hki; [|reflexivity].
  destruct (Py.tuple_ltb i j) eqn:Hlt.
  - now rewrite (ltb_trans _ _ _ Hki Hlt) in Hjk.
  - assert (i = j) by now apply ltb_total. subst. congruence.
Qed.

Lemma le_antisym j k : tuple_le j k -> tuple_le k j -> j = k.
Proof. unfold tuple_le. intros. now apply ltb_total. Qed.

Lemma lt_le j k : Py.tuple_ltb j k = true -> tuple_le j k.
Proof.
  unfold tuple_le. intros Hjk. destruct (Py.tuple_ltb k j) eqn:Hkj; [|reflexivity].
  now rewrite <- (ltb_trans _ _ _ Hjk Hkj), ltb_irrefl.
Qed.

Lemma lt_ne j k : Py.tuple_ltb j k = true -> j <> k.
Proof. intros Hjk ->. now rewrite ltb_irrefl in Hjk. Qed.

End KeyOrder.

(** ** The stable sort of the accumulator *)

Module Sorting.

Lemma insert_perm x l : Permutation (insert_edge x l) (x :: l).
Proof.
  induction l as [|y l IH]; simpl; [reflexivity|].
  destruct (Py.tuple_ltb (sort_key y) (sort_key x)); [|reflexivity].
  rewrite IH. apply perm_swap.
Qed.

Lemma sorted_perm l : Permutation (sorted_edges l) l.
Proof.
  induction l as [|x l IH]; simpl; [reflexivity|].
  rewrite insert_perm. now constructor.
Qed.

Lemma insert_strongly_sorted x l :
  StronglySorted key_le l -> StronglySorted key_le (insert_edge x l).
Proof.
  induction 1 as [|y l Hl IH Hy]; simpl.
  - repeat constructor.
  - destruct (Py.tuple_ltb (sort_key y) (sort_key x)) eqn:Hlt.
    + constructor; [exact IH|].
      rewrite insert_perm. constructor; [|exact Hy].
      now apply KeyOrder.lt_le.
    + constructor; [now constructor|].
      constructor; [exact Hlt|].
      eapply Forall_impl; [exact Hy|].
      intros z Hz. eapply KeyOrder.le_trans; [exact Hlt | exact Hz].
Qed.

Lemma sorted_strongly_sorted l : StronglySorted key_le (sorted_edges l).
Proof.
  induction l as [|x l IH]; simpl; [constructor|].
  now apply insert_strongly_sorted.
Qed.

(** Stability: an inserted record goes in front of the records that
    share its key, and the other keys do not see it. *)
Lemma with_key_insert k x l :
  with_key k (insert_edge x l) =
  if decide (sort_key x = k) then x :: with_key k l else with_key k l.
Proof.
  unfold with_key. induction l as [|y l IH]; simpl.
  - rewrite filter_cons, filter_nil. reflexivity.
  - destruct (Py.tuple_ltb (sort_key y) (sort_key x)) eqn:Hlt.
    + apply KeyOrder.lt_ne in Hlt.
      rewrite !(filter_cons _ y), IH.
      destruct (decide (sort_key x = k)), (decide (sort_key y = k));
        congruence.
    + rewrite (filter_cons _ x). reflexivity.
Qed.

Lemma with_key_sorted k l : with_key k (sorted_edges l) = with_key k l.
Proof.
  induction l as [|x l IH]; simpl; [reflexivity|].
  rewrite with_key_insert, IH. unfold with_key at 3.
  rewrite filter_cons. reflexivity.
Qed.

Lemma with_key_all k l : Forall (fun e => sort_key e = k) (with_key k l).
Proof.
  apply Forall_forall. intros e He.
  now apply list_elem_of_filter in He as [? _].
Qed.

Lemma filter_none {A} (P : A -> Prop) `{forall x, Decision (P x)} (l : list A) :
  Forall (fun x => ~ P x) l -> filter P l = [].
Proof.
  induction 1 as [|x l Hx _ IH]; [reflexivity|].
  now rewrite filter_cons_False.
Qed.

Lemma filter_all {A} (P : A -> Prop) `{forall x, Decision (P x)} (l : list A) :
  Forall P l -> filter P l = l.
Proof.
  induction 1 as [|x l Hx _ IH]; [reflexivity|].
  rewrite filter_cons_True by assumption. now rewrite IH.
Qed.

Lemma strongly_sorted_filter (P : edge -> Prop) `{forall x, Decision (P x)} l :
  StronglySorted key_le l -> StronglySorted key_le (filter P l).
Proof.
  induction 1 as [|y l Hl IH Hy]; [constructor|].
  rewrite filter_cons. destruct (decide (P y)); [|exact IH].
  constructor; [exact IH|].
  apply Forall_forall. intros z Hz.
  apply list_elem_of_filter in Hz as [_ Hz].
  rewrite Forall_forall in Hy. now apply Hy.
Qed.

(** In a sorted list the records with the least key come first. *)
Lemma sorted_split k l :
  StronglySorted key_le l ->
  Forall (fun y => tuple_le k (sort_key y)) l ->
  l = with_key k l ++ filter (fun e => sort_key e <> k) l.
Proof.
  unfold with_key.
  induction 1 as [|y l Hl IH Hy]; intros Hmin; [reflexivity|].
  apply Forall_cons in Hmin as [Hky Hmin].
  destruct (decide (sort_key y = k)) as [Heq|Hne].
  - rewrite filter_cons_True by assumption.
    rewrite (filter_cons_False (fun e => sort_key e <> k)) by tauto.
    simpl. f_equal. now apply IH.
  - rewrite filter_cons_False by assumption.
    rewrite (filter_cons_True (fun e => sort_key e <> k)) by assumption.
    assert (Hall : Forall (fun e => sort_key e <> k) l).
    { eapply Forall_impl; [exact Hy|]. intros z Hyz Hz. apply Hne.
      apply KeyOrder.le_antisym; [|exact Hky]. rewrite <- Hz. exact Hyz. }
    rewrite (filter_all (fun e => sort_key e <> k)) by assumption.
    rewrite filter_none; [reflexivity|].
    eapply Forall_impl; [exact Hall|]. intros z Hz. exact Hz.
Qed.

Lemma head_least x l :
  StronglySorted key_le (x :: l) ->
  Forall (fun y => tuple_le (sort_key x) (sort_key y)) (x :: l).
Proof.
  intros Hs. apply StronglySorted_inv in Hs as [_ Hx].
  constructor; [apply KeyOrder.le_refl | exact Hx].
Qed.

(** Sorted rearrangements of one another start with the same key. *)
Lemma same_least_key x l x' l' :
  StronglySorted key_le (x :: l) -> StronglySorted key_le (x' :: l') ->
  Permutation (x :: l) (x' :: l') -> sort_key x = sort_key x'.
Proof.
  intros Hs Hs' Hp.
  apply head_least in Hs, Hs'. rewrite Forall_forall in Hs, Hs'.
  apply KeyOrder.le_antisym.
  - apply Hs. rewrite Hp. left.
  - apply Hs'. rewrite <- Hp. left.
Qed.

Lemma with_key_rest k k' l :
  with_key k' (filter (fun e => sort_key e <> k) l) =
  if decide (k' = k) then [] else with_key k' l.
Proof.
  unfold with_key. rewrite list_filter_filter.
  destruct (decide (k' = k)) as [->|Hne].
  - apply filter_none. apply Forall_forall. tauto.
  - apply list_filter_iff. intros e. split; [tauto|].
    intros He. split; [exact He | congruence].
Qed.

Lemma sorted_blockwise (Q : list edge -> list edge -> Prop) :
  Q [] [] ->
  forall n l l', List.length l = n ->
  StronglySorted key_le l -> StronglySorted key_le l' ->
  Permutation l l' ->
  (forall k, Q (with_key k l) (with_key k l')) ->
  blockwise Q l l'.
Proof.
  intros Hnil n. induction n as [n IH] using lt_wf_ind.
  intros l l' Hn Hs Hs' Hp HQ.
  destruct l as [|x t].
  - apply Permutation_nil in Hp. subst. constructor.
  - destruct l' as [|x' t'].
    { symmetry in Hp. now apply Permutation_nil in Hp. }
    pose proof (same_least_key _ _ _ _ Hs Hs' Hp) as Hk.
    set (k := sort_key x) in *.
    pose proof (sorted_split k _ Hs (head_least _ _ Hs)) as Hl.
    pose proof (head_least _ _ Hs') as Hleast'. rewrite <- Hk in Hleast'.
    pose proof (sorted_split k _ Hs' Hleast') as Hl'.
    rewrite Hl, Hl'.
    apply blockwise_block with (k := k);
      [apply with_key_all | apply with_key_all | apply HQ |].
    eapply (IH (List.length (filter (fun e => sort_key e <> k) (x :: t))));
      [ | reflexivity | now apply strongly_sorted_filter
        | now apply strongly_sorted_filter | now rewrite Hp | ].
    + subst n. apply (length_filter_lt _ _ x); [left|]. unfold k. tauto.
    + intros k'. rewrite !with_key_rest.
      destruct (decide (k' = k)); [exact Hnil | apply HQ].
Qed.

Lemma blockwise_eq l l' : blockwise eq l l' -> l = l'.
Proof. induction 1; congruence. Qed.

(** The sorted forms of two rearrangements of one list. *)
Lemma sorted_of_permutation l l' :
  Permutation l l' -> blockwise (@Permutation edge) (sorted_edges l) (sorted_edges l').
Proof.
  intros Hp.
  eapply sorted_blockwise;
    [ constructor | reflexivity | apply sorted_strongly_sorted
      | apply sorted_strongly_sorted | now rewrite !sorted_perm | ].
  intros k. rewrite !with_key_sorted. unfold with_key. now rewrite Hp.
Qed.

(** The sort sees nothing of the input order but the relative order of
    the records that share a key. *)
Lemma sorted_of_same_key_order l l' :
  Permutation l l' ->
  (forall k, with_key k l = with_key k l') ->
  sorted_edges l = sorted_edges l'.
Proof.
  intros Hp Hk. apply blockwise_eq.
  eapply sorted_blockwise;
    [ reflexivity | reflexivity | apply sorted_strongly_sorted
      | apply sorted_strongly_sorted | now rewrite !sorted_perm | ].
  intros k. rewrite !with_key_sorted. apply Hk.
Qed.

End Sorting.

(** ** The scan of the sorted accumulator *)

Module Coalescing.

Lemma group_key_of_sort_key a b :
  sort_key a = sort_key b -> group_key a = group_key b.
Proof. unfold sort_key, group_key. intros [= -> -> ->]. reflexivity. Qed.

Lemma triple_of_sort_key a b : sort_key a = sort_key b <-> triple a = triple b.
Proof. unfold sort_key, triple. split; intros [= -> -> ->]; reflexivity. Qed.

Lemma runs_head x l : exists g gs, runs (x :: l) = (x, g) :: gs.
Proof.
  simpl. destruct (runs l) as [|[y g] gs]; [now eauto|].
  destruct (String.eqb (group_key x) (group_key y)); eauto.
Qed.

(** A block of records with one group key in front of a list joins the
    first run of that list or stands as a run of its own. *)
Lemma runs_block x b t :
  Forall (fun e => group_key e = group_key x) b ->
  runs ((x :: b) ++ t) =
  match runs t with
  | (y, g) :: gs =>
      if String.eqb (group_key x) (group_key y)
      then (x, b ++ y :: g) :: gs
      else (x, b) :: (y, g) :: gs
  | [] => [(x, b)]
  end.
Proof.
  revert x. induction b as [|x' b IH]; intros x Hb.
  - reflexivity.
  - apply Forall_cons in Hb as [Hx' Hb].
    change (runs ((x :: x' :: b) ++ t))
      with (match runs ((x' :: b) ++ t) with
            | (y, g) :: gs =>
                if String.eqb (group_key x) (group_key y)
                then (x, y :: g) :: gs
                else (x, []) :: (y, g) :: gs
            | [] => [(x, [])]
            end).
    rewrite IH by (now rewrite Hx').
    destruct (runs t) as [|[y g] gs].
    + destruct (String.eqb_spec (group_key x) (group_key x')); congruence.
    + rewrite Hx'.
      destruct (String.eqb_spec (group_key x) (group_key y));
        (destruct (String.eqb_spec (group_key x) (group_key x'));
         [reflexivity | congruence]).
Qed.

Lemma runs_uniform x b :
  Forall (fun e => group_key e = group_key x) b -> runs (x :: b) = [(x, b)].
Proof.
  intros Hb. rewrite <- (app_nil_r (x :: b)). now rewrite runs_block.
Qed.

Lemma runs_boundary x b y t :
  Forall (fun e => group_key e = group_key x) b ->
  group_key y <> group_key x ->
  runs ((x :: b) ++ y :: t) = (x, b) :: runs (y :: t).
Proof.
  intros Hb Hne. rewrite runs_block by assumption.
  destruct (runs_head y t) as (g & gs & ->).
  destruct (String.eqb_spec (group_key x) (group_key y)); congruence.
Qed.

(** The records of the runs are the records of the list, in order. *)
Lemma runs_concat l : concat (map run_records (runs l)) = l.
Proof.
  induction l as [|x l IH]; [reflexivity|].
  simpl. destruct (runs l) as [|[y g] gs].
  - simpl in *. now subst.
  - destruct (String.eqb (group_key x) (group_key y));
      simpl in *; now rewrite IH.
Qed.

(** The scan writes one edge per run.  [cur] is the part of the current
    run that has been read. *)
Lemma scan_runs l : forall cur sc k,
  anatomy_ids sc = map expressed_in cur ->
  p_values sc = map p_value cur ->
  slopes sc = map slope cur ->
  Forall (fun r => group_key r = start_group_key sc) cur ->
  (forall c, head (cur ++ l) = Some c ->
             cur_record sc = c /\ start_group_key sc = group_key c) ->
  save_what_is_left (fold_left scan_item l (sc, k)) =
  {| written_nodes := written_nodes k;
     written_edges := written_edges k ++ map run_edge (runs (cur ++ l)) |}.
Proof.
  induction l as [|x l IH]; intros cur sc k Ha Hp Hs Hcur Hhead.
  - rewrite app_nil_r in *. simpl. rewrite Ha, length_map.
    destruct cur as [|c cur].
    + simpl. rewrite app_nil_r. now destruct k.
    + destruct (Hhead c eq_refl) as [Hc Hkey].
      apply Forall_cons in Hcur as [_ Hcur].
      rewrite runs_uniform by (now rewrite <- Hkey).
      simpl. unfold write_edge, coalesced_edge, run_edge, arrays_of, run_records.
      simpl. now rewrite Ha, Hp, Hs, Hc.
  - change (fold_left scan_item (x :: l) (sc, k))
      with (fold_left scan_item l (scan_item (sc, k) x)).
    unfold scan_item at 2.
    destruct (String.eqb_spec (group_key x) (start_group_key sc)) as [Heq|Hne];
      simpl negb; cbv iota.
    + replace (cur ++ x :: l) with ((cur ++ [x]) ++ l)
        by (now rewrite <- app_assoc).
      apply IH; simpl.
      * now rewrite Ha, map_app.
      * now rewrite Hp, map_app.
      * now rewrite Hs, map_app.
      * apply Forall_app. split; [exact Hcur|]. now repeat constructor.
      * intros c Hc. apply Hhead. now rewrite <- app_assoc in Hc.
    + destruct cur as [|c cur].
      { destruct (Hhead x eq_refl) as [_ Hkey]. congruence. }
      destruct (Hhead c eq_refl) as [Hc Hkey].
      apply Forall_cons in Hcur as [_ Hcur].
      rewrite runs_boundary by (rewrite <- Hkey; assumption).
      rewrite (IH [x]); simpl; try reflexivity.
      * f_equal. rewrite <- app_assoc. f_equal. simpl. f_equal.
        unfold coalesced_edge, run_edge, arrays_of, run_records.
        simpl. now rewrite Ha, Hp, Hs, Hc.
      * now repeat constructor.
      * intros c' [= <-]. now split.
Qed.

(** [coalesce_and_write_edges] in closed form. *)
Lemma coalesce_and_write_edges_runs w :
  coalesce_and_write_edges w =
  match sorted_edges (edge_list (self w)) with
  | [] => Raise IndexError
  | sorted_list =>
      Ok {| self := set_edge_list sorted_list (self w);
            kgx_file_writer :=
              {| written_nodes := written_nodes (kgx_file_writer w);
                 written_edges := written_edges (kgx_file_writer w)
                                  ++ map run_edge (runs sorted_list) |};
            conversions := conversions w |}
  end.
Proof.
  unfold coalesce_and_write_edges.
  destruct (sorted_edges (edge_list (self w))) as [|item rest] eqn:Hsorted;
    [reflexivity|].
  change (Py.index (item :: rest) 0) with (Ok item).
  cbn [mbind result_bind].
  rewrite (scan_runs (item :: rest) []); try reflexivity.
  - constructor.
  - intros c [= <-]. now split.
Qed.

Lemma coalesced_edges_runs w :
  coalesced_edges w =
  match sorted_edges (edge_list (self w)) with
  | [] => Raise IndexError
  | sorted_list => Ok (map run_edge (runs sorted_list))
  end.
Proof.
  unfold coalesced_edges. rewrite coalesce_and_write_edges_runs.
  destruct (sorted_edges (edge_list (self w))); [reflexivity|].
  cbn [mbind result_bind kgx_file_writer written_edges].
  now rewrite drop_app_length.
Qed.

Lemma sorted_nil_iff l : sorted_edges l = [] <-> l = [].
Proof.
  split; [|now intros ->].
  intros Hs. apply Permutation_nil. rewrite <- Hs.
  apply Sorting.sorted_perm.
Qed.

End Coalescing.

(** ** Coalescing and the order of the accumulator *)

Module CoalescingOrder.

Lemma lookup_map {A B} (f : A -> B) (l : list A) (i : nat) :
  map f l !! i = f <$> l !! i.
Proof.
  revert i. induction l as [|x l IH]; intros [|i]; simpl; auto.
Qed.

Lemma combine_map {A B C} (f : A -> B) (g : A -> C) (l : list A) :
  combine (map f l) (map g l) = map (fun x => (f x, g x)) l.
Proof. induction l as [|x l IH]; simpl; [reflexivity | now rewrite IH]. Qed.

Lemma run_edge_observations r :
  edge_observations (run_edge r) = map observation (run_records r).
Proof.
  unfold edge_observations, run_edge, arrays_of.
  cbn [properties prop_expressed_in prop_p_value prop_slope].
  rewrite combine_map.
  rewrite (combine_map (fun x => (expressed_in x, p_value x)) slope).
  reflexivity.
Qed.

(** Lists with the same key blocks have the same runs, up to the order
    of the records inside a run. *)
Lemma runs_blockwise l l' :
  blockwise (@Permutation edge) l l' ->
  Forall2 (fun r r' => sort_key (fst r) = sort_key (fst r') /\
                       Permutation (run_records r) (run_records r'))
          (runs l) (runs l').
Proof.
  induction 1 as [|k b b' t t' Hb Hb' Hp _ IH]; [constructor|].
  destruct b as [|x b].
  { apply Permutation_nil in Hp. now subst. }
  destruct b' as [|x' b'].
  { symmetry in Hp. now apply Permutation_nil in Hp. }
  apply Forall_cons in Hb as [Hx Hb], Hb' as [Hx' Hb'].
  assert (Hgx : group_key x = group_key x')
    by (apply Coalescing.group_key_of_sort_key; congruence).
  rewrite !Coalescing.runs_block.
  - destruct IH as [|[y g] [y' g'] gs gs' [Hy Hg] Hgs].
    + repeat constructor; [simpl; congruence | exact Hp].
    + simpl in Hy.
      pose proof (Coalescing.group_key_of_sort_key _ _ Hy) as Hgy.
      rewrite <- Hgx, <- Hgy.
      destruct (String.eqb (group_key x) (group_key y)).
      * constructor; [|exact Hgs]. split; [simpl; congruence|].
        unfold run_records in *. simpl in *.
        change (Permutation ((x :: b) ++ y :: g) ((x' :: b') ++ y' :: g')).
        now apply Permutation_app.
      * constructor; [split; [simpl; congruence | exact Hp]|].
        constructor; [|exact Hgs]. split; [exact Hy | exact Hg].
  - eapply Forall_impl; [exact Hb'|]. intros e He.
    apply Coalescing.group_key_of_sort_key. congruence.
  - eapply Forall_impl; [exact Hb|]. intros e He.
    apply Coalescing.group_key_of_sort_key. congruence.
Qed.

End CoalescingOrder.

(** ** The edge coalescer: statements *)

Lemma runs_records_in l r e :
  r ∈ runs l -> e ∈ run_records r -> e ∈ l.
Proof.
  intros Hr He. rewrite <- (Coalescing.runs_concat l).
  apply list_elem_of_In, in_concat. exists (run_records r).
  split; [apply in_map|]; now apply list_elem_of_In.
Qed.

(** C9. Called on an empty accumulator, [coalesce_and_write_edges] raises
    [IndexError] while priming the first record; it is the only input on
    which it does so, and on that input nothing is written. *)
Theorem coalesce_empty_accumulator_raises (w : world) :
  coalesce_and_write_edges w = Raise IndexError <-> edge_list (self w) = [].
Proof.
  rewrite Coalescing.coalesce_and_write_edges_runs.
  rewrite <- Coalescing.sorted_nil_iff.
  destruct (Py.sorted Py.tuple_ltb sort_key (edge_list (self w)));
    split; intros; congruence.
Qed.

Lemma coalesce_empty_accumulator_raises_witness :
  coalesce_and_write_edges (Sample.accumulated []) = Raise IndexError.
Proof.
  apply (coalesce_empty_accumulator_raises (Sample.accumulated [])).
  reflexivity.
Defined.

(** C4. Every edge that [coalesce_and_write_edges] writes has three
    property arrays of one length, and at every index the three values
    are those of one record of the accumulator.  The call writes edges
    whenever the accumulator is not empty. *)
Theorem coalesced_edge_arrays_aligned (w : world) :
  match coalesced_edges w with
  | Ok es => es <> [] /\ Forall (aligned_with (edge_list (self w))) es
  | Raise _ => edge_list (self w) = []
  end.
Proof.
  rewrite Coalescing.coalesced_edges_runs.
  destruct (Py.sorted Py.tuple_ltb sort_key (edge_list (self w)))
    as [|x sl] eqn:Hsorted.
  { now apply Coalescing.sorted_nil_iff. }
  split.
  { destruct (Coalescing.runs_head x sl) as (g & gs & ->). discriminate. }
  apply Forall_forall. intros e He.
  apply list_elem_of_In, in_map_iff in He as (r & <- & Hr).
  apply list_elem_of_In in Hr.
  unfold aligned_with, run_edge, arrays_of.
  cbn [properties prop_expressed_in prop_p_value prop_slope].
  rewrite !length_map. repeat split.
  intros i a pv s. rewrite !CoalescingOrder.lookup_map.
  destruct (run_records r !! i) as [e|] eqn:Hi; [|discriminate].
  intros [= <-] [= <-] [= <-]. exists e. repeat split.
  rewrite <- (Sorting.sorted_perm (edge_list (self w))), Hsorted.
  apply (runs_records_in _ r); [exact Hr|].
  now apply list_elem_of_lookup_2 in Hi.
Qed.

(** C3. Coalescing does not depend on the order of the accumulator: two
    accumulators that are rearrangements of one another lead to the same
    written edges, with the same triples and, per edge, the same
    observations up to their order; and the order of the observations
    inside an edge is fixed by the relative order of the records that
    share a sort key. *)
Theorem coalescing_order_invariant (w w' : world) :
  Permutation (edge_list (self w)) (edge_list (self w')) ->
  match coalesced_edges w, coalesced_edges w' with
  | Ok es, Ok es' => Forall2 same_edge_up_to_order es es'
  | Raise e, Raise e' => e = e'
  | _, _ => False
  end /\
  ((forall k, with_key k (edge_list (self w)) = with_key k (edge_list (self w'))) ->
   coalesced_edges w = coalesced_edges w').
Proof.
  intros Hp. rewrite !Coalescing.coalesced_edges_runs. split.
  - pose proof (Sorting.sorted_of_permutation _ _ Hp) as Hb.
    apply CoalescingOrder.runs_blockwise in Hb.
    assert (Hnil : Py.sorted Py.tuple_ltb sort_key (edge_list (self w)) = [] <->
                   Py.sorted Py.tuple_ltb sort_key (edge_list (self w')) = []).
    { rewrite !Coalescing.sorted_nil_iff. split; intros H; rewrite H in Hp.
      - now apply Permutation_nil.
      - symmetry in Hp. now apply Permutation_nil. }
    destruct (Py.sorted Py.tuple_ltb sort_key (edge_list (self w))) as [|x sl],
             (Py.sorted Py.tuple_ltb sort_key (edge_list (self w'))) as [|x' sl'];
      try reflexivity; try (now destruct Hnil as [H1 H2]; (discriminate H1 || discriminate H2)).
    apply Forall2_fmap. eapply Forall2_impl; [exact Hb|].
    intros r r' [Hk Hr]. unfold same_edge_up_to_order. repeat split.
    + unfold written_triple, run_edge. simpl.
      unfold sort_key in Hk. congruence.
    + rewrite !CoalescingOrder.run_edge_observations.
      now apply Permutation_map.
  - intros Hk. now rewrite (Sorting.sorted_of_same_key_order _ _ Hp Hk).
Qed.

Lemma coalescing_order_invariant_witness :
  coalesced_edges (Sample.accumulated [Sample.long_subject; Sample.short_subject]) =
  coalesced_edges (Sample.accumulated [Sample.short_subject; Sample.long_subject]).
Proof.
  apply (coalescing_order_invariant
           (Sample.accumulated [Sample.long_subject; Sample.short_subject])
           (Sample.accumulated [Sample.short_subject; Sample.long_subject])).
  - simpl. apply perm_swap.
  - intros k. unfold with_key. simpl.
    rewrite !filter_cons, !filter_nil.
    repeat case_decide; try reflexivity.
    all: match goal with
         | H1 : _ = ?x, H2 : _ = ?x |- _ =>
             rewrite <- H1 in H2; vm_compute in H2; discriminate H2
         end.
Defined.

(** The scan delimits its groups by the concatenation of subject,
    predicate and object.  On a hand-written accumulator whose subject
    contains a relation followed by the gene prefix, two records with
    different triples have the same concatenation, and one edge is
    written for the two of them.  The loop of [load] accumulates no such
    record, see [accumulated_shape]. *)
Example colliding_group_keys_are_merged :
  triple Sample.short_subject <> triple Sample.long_subject /\
  exists e,
    coalesced_edges (Sample.accumulated [Sample.long_subject; Sample.short_subject])
      = Ok [e] /\
    written_triple e = triple Sample.short_subject /\
    prop_expressed_in (properties e) =
      [expressed_in Sample.short_subject; expressed_in Sample.long_subject].
Proof.
  split; [discriminate|].
  eexists. split; [vm_compute; reflexivity|]. split; reflexivity.
Qed.

(** ** The variant cache *)

Section VariantCache.
Context `{Collaborators}.

Lemma process_variant_cached t v w :
  gtex_variant_to_hgvs_lookup (self w) !! t = Some v ->
  process_variant t w = Ok (v, w).
Proof. unfold process_variant. now intros ->. Qed.

Lemma observe_cached t v w :
  gtex_variant_to_hgvs_lookup (self w) !! t = Some v ->
  observe t w = Ok (later_resolution t v, w).
Proof.
  intros Hc. unfold observe. rewrite (process_variant_cached _ _ _ Hc).
  cbn [mbind result_bind]. now rewrite !drop_all.
Qed.

(** The first call for a well-formed token: one conversion request, the
    node if there is one, and the outcome in the cache. *)
Lemma observe_fresh t req w :
  gtex_variant_to_hgvs_lookup (self w) !! t = None ->
  variant_request t = Ok req ->
  exists w',
    observe t w = Ok (first_resolution t req, w') /\
    gtex_variant_to_hgvs_lookup (self w') !! t = Some (resolved_id req) /\
    forall t', t' <> t ->
      gtex_variant_to_hgvs_lookup (self w') !! t' =
      gtex_variant_to_hgvs_lookup (self w) !! t'.
Proof.
  intros Hc Hreq. unfold observe, process_variant. rewrite Hc, Hreq.
  cbn [mbind result_bind].
  unfold first_resolution, resolved_id, resolved_nodes.
  destruct (Py.truthy (convert_variant_to_hgvs req)) as [hgvs|];
    cbn [mbind result_bind]; eexists; (split; [|split]).
  - cbn. now rewrite !drop_app_length.
  - cbn. now rewrite lookup_insert_eq.
  - intros t' Hne. cbn. now rewrite !lookup_insert_ne by congruence.
  - cbn. now rewrite drop_app_length, drop_all.
  - cbn. now rewrite lookup_insert_eq.
  - intros t' Hne. cbn. now rewrite lookup_insert_ne by congruence.
Qed.

(** A call for a well-formed token returns, and leaves the cache entries
    of the other tokens alone. *)
Lemma observe_other t t' w :
  is_ok (variant_request t') = true -> t' <> t ->
  exists o w',
    observe t' w = Ok (o, w') /\ token o = t' /\
    gtex_variant_to_hgvs_lookup (self w') !! t =
    gtex_variant_to_hgvs_lookup (self w) !! t.
Proof.
  intros Hok Hne.
  destruct (gtex_variant_to_hgvs_lookup (self w) !! t') as [v|] eqn:Hc.
  - eexists _, w. rewrite (observe_cached _ _ _ Hc). now repeat split.
  - destruct (variant_request t') as [req|] eqn:Hreq; [|discriminate].
    destruct (observe_fresh _ _ _ Hc Hreq) as (w' & Ho & _ & Hother).
    eexists _, w'. rewrite Ho. repeat split. apply Hother. congruence.
Qed.

(** Once the outcome for [t] is cached, every further call for [t]
    returns it and does nothing else. *)
Lemma process_variants_cached t v ts : forall w,
  gtex_variant_to_hgvs_lookup (self w) !! t = Some v ->
  Forall (fun t' => is_ok (variant_request t') = true) ts ->
  exists os w',
    process_variants ts w = Ok (os, w') /\
    filter (fun o => token o = t) os =
      replicate (List.length (filter (fun t' => t' = t) ts)) (later_resolution t v).
Proof.
  induction ts as [|t' ts IH]; intros w Hc Hts.
  - eexists [], w. now split.
  - apply Forall_cons in Hts as [Hok Hts].
    destruct (decide (t' = t)) as [->|Hne].
    + destruct (IH w Hc Hts) as (os & w' & Hos & Hfilter).
      eexists (later_resolution t v :: os), w'.
      cbn [process_variants]. rewrite (observe_cached _ _ _ Hc).
      cbn [mbind result_bind]. rewrite Hos. cbn [mbind result_bind].
      split; [reflexivity|].
      rewrite !filter_cons_True by reflexivity. cbn. now rewrite Hfilter.
    + destruct (observe_other t t' w Hok Hne) as (o & w1 & Ho & Htok & Hkeep).
      rewrite <- Hkeep in Hc.
      destruct (IH w1 Hc Hts) as (os & w' & Hos & Hfilter).
      eexists (o :: os), w'.
      cbn [process_variants]. rewrite Ho. cbn [mbind result_bind].
      rewrite Hos. cbn [mbind result_bind]. split; [reflexivity|].
      rewrite !filter_cons_False by congruence. exact Hfilter.
Qed.

(** C5. Take a token [t] that is well formed, so that its conversion is
    attempted, and that has not been seen, and any sequence of calls of
    [process_variant] on well-formed tokens.  The sequence runs to its
    end, and the calls for [t] in it are: a first one, which makes the
    one conversion request and, when the conversion gives an HGVS
    string, writes the one variant node and returns the canonical id,
    and otherwise writes nothing and returns no id; then calls that
    return the same result, convert nothing and write nothing. *)
Theorem process_variant_memoized (t : string) (req : hgvs_request)
    (ts : list string) (w : world) :
  variant_request t = Ok req ->
  gtex_variant_to_hgvs_lookup (self w) !! t = None ->
  Forall (fun t' => is_ok (variant_request t') = true) ts ->
  exists os w',
    process_variants ts w = Ok (os, w') /\
    filter (fun o => token o = t) os =
      match List.length (filter (fun t' => t' = t) ts) with
      | O => []
      | S n => first_resolution t req
               :: replicate n (later_resolution t (resolved_id req))
      end.
Proof.
  intros Hreq. revert w. induction ts as [|t' ts IH]; intros w Hc Hts.
  - eexists [], w. now split.
  - apply Forall_cons in Hts as [Hok Hts].
    destruct (decide (t' = t)) as [->|Hne].
    + destruct (observe_fresh _ _ _ Hc Hreq) as (w1 & Ho & Hcached & _).
      destruct (process_variants_cached _ _ ts w1 Hcached Hts)
        as (os & w' & Hos & Hfilter).
      eexists (first_resolution t req :: os), w'.
      cbn [process_variants]. rewrite Ho. cbn [mbind result_bind].
      rewrite Hos. cbn [mbind result_bind]. split; [reflexivity|].
      rewrite !filter_cons_True by reflexivity. cbn. now rewrite Hfilter.
    + destruct (observe_other t t' w Hok Hne) as (o & w1 & Ho & Htok & Hkeep).
      rewrite <- Hkeep in Hc.
      destruct (IH w1 Hc Hts) as (os & w' & Hos & Hfilter).
      eexists (o :: os), w'.
      cbn [process_variants]. rewrite Ho. cbn [mbind result_bind].
      rewrite Hos. cbn [mbind result_bind]. split; [reflexivity|].
      rewrite !filter_cons_False by congruence. exact Hfilter.
Qed.

End VariantCache.

Section VariantCacheSample.
#[local] Existing Instance Sample.collaborators.

Lemma process_variant_memoized_witness :
  let t := "chr1_100_A_T_b38" in
  let ts := [t; "chr1_100_A_N_b38"; t; t] in
  exists os w',
    process_variants ts (init_world Sample.tissues) = Ok (os, w') /\
    filter (fun o => token o = t) os =
      match List.length (filter (fun t' => t' = t) ts) with
      | O => []
      | S n =>
          first_resolution t
            {| chromosome := "1"; position := 100; ref_allele := "A";
               alt_allele := "T"; reference_genome := "b38";
               reference_patch := "p1" |}
          :: replicate n (later_resolution t (Some "HGVS:chr1:g.A>T"))
      end.
Proof.
  intros t ts.
  refine (process_variant_memoized t
            {| chromosome := "1"; position := 100; ref_allele := "A";
               alt_allele := "T"; reference_genome := "b38";
               reference_patch := "p1" |} ts (init_world Sample.tissues) _ _ _).
  - vm_compute. reflexivity.
  - vm_compute. reflexivity.
  - repeat constructor.
Defined.

End VariantCacheSample.

(** ** Dropped relationships and edge creation *)

Section EdgeCreation.
Context `{Collaborators}.

Lemma canonical_id_truthy (hgvs : string) :
  Py.truthy (Some (HGVS +:+ ":" +:+ hgvs)) = Some (HGVS +:+ ":" +:+ hgvs).
Proof.
  unfold Py.truthy. destruct (HGVS +:+ ":" +:+ hgvs) eqn:Hs; [|reflexivity].
  destruct HGVS; discriminate.
Qed.

(** The id a conversion leads to passes the [if variant_id:] test of
    [load]: a relationship is dropped only on the no-id result. *)
Lemma fresh_variant_id_truthy t w v w1 :
  gtex_variant_to_hgvs_lookup (self w) !! t = None ->
  process_variant t w = Ok (v, w1) ->
  Py.truthy v = v.
Proof.
  unfold process_variant. intros ->.
  destruct (variant_request t) as [req|]; cbn [mbind result_bind];
    [|discriminate].
  destruct (Py.truthy (convert_variant_to_hgvs req)) as [hgvs|];
    intros [= <- _]; [apply canonical_id_truthy | reflexivity].
Qed.

(** The gene registrar and the edge accumulator leave the variant cache
    alone, so the calls of C5 may be interleaved with them. *)
Lemma process_gene_keeps_variant_cache g w g' w1 :
  process_gene g w = Ok (g', w1) ->
  gtex_variant_to_hgvs_lookup (self w1) = gtex_variant_to_hgvs_lookup (self w).
Proof.
  unfold process_gene. destruct (decide _); [now intros [= _ <-]|].
  destruct (Py.index _ _); cbn [mbind result_bind]; [|discriminate].
  now intros [= _ <-].
Qed.

Lemma create_edge_keeps_variant_cache a v g p s is_sqtl w w1 :
  create_edge a v g p s is_sqtl w = Ok w1 ->
  gtex_variant_to_hgvs_lookup (self w1) = gtex_variant_to_hgvs_lookup (self w).
Proof.
  unfold create_edge, float_of.
  destruct is_sqtl, (py_float s), (py_float p); cbn [mbind result_bind];
    try discriminate; now intros [= <-].
Qed.

(** A call of [process_variant] that returns no id touches nothing but
    the variant caches and the record of conversion requests. *)
Lemma process_variant_no_id t w w1 :
  process_variant t w = Ok (None, w1) ->
  kgx_file_writer w1 = kgx_file_writer w /\
  written_genes (self w1) = written_genes (self w) /\
  edge_list (self w1) = edge_list (self w) /\
  anatomy_id_lookup (self w1) = anatomy_id_lookup (self w).
Proof.
  unfold process_variant.
  destruct (gtex_variant_to_hgvs_lookup (self w) !! t) as [v|].
  - intros [= -> ->]. now repeat split.
  - destruct (variant_request t) as [req|]; cbn [mbind result_bind];
      [|discriminate].
    destruct (Py.truthy (convert_variant_to_hgvs req)) as [hgvs|].
    + discriminate.
    + intros [= <-]. now repeat split.
Qed.

(** C6. When the variant of a relationship resolves to no id, the loop
    body of [load] ends there: it returns, no gene is registered, no
    edge is accumulated, and nothing is written to the sink. *)
Theorem unresolved_variant_drops_relationship (is_sqtl : bool)
    (anatomy_id gtex_variant gtex_gene p_value slope : string) (w w1 : world) :
  process_variant gtex_variant w = Ok (None, w1) ->
  load_relationship is_sqtl (anatomy_id, gtex_variant, gtex_gene, p_value, slope) w
    = Ok w1 /\
  written_genes (self w1) = written_genes (self w) /\
  edge_list (self w1) = edge_list (self w) /\
  kgx_file_writer w1 = kgx_file_writer w.
Proof.
  intros Hv. destruct (process_variant_no_id _ _ _ Hv) as (Hk & Hg & He & _).
  unfold load_relationship. rewrite Hv. cbn [mbind result_bind Py.truthy].
  now repeat split.
Qed.

Lemma not_positive_of_le_zero (x : spec_float) :
  SFleb x (S754_zero false) = true -> positive x = false.
Proof.
  unfold positive, SFleb, SFltb.
  destruct x as [s|s| |s m e]; try destruct s; simpl; congruence.
Qed.

Lemma positive_iff_above_zero (x : spec_float) :
  positive x = true <-> above_zero x.
Proof.
  unfold positive, above_zero, SFltb.
  destruct x as [s|s| |s m e]; try destruct s; cbn; split;
    try discriminate; try (intros (z & [= <-] & Hz); lia);
    try (intros (z & Hz & _); discriminate);
    intros _; eexists; (split; [reflexivity | lia]).
Qed.

(** C7. With a slope and a p-value that read as numbers, [create_edge]
    appends one edge.  On the eQTL dataset its predicate is the
    increases-expression relation exactly when the slope stands for a
    number greater than zero, and the decreases-expression relation
    otherwise, in particular for a zero or negative slope; on the sQTL
    dataset it is the affects-splicing relation, whatever the slope. *)
Theorem create_edge_predicate (anatomy_id variant_id gene_id p_value slope : string)
    (p s : spec_float) (w : world) :
  py_float p_value = Some p ->
  py_float slope = Some s ->
  let appended predicate :=
    Ok (with_self (fun l =>
          set_edge_list
            (edge_list l ++ [{| subject := variant_id;
                                object := gene_id;
                                predicate := predicate;
                                expressed_in := anatomy_id;
                                p_value := p;
                                slope := s |}]) l) w) in
  (exists predicate,
     create_edge anatomy_id variant_id gene_id p_value slope false w
       = appended predicate /\
     (predicate = increases_expression <-> above_zero s) /\
     (~ above_zero s -> predicate = decreases_expression) /\
     (SFleb s (S754_zero false) = true -> predicate = decreases_expression)) /\
  create_edge anatomy_id variant_id gene_id p_value slope true w
    = appended affects_splicing.
Proof.
  intros Hp Hs appended. unfold create_edge, float_of. rewrite Hp, Hs.
  cbn [mbind result_bind]. split; [|reflexivity].
  eexists. split; [reflexivity|].
  rewrite <- positive_iff_above_zero.
  destruct (positive s) eqn:Hpos; repeat split; try discriminate; auto.
  - intros Hnot. now contradiction Hnot.
  - intros Hle. apply not_positive_of_le_zero in Hle. congruence.
Qed.

Lemma load_relationships_app is_sqtl pre post w :
  load_relationships is_sqtl (pre ++ post) w =
  load_relationships is_sqtl pre w ≫= load_relationships is_sqtl post.
Proof.
  revert w. induction pre as [|r pre IH]; intros w; [reflexivity|].
  cbn [app load_relationships].
  destruct (load_relationship is_sqtl r w) as [w1|e];
    cbn [mbind result_bind]; [apply IH | reflexivity].
Qed.

End EdgeCreation.

Section EdgeCreationSample.
#[local] Existing Instance Sample.collaborators.

Lemma unresolved_variant_drops_relationship_witness :
  let t := "chr1_100_A_N_b38" in
  let w := init_world Sample.tissues in
  let w1 :=
    cache_variant t None
      (with_self (set_failed_variants {[t]})
         (record_conversion
            {| chromosome := "1"; position := 100; ref_allele := "A";
               alt_allele := "N"; reference_genome := "b38";
               reference_patch := "p1" |} w)) in
  load_relationship false ("UBERON:0002107", t, "ENSEMBL:ENSG00000227232", "0.25", "0.5") w
    = Ok w1 /\
  written_genes (self w1) = written_genes (self w) /\
  edge_list (self w1) = edge_list (self w) /\
  kgx_file_writer w1 = kgx_file_writer w.
Proof.
  intros t w w1.
  refine (unresolved_variant_drops_relationship false
            "UBERON:0002107" t "ENSEMBL:ENSG00000227232" "0.25" "0.5" w w1 _).
  vm_compute. reflexivity.
Defined.

Lemma create_edge_predicate_witness :
  create_edge "UBERON:0002107" "HGVS:chr1:g.A>T" "ENSEMBL:ENSG00000227232"
              "0.25" "0.5" false (init_world Sample.tissues)
  = Ok (Sample.accumulated
          [Sample.record "HGVS:chr1:g.A>T" "ENSEMBL:ENSG00000227232"
                         "CTD:increases_expression_of" "UBERON:0002107"
                         Sample.quarter Sample.half]) /\
  create_edge "UBERON:0002107" "HGVS:chr1:g.A>T" "ENSEMBL:ENSG00000227232"
              "0.25" "0.5" true (init_world Sample.tissues)
  = Ok (Sample.accumulated
          [Sample.record "HGVS:chr1:g.A>T" "ENSEMBL:ENSG00000227232"
                         "CTD:affects_splicing_of" "UBERON:0002107"
                         Sample.quarter Sample.half]).
Proof.
  destruct (create_edge_predicate
              "UBERON:0002107" "HGVS:chr1:g.A>T" "ENSEMBL:ENSG00000227232"
              "0.25" "0.5" Sample.quarter Sample.half
              (init_world Sample.tissues))
    as [(predicate & Hcreate & Hincreases & _) Hsplicing].
  - vm_compute. reflexivity.
  - vm_compute. reflexivity.
  - split; [|exact Hsplicing].
    rewrite Hcreate.
    assert (Hp : predicate = increases_expression).
    { apply Hincreases. exists 4503599627370496%Z. split; [reflexivity | lia]. }
    rewrite Hp. reflexivity.
Defined.

(** The boundary of C7: a slope of zero on the eQTL dataset gives the
    decreases-expression relation, and so does a slope that is not a
    number at all. *)
Example zero_slope_decreases_expression :
  create_edge "UBERON:0002107" "HGVS:chr1:g.A>T" "ENSEMBL:ENSG00000227232"
              "0.25" "0.0" false (init_world Sample.tissues)
  = Ok (Sample.accumulated
          [Sample.record "HGVS:chr1:g.A>T" "ENSEMBL:ENSG00000227232"
                         "CTD:decreases_expression_of" "UBERON:0002107"
                         Sample.quarter (S754_zero false)]) /\
  create_edge "UBERON:0002107" "HGVS:chr1:g.A>T" "ENSEMBL:ENSG00000227232"
              "0.25" "nan" false (init_world Sample.tissues)
  = Ok (Sample.accumulated
          [Sample.record "HGVS:chr1:g.A>T" "ENSEMBL:ENSG00000227232"
                         "CTD:decreases_expression_of" "UBERON:0002107"
                         Sample.quarter S754_nan]).
Proof. split; vm_compute; reflexivity. Qed.

(** An unparsable slope on a whole run: the second line of the table is
    never loaded. *)
Example bad_slope_aborts_load :
  load Sample.bad_slope_archive Sample.sqtl_archive (init_world Sample.tissues)
  = Raise (SourceDataFailedError ValueError).
Proof. vm_compute. reflexivity. Qed.

End EdgeCreationSample.

(** ** The archive reader and the record parser: statements *)

Module Parser.

Lemma index_raises {A} (l : list A) i e : Py.index l i = Raise e -> e = IndexError.
Proof. unfold Py.index. destruct (l !! i); congruence. Qed.

(** The only exception the body of the [try] block can raise is
    [IndexError], which the [except KeyError] clause does not catch. *)
Lemma extraction_raises_index_error is_sqtl anatomy_id line_split e :
  extract_relationship is_sqtl anatomy_id line_split = Raise e -> e = IndexError.
Proof.
  unfold extract_relationship.
  repeat
    (match goal with
     | |- context [Py.index ?l ?i] =>
         let Hi := fresh "Hi" in
         destruct (Py.index l i) eqn:Hi;
         [|apply index_raises in Hi; cbn [mbind result_bind]; congruence]
     | |- context [if ?b then _ else _] => destruct b
     end; cbn [mbind result_bind]);
    discriminate.
Qed.

(** An sQTL line whose phenotype id has fewer than five components. *)
Lemma short_phenotype_raises anatomy_id line_split variant phenotype :
  line_split !! 0 = Some variant ->
  line_split !! 1 = Some phenotype ->
  List.length (Py.split ":" phenotype) <= 4 ->
  extract_relationship true anatomy_id line_split = Raise IndexError.
Proof.
  intros H0 H1 Hlen. unfold extract_relationship, Py.index.
  unfold variant_column_index, gene_column_index. rewrite H0, H1.
  cbn [mbind result_bind].
  rewrite (lookup_ge_None_2 (Py.split ":" phenotype) 4) by exact Hlen.
  reflexivity.
Qed.

(** Such a line ends the generator: the lines after it are not read. *)
Lemma short_phenotype_stops_parsing anatomy_id member i line rest variant phenotype :
  List.length (Py.split "009" line) = 12 ->
  Py.split "009" line !! 0 = Some variant ->
  Py.split "009" line !! 1 = Some phenotype ->
  List.length (Py.split ":" phenotype) <= 4 ->
  parse_lines true anatomy_id member i (line :: rest) = raising IndexError.
Proof.
  intros H12 H0 H1 Hlen. cbn [parse_lines]. rewrite H12. cbn [Nat.eqb negb].
  now rewrite (short_phenotype_raises _ _ _ _ H0 H1 Hlen).
Qed.

Lemma parse_lines_no_gzip_open is_sqtl anatomy_id member n ls : forall i,
  GzipOpen n ∉ actions (parse_lines is_sqtl anatomy_id member i ls).
Proof.
  induction ls as [|line ls IH]; intros i; cbn [parse_lines].
  - apply not_elem_of_nil.
  - destruct (negb _).
    + cbn. rewrite elem_of_cons. intros [?|?]; [discriminate | now apply (IH (S i))].
    + destruct (extract_relationship _ _ _) as [r|[]]; cbn;
        try apply not_elem_of_nil;
        rewrite elem_of_cons; (intros [?|?]; [discriminate | now apply (IH (S i))]).
Qed.

(** A decompressing stream is only ever opened on a member whose name
    contains the marker. *)
Lemma gzip_open_only_on_marked is_sqtl lookup tar_files n :
  GzipOpen n ∈ actions (parse_members is_sqtl lookup tar_files) ->
  Py.contains "signif" n = true.
Proof.
  induction tar_files as [|m rest IH]; cbn [parse_members].
  - cbn. intros Hin. now apply not_elem_of_nil in Hin.
  - cbn [doing actions]. rewrite elem_of_cons. intros [?|Hin]; [discriminate|].
    revert Hin. unfold parse_member.
    destruct (Py.contains "signif" (name m)) eqn:Hmark; [|exact IH].
    cbn [doing actions]. rewrite elem_of_cons. intros [?|Hin]; [discriminate|].
    revert Hin.
    destruct (_ ≫= _) as [tissue_name|e]; cbn;
      [|intros Hin; now apply not_elem_of_nil in Hin].
    destruct (lookup !! tissue_name) as [anatomy_id|]; cbn.
    + rewrite elem_of_cons. intros [[= ->]|Hin]; [exact Hmark|].
      revert Hin. destruct (lines m) as [|header ls]; cbn;
        [intros Hin; now apply not_elem_of_nil in Hin|].
      destruct (raised (parse_lines _ _ _ _ _)); cbn.
      * intros Hin. now apply parse_lines_no_gzip_open in Hin.
      * rewrite elem_of_app. intros [Hin|Hin]; [|now apply IH].
        now apply parse_lines_no_gzip_open in Hin.
    + rewrite elem_of_cons. intros [?|Hin]; [discriminate | now apply IH].
Qed.

End Parser.

Section ParserSample.
#[local] Existing Instance Sample.collaborators.

(** C2, at an input where the code departs from it.  The second line of
    the sample sQTL table has twelve columns, and its phenotype id has four
    components where five are expected.  Reading the gene out of it raises
    [IndexError], which the [except KeyError] clause does not catch: the
    generator ends there without a log entry, the regular line after it is
    never parsed, and [load] fails. *)
Theorem short_phenotype_is_fatal :
  let member := "GTEx_Analysis_v8_sQTL/Liver.v8.sqtl_signifpairs.txt.gz" in
  List.length (Py.split "009" Sample.short_phenotype_line) = 12 /\
  is_ok (extract_relationship true "UBERON:0002107"
           (Py.split "009" Sample.regular_sqtl_line)) = true /\
  parse_file_and_yield_relationships Sample.sqtl_archive true
      (init_loader Sample.tissues)
    = {| actions := [Extractfile member; LogReading member; GzipOpen member];
         raised := Some IndexError |} /\
  load Sample.eqtl_archive Sample.sqtl_archive (init_world Sample.tissues)
    = Raise (SourceDataFailedError IndexError).
Proof. repeat split; vm_compute; reflexivity. Qed.

(** C8 as it is stated fails: the handle of a member is obtained before
    its name is looked at, also when the name does not contain the marker. *)
Lemma handle_obtained_for_unmarked_member :
  ~ (forall (tar_files : list tar_member) (is_sqtl : bool) (s : GTExLoader)
            (m : tar_member),
       m ∈ tar_files ->
       Py.contains "signif" (name m) = false ->
       Extractfile (name m)
         ∉ actions (parse_file_and_yield_relationships tar_files is_sqtl s)).
Proof.
  intros Hclaim.
  apply (Hclaim Sample.readme_archive false (init_loader Sample.tissues)
           {| name := "GTEx_Analysis_v8_eQTL/README.txt"; lines := [] |}).
  - left.
  - reflexivity.
  - left.
Qed.

End ParserSample.

Module Handles.

Lemma generator_eta (g : generator) :
  {| actions := actions g; raised := raised g |} = g.
Proof. now destruct g. Qed.

Lemma followed_by_exhausted g : followed_by exhausted g = g.
Proof. unfold followed_by. cbn. apply generator_eta. Qed.

Lemma followed_by_raising e g : followed_by (raising e) g = raising e.
Proof. reflexivity. Qed.

Lemma followed_by_doing a g next :
  followed_by (doing a g) next = doing a (followed_by g next).
Proof. now destruct g as [acts [e|]]. Qed.

Lemma followed_by_assoc g1 g2 g3 :
  followed_by (followed_by g1 g2) g3 = followed_by g1 (followed_by g2 g3).
Proof.
  destruct g1 as [a1 [e1|]], g2 as [a2 [e2|]]; unfold followed_by; cbn;
    try reflexivity.
  now rewrite app_assoc.
Qed.

(** The code for one member, with the code for the rest after it. *)
Lemma parse_member_followed_by is_sqtl lookup m g next :
  parse_member is_sqtl lookup m (followed_by g next)
  = followed_by (parse_member is_sqtl lookup m g) next.
Proof.
  unfold parse_member. destruct (Py.contains "signif" (name m)); [|reflexivity].
  rewrite followed_by_doing. f_equal.
  destruct (_ ≫= _) as [tissue_name|e]; [|reflexivity].
  destruct (lookup !! tissue_name) as [anatomy_id|].
  - rewrite followed_by_doing. f_equal.
    destruct (lines m) as [|header ls]; [reflexivity|]. cbv zeta.
    change (followed_by (parse_lines is_sqtl anatomy_id (name m) 1 ls)
                        (followed_by g next)
            = followed_by (followed_by (parse_lines is_sqtl anatomy_id (name m) 1 ls) g)
                          next).
    now rewrite followed_by_assoc.
  - now rewrite followed_by_doing.
Qed.

Lemma parse_members_app is_sqtl lookup before rest :
  parse_members is_sqtl lookup (before ++ rest)
  = followed_by (parse_members is_sqtl lookup before)
                (parse_members is_sqtl lookup rest).
Proof.
  induction before as [|m before IH]; cbn [parse_members app].
  - now rewrite followed_by_exhausted.
  - now rewrite IH, parse_member_followed_by, followed_by_doing.
Qed.

Lemma parse_lines_handles is_sqtl anatomy_id member ls : forall i,
  handles (parse_lines is_sqtl anatomy_id member i ls) = [].
Proof.
  unfold handles.
  induction ls as [|line ls IH]; intros i; cbn [parse_lines]; [reflexivity|].
  destruct (negb _); [cbn; apply IH|].
  destruct (extract_relationship _ _ _) as [r|[]]; cbn;
    try reflexivity; apply IH.
Qed.

(** The code for one member obtains no handle of its own: either it gives
    way to the code for the rest, or it raises. *)
Lemma parse_member_handles is_sqtl lookup m next :
  (handles (parse_member is_sqtl lookup m next) = handles next /\
   raised (parse_member is_sqtl lookup m next) = raised next) \/
  (handles (parse_member is_sqtl lookup m next) = [] /\
   raised (parse_member is_sqtl lookup m next) <> None).
Proof.
  unfold parse_member. destruct (Py.contains "signif" (name m)); [|now left].
  destruct (_ ≫= _) as [tissue_name|e]; [|now right].
  destruct (lookup !! tissue_name) as [anatomy_id|]; [|now left].
  destruct (lines m) as [|header ls]; [now right|]. cbv zeta.
  pose proof (parse_lines_handles is_sqtl anatomy_id (name m) ls 1) as Hnone.
  destruct (raised (parse_lines _ _ _ _ _)) eqn:Hr.
  - right. unfold handles in *. cbn. rewrite Hr. split; [exact Hnone | discriminate].
  - left. unfold handles in *. cbn. rewrite omap_app, Hnone. now split.
Qed.

Lemma parse_members_handles is_sqtl lookup tar_files :
  exists reached,
    handles (parse_members is_sqtl lookup tar_files)
      = map name (take reached tar_files) /\
    (tar_files <> [] -> 0 < reached) /\
    (raised (parse_members is_sqtl lookup tar_files) = None ->
     reached = List.length tar_files).
Proof.
  induction tar_files as [|m rest (reached & Hh & _ & Hall)]; cbn [parse_members].
  - exists 0. now repeat split.
  - destruct (parse_member_handles is_sqtl lookup m (parse_members is_sqtl lookup rest))
      as [[Hsame Hr]|[Hnone Hr]].
    + exists (S reached). unfold handles in *. cbn. rewrite Hsame, Hh, Hr.
      repeat split; [lia|]. intros Hnoexn. now rewrite (Hall Hnoexn).
    + exists 1. unfold handles in *. cbn. rewrite Hnone, take_0.
      repeat split; [lia|]. intros Hnoexn. now contradiction Hr.
Qed.

End Handles.

(** C8, amended.  The reader obtains the handle of every member it comes
    to, whether or not the name contains the marker, and before anything
    else it does for that member: for every member the generator reaches,
    what it does from there on starts with [extractfile] on that member.
    For a member whose name does not contain the marker that is all it
    does, and it goes on with the rest of the archive; for a member whose
    name contains the marker the log entry comes next.  The handles
    obtained are those of the members reached, in archive order, and of
    all members when the generator does not raise.  A decompressing stream
    is only opened on members whose name contains the marker. *)
Theorem unmarked_member_skipped_after_extractfile
    (tar_files : list tar_member) (is_sqtl : bool) (s : GTExLoader) :
  let parse l := parse_file_and_yield_relationships l is_sqtl s in
  (forall before m rest,
     tar_files = before ++ m :: rest ->
     raised (parse before) = None ->
     exists after,
       actions (parse tar_files)
         = actions (parse before) ++ Extractfile (name m) :: actions after /\
       raised (parse tar_files) = raised after /\
       (Py.contains "signif" (name m) = false -> after = parse rest) /\
       (Py.contains "signif" (name m) = true ->
        exists g, after = doing (LogReading (name m)) g)) /\
  (exists reached,
     handles (parse tar_files) = map name (take reached tar_files) /\
     (tar_files <> [] -> 0 < reached) /\
     (raised (parse tar_files) = None -> reached = List.length tar_files)) /\
  (forall n,
     GzipOpen n ∈ actions (parse tar_files) -> Py.contains "signif" n = true).
Proof.
  intros parse. subst parse. unfold parse_file_and_yield_relationships.
  refine (conj _ (conj _ _)).
  - intros before m rest -> Hbefore.
    exists (parse_member is_sqtl (anatomy_id_lookup s) m
              (parse_members is_sqtl (anatomy_id_lookup s) rest)).
    rewrite Handles.parse_members_app. unfold followed_by. rewrite Hbefore.
    refine (conj eq_refl (conj eq_refl (conj _ _))).
    + intros Hmark. unfold parse_member. now rewrite Hmark.
    + intros Hmark. unfold parse_member. rewrite Hmark. eauto.
  - apply Handles.parse_members_handles.
  - intros n. apply Parser.gzip_open_only_on_marked.
Qed.

Section ReaderSample.
#[local] Existing Instance Sample.collaborators.

Lemma unmarked_member_skipped_after_extractfile_witness :
  let readme := {| name := "GTEx_Analysis_v8_eQTL/README.txt"; lines := [] |} in
  Sample.mixed_archive = [readme] ++ Sample.eqtl_archive /\
  handles (parse_file_and_yield_relationships Sample.mixed_archive false
             (init_loader Sample.tissues))
    = ["GTEx_Analysis_v8_eQTL/README.txt";
       "GTEx_Analysis_v8_eQTL/Liver.v8.signif_variant_gene_pairs.txt.gz"] /\
  actions (parse_file_and_yield_relationships Sample.mixed_archive false
             (init_loader Sample.tissues))
    = Extractfile "GTEx_Analysis_v8_eQTL/README.txt"
      :: actions (parse_file_and_yield_relationships Sample.eqtl_archive false
                    (init_loader Sample.tissues)).
Proof.
  intros readme.
  destruct (unmarked_member_skipped_after_extractfile
              Sample.mixed_archive false (init_loader Sample.tissues))
    as (Hreached & (reached & Hhandles & _ & Hall) & _).
  refine (conj eq_refl (conj _ _)).
  - rewrite Hhandles, (Hall eq_refl). reflexivity.
  - destruct (Hreached [] readme Sample.eqtl_archive eq_refl eq_refl)
      as (after & Hactions & _ & Hunmarked & _).
    rewrite Hactions, (Hunmarked eq_refl). reflexivity.
Defined.

End ReaderSample.

(** ** One edge per triple, when the group key is unambiguous

    Records with different triples and one concatenated key are the
    only input on which the scan merges triples: when the key tells the
    triples of the accumulator apart, there is exactly one written edge
    per triple, and its arrays are those of the records of that triple in
    input order. *)

Module Groups.

Lemma runs_group_key l : forall r e,
  r ∈ runs l -> e ∈ run_records r -> group_key e = group_key (fst r).
Proof.
  induction l as [|x l IH]; intros r e Hr He.
  - now apply not_elem_of_nil in Hr.
  - cbn [runs] in Hr. destruct (runs l) as [|[y g] gs].
    + apply list_elem_of_singleton in Hr as ->.
      now apply list_elem_of_singleton in He as ->.
    + destruct (String.eqb_spec (group_key x) (group_key y)) as [Hxy|Hxy].
      * apply elem_of_cons in Hr as [->|Hr].
        -- apply elem_of_cons in He as [->|He]; [reflexivity|].
           cbn [fst snd] in *. rewrite Hxy.
           apply (IH (y, g)); [left | exact He].
        -- apply IH; [now right | exact He].
      * apply elem_of_cons in Hr as [->|Hr].
        -- now apply list_elem_of_singleton in He as ->.
        -- now apply IH.
Qed.

Lemma run_head_in l r : r ∈ runs l -> fst r ∈ l.
Proof. intros Hr. apply (runs_records_in l r); [exact Hr | left]. Qed.

(** In a sorted list no two runs start with the same triple. *)
Lemma run_triples_nodup l :
  StronglySorted key_le l -> NoDup (map (fun r => triple (fst r)) (runs l)).
Proof.
  induction 1 as [|x l Hs IH Hx]; [constructor|].
  destruct l as [|y l]; [repeat constructor; apply not_elem_of_nil|].
  assert (Hbetween : forall r, r ∈ runs (y :: l) ->
            triple (fst r) = triple x -> triple y = triple x).
  { intros r Hr Hrx. apply run_head_in in Hr.
    apply Coalescing.triple_of_sort_key. apply Coalescing.triple_of_sort_key in Hrx.
    apply KeyOrder.le_antisym.
    - apply Sorting.head_least in Hs. rewrite Forall_forall in Hs.
      unfold tuple_le. rewrite <- Hrx. now apply Hs.
    - apply Forall_cons in Hx as [Hxy _]. exact Hxy. }
  change (runs (x :: y :: l))
    with (match runs (y :: l) with
          | (y, g) :: gs =>
              if String.eqb (group_key x) (group_key y)
              then (x, y :: g) :: gs
              else (x, []) :: (y, g) :: gs
          | [] => [(x, [])]
          end).
  destruct (Coalescing.runs_head y l) as (g & gs & Hruns).
  rewrite Hruns in *. cbn [map fst] in IH.
  apply NoDup_cons in IH as [Hy IH].
  assert (Hgs : triple x ∉ map (fun r => triple (fst r)) gs).
  { intros Hin. apply list_elem_of_In, in_map_iff in Hin as (r & Hr & Hin).
    apply list_elem_of_In in Hin. apply Hy.
    rewrite (Hbetween r); [|now right|exact Hr].
    rewrite <- Hr. apply list_elem_of_In, in_map_iff. exists r.
    split; [reflexivity | now apply list_elem_of_In]. }
  destruct (String.eqb_spec (group_key x) (group_key y)) as [Hxy|Hxy];
    cbn [map fst]; apply NoDup_cons.
  - split; [exact Hgs | exact IH].
  - split.
    + rewrite not_elem_of_cons. split; [|exact Hgs].
      intros Ht. apply Hxy. apply Coalescing.group_key_of_sort_key.
      now apply Coalescing.triple_of_sort_key.
    + apply NoDup_cons. split; [exact Hy | exact IH].
Qed.

(** Runs that keep to one triple each, and start with different triples,
    are the blocks of the records of a triple. *)
Lemma run_is_triple_block (rs : list (edge * list edge)) :
  NoDup (map (fun r => triple (fst r)) rs) ->
  (forall r e, r ∈ rs -> e ∈ run_records r -> triple e = triple (fst r)) ->
  forall r, r ∈ rs ->
    filter (fun e => triple e = triple (fst r)) (concat (map run_records rs))
    = run_records r.
Proof.
  induction rs as [|r0 rs IH]; intros Hnd Hone r Hr.
  - now apply not_elem_of_nil in Hr.
  - cbn [map concat fst] in *. apply NoDup_cons in Hnd as [Hr0 Hnd].
    rewrite filter_app.
    assert (Hin : forall r', r' ∈ rs ->
              triple (fst r') ∈ map (fun r => triple (fst r)) rs).
    { intros r' Hr'. apply list_elem_of_In, in_map_iff. exists r'.
      split; [reflexivity | now apply list_elem_of_In]. }
    apply elem_of_cons in Hr as [->|Hr].
    + rewrite Sorting.filter_all, Sorting.filter_none; [apply app_nil_r| |].
      * apply Forall_forall. intros e He Heq.
        apply list_elem_of_In, in_concat in He as (rec & Hrec & He).
        apply in_map_iff in Hrec as (r' & <- & Hr').
        apply list_elem_of_In in He, Hr'.
        apply Hr0. rewrite <- Heq, (Hone r' e); [now apply Hin|now right|exact He].
      * apply Forall_forall. intros e He. apply Hone; [left | exact He].
    + rewrite Sorting.filter_none.
      * apply IH; [exact Hnd | | exact Hr].
        intros r' e Hr' He. apply Hone; [now right | exact He].
      * apply Forall_forall. intros e He Heq. apply Hr0.
        rewrite <- (Hone r0 e); [|left|exact He]. rewrite Heq. now apply Hin.
Qed.

(** X3. When the concatenated group key tells the triples of a non-empty
    accumulator apart, [coalesce_and_write_edges] writes exactly one edge
    per triple of the accumulator, and the arrays of the edge are those of
    the records of that triple, in the order the accumulator has them. *)
Lemma one_edge_per_triple (w : world) :
  edge_list (self w) <> [] ->
  unambiguous (edge_list (self w)) ->
  exists es,
    coalesced_edges w = Ok es /\
    NoDup (map written_triple es) /\
    (forall t, t ∈ map written_triple es <-> t ∈ map triple (edge_list (self w))) /\
    Forall (fun e =>
              properties e =
              arrays_of (filter (fun r => triple r = written_triple e)
                                (edge_list (self w)))) es.
Proof.
  intros Hne Hun. rewrite Coalescing.coalesced_edges_runs.
  set (l := edge_list (self w)) in *.
  pose proof (Sorting.sorted_perm l) as Hperm.
  pose proof (Sorting.sorted_strongly_sorted l) as Hsorted.
  destruct (Py.sorted Py.tuple_ltb sort_key l) as [|x sl] eqn:HL.
  { exfalso. apply Hne. now apply Coalescing.sorted_nil_iff. }
  eexists. split; [reflexivity|].
  assert (Hone : forall r e, r ∈ runs (x :: sl) -> e ∈ run_records r ->
                   triple e = triple (fst r)).
  { intros r e Hr He. apply Hun.
    - rewrite <- Hperm. now apply (runs_records_in _ r).
    - rewrite <- Hperm. now apply run_head_in.
    - now apply (runs_group_key (x :: sl)). }
  assert (Htriples : map written_triple (map run_edge (runs (x :: sl)))
                     = map (fun r => triple (fst r)) (runs (x :: sl))).
  { rewrite map_map. reflexivity. }
  rewrite Htriples. split; [now apply run_triples_nodup|]. split.
  - intros t. split; intros Ht.
    + apply list_elem_of_In, in_map_iff in Ht as (r & <- & Hr).
      apply list_elem_of_In, in_map. apply list_elem_of_In.
      rewrite <- Hperm. apply run_head_in. now apply list_elem_of_In.
    + apply list_elem_of_In, in_map_iff in Ht as (e & <- & He).
      apply list_elem_of_In in He. rewrite <- Hperm in He.
      rewrite <- (Coalescing.runs_concat (x :: sl)) in He.
      apply list_elem_of_In, in_concat in He as (rec & Hrec & He).
      apply in_map_iff in Hrec as (r & <- & Hr).
      apply list_elem_of_In in He, Hr.
      rewrite (Hone r e Hr He).
      apply list_elem_of_In, in_map_iff. exists r.
      split; [reflexivity | now apply list_elem_of_In].
  - apply Forall_forall. intros e He.
    apply list_elem_of_In, in_map_iff in He as (r & <- & Hr).
    apply list_elem_of_In in Hr.
    change (written_triple (run_edge r)) with (triple (fst r)).
    unfold run_edge. cbn [properties]. f_equal.
    rewrite <- (run_is_triple_block (runs (x :: sl)));
      [|now apply run_triples_nodup|exact Hone|exact Hr].
    rewrite Coalescing.runs_concat, <- HL.
    transitivity (with_key (sort_key (fst r)) (Py.sorted Py.tuple_ltb sort_key l)).
    + apply list_filter_iff. intros e. symmetry. apply Coalescing.triple_of_sort_key.
    + rewrite Sorting.with_key_sorted. apply list_filter_iff. intros e.
      apply Coalescing.triple_of_sort_key.
Qed.

End Groups.

(** ** Whole runs on the sample archives *)

Section RunSample.
#[local] Existing Instance Sample.collaborators.

(** The example of the spec for the coalescer: two records of one triple
    from two tissues become one edge with index-aligned arrays. *)
Example two_tissues_one_edge :
  coalesced_edges
    (Sample.accumulated
       [Sample.record "A" "B" "P" "X" Sample.quarter Sample.half;
        Sample.record "A" "B" "P" "Y" Sample.half Sample.minus_half])
  = Ok [{| subject_id := "A";
           object_id := "B";
           edge_predicate := "P";
           original_knowledge_source := "infores:gtex";
           properties :=
             {| prop_expressed_in := ["X"; "Y"];
                prop_p_value := [Sample.quarter; Sample.half];
                prop_slope := [Sample.half; Sample.minus_half] |} |}].
Proof. vm_compute. reflexivity. Qed.

(** A run on one eQTL line and one sQTL line of the same variant and gene:
    the variant and the gene are written once, and each dataset gives one
    edge. *)
Example load_sample_archives :
  let sqtl :=
    [ {| name := "GTEx_Analysis_v8_sQTL/Liver.v8.sqtl_signifpairs.txt.gz";
         lines := [Sample.header;
                   Sample.table_row "chr1_100_A_T_b38"
                     "chr1:497299:498399:clu_51878:ENSG00000227232.5"
                     "0.25" "-0.5"] |} ] in
  match load Sample.eqtl_archive sqtl (init_world Sample.tissues) with
  | Ok w =>
      map node_id (written_nodes (kgx_file_writer w))
        = ["HGVS:chr1:g.A>T"; "ENSEMBL:ENSG00000227232"] /\
      map written_triple (written_edges (kgx_file_writer w))
        = [("HGVS:chr1:g.A>T", "CTD:increases_expression_of",
            "ENSEMBL:ENSG00000227232");
           ("HGVS:chr1:g.A>T", "CTD:affects_splicing_of",
            "ENSEMBL:ENSG00000227232")] /\
      List.length (conversions w) = 1 /\
      edge_list (self w) = []
  | Raise _ => False
  end.
Proof. vm_compute. repeat split. Qed.

(** C9 on a whole run: when no relationship of the eQTL dataset survives
    variant resolution, the accumulator is empty at coalescing time and
    [load] fails. *)
Example empty_accumulator_aborts_load :
  let w := init_world Sample.tissues in
  match
    consume false
      (parse_file_and_yield_relationships Sample.unresolved_archive false (self w)) w
  with
  | Ok w' => edge_list (self w') = [] /\ written_nodes (kgx_file_writer w') = []
  | Raise _ => False
  end /\
  load Sample.unresolved_archive [] w = Raise (SourceDataFailedError IndexError).
Proof. vm_compute. repeat split. Qed.

End RunSample.

(** * Further properties of the loader *)

(** ** The coalescer *)

Module Written.

Lemma run_heads_sorted l :
  StronglySorted key_le l -> StronglySorted key_le (map fst (runs l)).
Proof.
  induction 1 as [|x l Hs IH Hx]; [constructor|].
  assert (Hle : Forall (key_le x) (map fst (runs l))).
  { apply Forall_forall. intros y Hy.
    apply list_elem_of_In, in_map_iff in Hy as (r & <- & Hr).
    rewrite Forall_forall in Hx. apply Hx.
    apply Groups.run_head_in. now apply list_elem_of_In. }
  cbn [runs]. destruct (runs l) as [|[y g] gs]; [repeat constructor|].
  cbn [map fst] in *.
  apply StronglySorted_inv in IH as [IH Hy].
  apply Forall_cons in Hle as [Hxy Hle].
  destruct (String.eqb (group_key x) (group_key y)); cbn [map fst].
  - now constructor.
  - constructor; [now constructor | now constructor].
Qed.

(** A sorted list without two equal keys is strictly increasing. *)
Lemma strictly_sorted (l : list edge) :
  StronglySorted key_le l -> NoDup (map sort_key l) ->
  StronglySorted (fun a b => Py.tuple_ltb (sort_key a) (sort_key b) = true) l.
Proof.
  induction 1 as [|x l Hs IH Hx]; intros Hnd; [constructor|].
  cbn [map] in Hnd. apply NoDup_cons in Hnd as [Hx' Hnd].
  constructor; [now apply IH|].
  apply Forall_forall. intros y Hy. rewrite Forall_forall in Hx.
  destruct (Py.tuple_ltb (sort_key x) (sort_key y)) eqn:Hlt; [reflexivity|].
  exfalso. apply Hx'.
  rewrite (KeyOrder.ltb_total _ _ Hlt (Hx y Hy)).
  apply list_elem_of_In, in_map. now apply list_elem_of_In.
Qed.

Lemma run_heads_nodup l :
  StronglySorted key_le l -> NoDup (map sort_key (map fst (runs l))).
Proof.
  intros Hs. apply Groups.run_triples_nodup in Hs.
  rewrite map_map.
  eapply (NoDup_fmap_1 (fun k : string * string * string =>
                          (k.1.1, k.2, k.1.2))).
  rewrite <- list_fmap_compose. exact Hs.
Qed.

Lemma strongly_sorted_map {A B} (R : B -> B -> Prop) (f : A -> B) (l : list A) :
  StronglySorted (fun a b => R (f a) (f b)) l -> StronglySorted R (map f l).
Proof.
  induction 1 as [|x l Hs IH Hx]; [constructor|].
  cbn [map]. constructor; [exact IH|].
  apply Forall_forall. intros y Hy.
  apply list_elem_of_In, in_map_iff in Hy as (a & <- & Ha).
  rewrite Forall_forall in Hx. apply Hx. now apply list_elem_of_In.
Qed.

Lemma strongly_sorted_map_inv {A B} (R : B -> B -> Prop) (f : A -> B) (l : list A) :
  StronglySorted R (map f l) -> StronglySorted (fun a b => R (f a) (f b)) l.
Proof.
  induction l as [|x l IH]; cbn [map]; intros Hs; [constructor|].
  apply StronglySorted_inv in Hs as [Hs Hx].
  constructor; [now apply IH|].
  apply Forall_forall. intros y Hy. rewrite Forall_forall in Hx.
  apply Hx. apply list_elem_of_In, in_map. now apply list_elem_of_In.
Qed.

Lemma sorted_idempotent l : sorted_edges (sorted_edges l) = sorted_edges l.
Proof.
  apply Sorting.sorted_of_same_key_order; [apply Sorting.sorted_perm|].
  intros k. apply Sorting.with_key_sorted.
Qed.

End Written.

(** X1. Coalescing loses and invents no observation: the observations of
    the written edges, taken together, are those of the accumulator, each
    as often as it is there.  This holds whether or not group keys
    collide. *)
Theorem coalescing_conserves_observations (w : world) :
  match coalesced_edges w with
  | Ok es =>
      Permutation (concat (map edge_observations es))
                  (map observation (edge_list (self w)))
  | Raise _ => edge_list (self w) = []
  end.
Proof.
  rewrite Coalescing.coalesced_edges_runs.
  destruct (sorted_edges (edge_list (self w))) as [|x sl] eqn:Hsorted.
  { now apply Coalescing.sorted_nil_iff. }
  rewrite map_map.
  rewrite (map_ext _ (fun r => map observation (run_records r)))
    by apply CoalescingOrder.run_edge_observations.
  rewrite <- (map_map run_records (map observation)), <- concat_map.
  rewrite Coalescing.runs_concat, <- Hsorted.
  apply Permutation_map, Sorting.sorted_perm.
Qed.

(** X2. The edges are written in strictly increasing order of (subject,
    object, predicate), so no triple is written twice, and every written
    triple is the triple of a record of the accumulator. *)
Theorem written_edges_strictly_increasing (w : world) :
  match coalesced_edges w with
  | Ok es =>
      StronglySorted
        (fun e e' => Py.tuple_ltb (written_key e) (written_key e') = true) es /\
      Forall (fun e => written_triple e ∈ map triple (edge_list (self w))) es
  | Raise _ => edge_list (self w) = []
  end.
Proof.
  rewrite Coalescing.coalesced_edges_runs.
  pose proof (Sorting.sorted_strongly_sorted (edge_list (self w))) as Hs.
  pose proof (Sorting.sorted_perm (edge_list (self w))) as Hp.
  destruct (sorted_edges (edge_list (self w))) as [|x sl] eqn:Hsorted.
  { now apply Coalescing.sorted_nil_iff. }
  split.
  - apply Written.strongly_sorted_map.
    apply (Written.strongly_sorted_map_inv
             (fun a b => Py.tuple_ltb (sort_key a) (sort_key b) = true) fst).
    apply Written.strictly_sorted;
      [now apply Written.run_heads_sorted | now apply Written.run_heads_nodup].
  - apply Forall_forall. intros e He.
    apply list_elem_of_In, in_map_iff in He as (r & <- & Hr).
    apply list_elem_of_In in Hr. apply Groups.run_head_in in Hr.
    rewrite Hp in Hr.
    apply list_elem_of_In, (in_map triple). now apply list_elem_of_In.
Qed.

Lemma one_edge_per_triple_witness :
  let l := [Sample.record "A" "B" "P" "X" Sample.quarter Sample.half;
            Sample.record "A" "C" "P" "X" Sample.half Sample.half;
            Sample.record "A" "B" "P" "Y" Sample.half Sample.minus_half] in
  exists es,
    coalesced_edges (Sample.accumulated l) = Ok es /\
    NoDup (map written_triple es) /\
    (forall t, t ∈ map written_triple es <-> t ∈ map triple l) /\
    Forall (fun e =>
              properties e =
              arrays_of (filter (fun r => triple r = written_triple e) l)) es.
Proof.
  intros l.
  refine (Groups.one_edge_per_triple (Sample.accumulated l) _ _).
  - discriminate.
  - intros a b Ha Hb. cbn in Ha, Hb.
    repeat (apply elem_of_cons in Ha as [->|Ha]);
      try (now apply not_elem_of_nil in Ha);
      repeat (apply elem_of_cons in Hb as [->|Hb]);
      try (now apply not_elem_of_nil in Hb);
      vm_compute; intros Hk; (reflexivity || discriminate Hk).
Defined.

(** X4. [coalesce_and_write_edges] leaves the accumulator in place, in
    sorted order; a second call without the [clear] of [load] in between
    writes the same edges once more. *)
Theorem coalescing_again_repeats_edges (w w1 : world) :
  coalesce_and_write_edges w = Ok w1 ->
  edge_list (self w1) = sorted_edges (edge_list (self w)) /\
  coalesced_edges w1 = coalesced_edges w /\
  written_nodes (kgx_file_writer w1) = written_nodes (kgx_file_writer w).
Proof.
  rewrite Coalescing.coalesce_and_write_edges_runs.
  destruct (sorted_edges (edge_list (self w))) as [|x sl] eqn:Hsorted;
    [discriminate|].
  intros [= <-]. cbn [self edge_list set_edge_list kgx_file_writer written_nodes].
  split; [reflexivity|]. split; [|reflexivity].
  rewrite !Coalescing.coalesced_edges_runs.
  cbn [self edge_list set_edge_list].
  now rewrite <- Hsorted, Written.sorted_idempotent.
Qed.

Lemma coalescing_again_repeats_edges_witness :
  let w := Sample.accumulated [Sample.long_subject; Sample.short_subject] in
  let w1 :=
    {| self := set_edge_list [Sample.short_subject; Sample.long_subject] (self w);
       kgx_file_writer :=
         {| written_nodes := [];
            written_edges :=
              [run_edge (Sample.short_subject, [Sample.long_subject])] |};
       conversions := [] |} in
  edge_list (self w1) = sorted_edges (edge_list (self w)) /\
  coalesced_edges w1 = coalesced_edges w /\
  written_nodes (kgx_file_writer w1) = written_nodes (kgx_file_writer w).
Proof.
  intros w w1.
  refine (coalescing_again_repeats_edges w w1 _).
  vm_compute. reflexivity.
Defined.

(** ** The gene registrar and the variant caches *)

Section Registrar.
Context `{Collaborators}.

Lemma process_gene_known g w :
  g ∈ written_genes (self w) -> process_gene g w = Ok (g, w).
Proof. intros Hg. unfold process_gene. now rewrite decide_True. Qed.

Lemma process_gene_new g w :
  g ∉ written_genes (self w) ->
  1 < List.length (Py.split ":" g) ->
  exists name,
    Py.split ":" g !! 1 = Some name /\
    process_gene g w =
    Ok (g, with_self (fun s => set_written_genes ({[g]} ∪ written_genes s) s)
             (with_writer (write_node (gene_node g name)) w)).
Proof.
  intros Hg Hlen. unfold process_gene, Py.index. rewrite decide_False by exact Hg.
  destruct (lookup_lt_is_Some_2 (Py.split ":" g) 1 Hlen) as [name Hname].
  exists name. now rewrite Hname.
Qed.

(** X5. Called on any sequence of gene ids that have a colon, the gene
    registrar returns, and writes one node for each id of the sequence
    that had not been written before, and no other node: an id that comes
    again is not written again. *)
Theorem process_genes_writes_each_gene_once (gs : list string) (w : world) :
  Forall (fun g => 1 < List.length (Py.split ":" g)) gs ->
  exists w' new,
    process_genes gs w = Ok w' /\
    written_nodes (kgx_file_writer w') = written_nodes (kgx_file_writer w) ++ new /\
    NoDup (map node_id new) /\
    (forall g, g ∈ map node_id new <-> g ∈ gs /\ g ∉ written_genes (self w)) /\
    written_genes (self w') = written_genes (self w) ∪ list_to_set gs.
Proof.
  revert w. induction gs as [|g gs IH]; intros w Hgs.
  - exists w, []. cbn [process_genes map list_to_set].
    rewrite app_nil_r.
    refine (conj eq_refl (conj eq_refl (conj _ (conj _ _)))).
    + constructor.
    + intros g. split; [intros Hin | intros [Hin _]];
        now apply not_elem_of_nil in Hin.
    + set_solver.
  - apply Forall_cons in Hgs as [Hg Hgs]. cbn [process_genes].
    destruct (decide (g ∈ written_genes (self w))) as [Hin|Hnin].
    + rewrite (process_gene_known _ _ Hin). cbn [mbind result_bind].
      destruct (IH w Hgs) as (w' & new & Hrun & Hnodes & Hnd & Hids & Hset).
      exists w', new.
      refine (conj Hrun (conj Hnodes (conj Hnd (conj _ _)))).
      * intros g'. rewrite Hids, elem_of_cons. split; [tauto|].
        intros [[->|Hn] Hw]; [contradiction | tauto].
      * rewrite Hset. cbn [list_to_set]. set_solver.
    + destruct (process_gene_new _ w Hnin Hg) as (name & _ & ->).
      cbn [mbind result_bind].
      match goal with |- context [process_genes gs ?x] => set (w1 := x) end.
      destruct (IH w1 Hgs) as (w' & new & Hrun & Hnodes & Hnd & Hids & Hset).
      exists w', (gene_node g name :: new).
      assert (Hw1 : written_genes (self w1) = {[g]} ∪ written_genes (self w))
        by reflexivity.
      assert (Hfresh : g ∉ map node_id new).
      { intros Hn. apply Hids in Hn as [_ Hn]. apply Hn.
        rewrite Hw1. set_solver. }
      refine (conj Hrun (conj _ (conj _ (conj _ _)))).
      * rewrite Hnodes. subst w1. cbn. now rewrite <- app_assoc.
      * cbn [map node_id gene_node]. now apply NoDup_cons.
      * intros g'. cbn [map node_id gene_node].
        rewrite !elem_of_cons, Hids, Hw1. split.
        -- intros [->|[Hn Hw]]; [tauto|]. split; [tauto|]. set_solver.
        -- intros [[->|Hn] Hw]; [tauto|].
           destruct (decide (g' = g)) as [->|Hne]; [tauto|].
           right. split; [exact Hn|]. set_solver.
      * rewrite Hset, Hw1. cbn [list_to_set]. set_solver.
Qed.

End Registrar.

Section RegistrarSample.
#[local] Existing Instance Sample.collaborators.

Lemma process_genes_writes_each_gene_once_witness :
  let gs := ["ENSEMBL:ENSG01"; "ENSEMBL:ENSG02"; "ENSEMBL:ENSG01"] in
  let w := init_world Sample.tissues in
  exists w' new,
    process_genes gs w = Ok w' /\
    written_nodes (kgx_file_writer w') = written_nodes (kgx_file_writer w) ++ new /\
    NoDup (map node_id new) /\
    (forall g, g ∈ map node_id new <-> g ∈ gs /\ g ∉ written_genes (self w)) /\
    written_genes (self w') = written_genes (self w) ∪ list_to_set gs.
Proof.
  intros gs w.
  refine (process_genes_writes_each_gene_once gs w _).
  repeat constructor; vm_compute; lia.
Defined.

End RegistrarSample.

Section CacheInvariant.
Context `{Collaborators}.

Lemma init_world_cache_consistent tissues : cache_consistent (init_world tissues).
Proof.
  unfold cache_consistent. cbn. repeat split.
  - intros Hin. now apply not_elem_of_empty in Hin.
  - now rewrite lookup_empty.
  - intros t id. now rewrite lookup_empty.
  - intros t v. now rewrite lookup_empty.
Qed.

(** One call of [process_variant] keeps the caches consistent. *)
Lemma process_variant_cache_consistent t w v w' :
  cache_consistent w ->
  process_variant t w = Ok (v, w') ->
  cache_consistent w'.
Proof.
  intros (Hfailed & Hnodes & Hagree & Hcount). unfold process_variant.
  destruct (gtex_variant_to_hgvs_lookup (self w) !! t) as [c|] eqn:Hc.
  { intros [= _ <-]. exact (conj Hfailed (conj Hnodes (conj Hagree Hcount))). }
  destruct (variant_request t) as [req|] eqn:Hreq; cbn [mbind result_bind];
    [|discriminate].
  assert (Hnot : t ∉ variants_that_failed_hgvs_conversion (self w)).
  { rewrite Hfailed, Hc. discriminate. }
  destruct (Py.truthy (convert_variant_to_hgvs req)) as [hgvs|] eqn:Hconv;
    intros [= <- <-]; unfold cache_consistent, node_ids; cbn;
    refine (conj _ (conj _ (conj _ _))).
  - intros t'. rewrite insert_insert_eq.
    destruct (decide (t' = t)) as [->|Hne].
    + rewrite lookup_insert_eq. split; [contradiction | discriminate].
    + rewrite lookup_insert_ne by congruence. apply Hfailed.
  - intros t' id. rewrite insert_insert_eq, map_app, elem_of_app.
    destruct (decide (t' = t)) as [->|Hne].
    + rewrite lookup_insert_eq. intros [= <-]. right. cbn. left.
    + rewrite lookup_insert_ne by congruence. intros Hid. left.
      exact (Hnodes t' id Hid).
  - intros t' v. rewrite insert_insert_eq.
    destruct (decide (t' = t)) as [->|Hne].
    + rewrite lookup_insert_eq. intros [= <-]. exists req.
      split; [exact Hreq|]. unfold resolved_id. now rewrite Hconv.
    + rewrite lookup_insert_ne by congruence. apply Hagree.
  - rewrite insert_insert_eq, length_app, Hcount.
    rewrite map_size_insert_None by exact Hc. cbn. lia.
  - intros t'. rewrite elem_of_union, elem_of_singleton.
    destruct (decide (t' = t)) as [->|Hne].
    + rewrite lookup_insert_eq. tauto.
    + rewrite lookup_insert_ne by congruence. rewrite <- Hfailed. tauto.
  - intros t' id.
    destruct (decide (t' = t)) as [->|Hne].
    + rewrite lookup_insert_eq. discriminate.
    + rewrite lookup_insert_ne by congruence. apply Hnodes.
  - intros t' v.
    destruct (decide (t' = t)) as [->|Hne].
    + rewrite lookup_insert_eq. intros [= <-]. exists req.
      split; [exact Hreq|]. unfold resolved_id. now rewrite Hconv.
    + rewrite lookup_insert_ne by congruence. apply Hagree.
  - rewrite length_app, Hcount.
    rewrite map_size_insert_None by exact Hc. cbn. lia.
Qed.

(** X6. After any sequence of calls of [process_variant] on a new loader
    the caches are consistent: the failed set holds exactly the tokens
    cached without an id, every cached id has its node in the sink, every
    cached outcome is the outcome of converting its token, and there has
    been exactly one conversion request per cached token. *)
Theorem variant_caches_stay_consistent (tissues : gmap string string)
    (ts : list string) (os : list resolution) (w' : world) :
  process_variants ts (init_world tissues) = Ok (os, w') ->
  cache_consistent w'.
Proof.
  generalize (init_world_cache_consistent tissues).
  generalize (init_world tissues). revert os.
  induction ts as [|t ts IH]; intros os w Hw; cbn [process_variants].
  - now intros [= _ <-].
  - unfold observe.
    destruct (process_variant t w) as [[v w1]|] eqn:Hv; cbn [mbind result_bind];
      [|discriminate].
    destruct (process_variants ts w1) as [[os1 w2]|] eqn:Hrest;
      cbn [mbind result_bind]; [|discriminate].
    intros [= _ <-].
    eapply IH; [|exact Hrest].
    eapply process_variant_cache_consistent; eauto.
Qed.

(** X7. The caches are keyed by the token, not by the canonical id: two
    different tokens that lead to the same conversion request (tokens that
    differ in their first three characters, or after the fifth component)
    are converted twice, and their node is written twice. *)
Theorem same_request_is_written_twice (t1 t2 : string) (req : hgvs_request)
    (w : world) :
  t1 <> t2 ->
  variant_request t1 = Ok req ->
  variant_request t2 = Ok req ->
  gtex_variant_to_hgvs_lookup (self w) !! t1 = None ->
  gtex_variant_to_hgvs_lookup (self w) !! t2 = None ->
  exists w',
    process_variants [t1; t2] w
      = Ok ([first_resolution t1 req; first_resolution t2 req], w') /\
    written_nodes (kgx_file_writer w')
      = written_nodes (kgx_file_writer w) ++ resolved_nodes req ++ resolved_nodes req /\
    conversions w' = conversions w ++ [req; req].
Proof.
  intros Hne Hr1 Hr2 Hc1 Hc2. cbn [process_variants].
  unfold observe, process_variant. rewrite Hc1, Hr1. cbn [mbind result_bind].
  unfold first_resolution, resolved_id, resolved_nodes.
  destruct (Py.truthy (convert_variant_to_hgvs req)) as [hgvs|] eqn:Hconv;
    cbn [mbind result_bind]; cbn;
    rewrite ?lookup_insert_ne by congruence; rewrite Hc2, Hr2;
    cbn [mbind result_bind]; rewrite Hconv; cbn [mbind result_bind];
    eexists; (split; [|split]); cbn;
    rewrite ?drop_app_length, ?drop_all; try reflexivity;
    unfold cache_variant, with_writer, with_self, record_conversion, write_node;
    cbn; rewrite <- ?app_assoc, ?app_nil_r; reflexivity.
Qed.

End CacheInvariant.

Section CacheInvariantSample.
#[local] Existing Instance Sample.collaborators.

Lemma variant_caches_stay_consistent_witness :
  exists os w',
    process_variants
      ["chr1_100_A_T_b38"; "chr1_100_A_N_b38"; "chr1_100_A_T_b38"]
      (init_world Sample.tissues) = Ok (os, w') /\
    cache_consistent w'.
Proof.
  eexists _, _. split; [vm_compute; reflexivity|].
  eapply (variant_caches_stay_consistent Sample.tissues
            ["chr1_100_A_T_b38"; "chr1_100_A_N_b38"; "chr1_100_A_T_b38"]).
  vm_compute. reflexivity.
Defined.

Lemma same_request_is_written_twice_witness :
  let t1 := "chr1_100_A_T_b38" in
  let t2 := "CHR1_100_A_T_b38_extra" in
  let req := {| chromosome := "1"; position := 100; ref_allele := "A";
                alt_allele := "T"; reference_genome := "b38";
                reference_patch := "p1" |} in
  let w := init_world Sample.tissues in
  exists w',
    process_variants [t1; t2] w
      = Ok ([first_resolution t1 req; first_resolution t2 req], w') /\
    written_nodes (kgx_file_writer w')
      = written_nodes (kgx_file_writer w) ++ resolved_nodes req ++ resolved_nodes req /\
    conversions w' = conversions w ++ [req; req].
Proof.
  intros t1 t2 req w.
  refine (same_request_is_written_twice t1 t2 req w _ _ _ _ _).
  - discriminate.
  - vm_compute. reflexivity.
  - vm_compute. reflexivity.
  - vm_compute. reflexivity.
  - vm_compute. reflexivity.
Defined.

End CacheInvariantSample.

(** ** The record parser *)

Module Lines.

Lemma split_nonempty c s : Py.split c s <> [].
Proof.
  destruct s as [|a s]; cbn [Py.split]; [discriminate|].
  destruct (Ascii.eqb a c); [discriminate|].
  destruct (Py.split c s); discriminate.
Qed.

(** [s.split(c)[0]] is the text before the first [c]. *)
Lemma split_head c s : Py.split c s !! 0 = Some (text_before c s).
Proof.
  induction s as [|a s IH]; cbn [Py.split text_before]; [reflexivity|].
  destruct (Ascii.eqb a c); [reflexivity|].
  destruct (Py.split c s) as [|w ws]; [discriminate|].
  cbn in *. congruence.
Qed.

Lemma index_head c s : Py.index (Py.split c s) 0 = Ok (text_before c s).
Proof. unfold Py.index. now rewrite split_head. Qed.

Lemma columns_exist (cols : list string) :
  List.length cols = 12 ->
  exists c0 c1 c6 c7,
    cols !! 0 = Some c0 /\ cols !! 1 = Some c1 /\
    cols !! 6 = Some c6 /\ cols !! 7 = Some c7.
Proof.
  intros Hlen.
  destruct (lookup_lt_is_Some_2 cols 0) as [c0 H0]; [lia|].
  destruct (lookup_lt_is_Some_2 cols 1) as [c1 H1]; [lia|].
  destruct (lookup_lt_is_Some_2 cols 6) as [c6 H6]; [lia|].
  destruct (lookup_lt_is_Some_2 cols 7) as [c7 H7]; [lia|].
  now exists c0, c1, c6, c7.
Qed.

(** An eQTL line with twelve columns always gives a relationship. *)
Lemma eqtl_extraction anatomy_id line :
  twelve_columns line ->
  exists r, extract_relationship false anatomy_id (Py.split "009" line) = Ok r /\
            eqtl_row anatomy_id line r.
Proof.
  intros Hlen. destruct (columns_exist _ Hlen) as (c0 & c1 & c6 & c7 & H0 & H1 & H6 & H7).
  eexists. split.
  - unfold extract_relationship, Py.index at 1 2 4 5.
    unfold variant_column_index, gene_column_index, pval_column_index,
      slope_column_index.
    rewrite H0, H1, H6, H7. cbn [mbind result_bind].
    rewrite index_head. reflexivity.
  - now exists c0, c1, c6, c7.
Qed.

(** What comes out of the [try] block carries the anatomy id it was given
    and a gene id made of the prefix and a text without a dot. *)
Lemma extraction_shape is_sqtl anatomy_id cols r :
  extract_relationship is_sqtl anatomy_id cols = Ok r ->
  anatomy_of r = anatomy_id /\
  exists x, gene_of r = "ENSEMBL:" +:+ text_before "." x.
Proof.
  unfold extract_relationship.
  destruct (Py.index cols variant_column_index) as [c0|]; cbn [mbind result_bind];
    [|discriminate].
  destruct is_sqtl.
  - destruct (Py.index cols gene_column_index) as [c1|]; cbn [mbind result_bind];
      [|discriminate].
    destruct (Py.index (Py.split ":" c1) 4) as [gene|]; cbn [mbind result_bind];
      [|discriminate].
    rewrite index_head. cbn [mbind result_bind].
    destruct (Py.index cols pval_column_index); cbn [mbind result_bind];
      [|discriminate].
    destruct (Py.index cols slope_column_index); cbn [mbind result_bind];
      [|discriminate].
    intros [= <-]. split; [reflexivity | now exists gene].
  - destruct (Py.index cols gene_column_index) as [c1|]; cbn [mbind result_bind];
      [|discriminate].
    rewrite index_head. cbn [mbind result_bind].
    destruct (Py.index cols pval_column_index); cbn [mbind result_bind];
      [|discriminate].
    destruct (Py.index cols slope_column_index); cbn [mbind result_bind];
      [|discriminate].
    intros [= <-]. split; [reflexivity | now exists c1].
Qed.

Lemma yielded_doing a g :
  yielded (doing a g) =
  match a with Yield r => r :: yielded g | _ => yielded g end.
Proof. unfold yielded, doing. cbn. now destruct a. Qed.

Lemma yielded_raising e : yielded (raising e) = [].
Proof. reflexivity. Qed.

End Lines.

(** X8. On the eQTL dataset the loop over the lines of a tissue table
    never raises.  It yields one relationship for every line with twelve
    columns, in order: the variant, p-value and slope columns as they are,
    and the gene column up to its first dot behind the ENSEMBL prefix.  It
    logs every other line with its number, counted from the first line
    after the header, and goes on. *)
Theorem eqtl_lines_are_never_fatal (anatomy_id member : string) (i : nat)
    (ls : list string) :
  let g := parse_lines false anatomy_id member i ls in
  raised g = None /\
  Forall2 (eqtl_row anatomy_id) (filter twelve_columns ls) (yielded g) /\
  forall j line,
    LogColumnCount member j line ∈ actions g <->
    exists k, ls !! k = Some line /\ j = i + k /\ ~ twelve_columns line.
Proof.
  revert i. induction ls as [|l ls IH]; intros i g.
  - subst g. cbn. repeat split; try constructor.
    + intros Hin. now apply not_elem_of_nil in Hin.
    + intros (k & Hk & _). discriminate.
  - destruct (IH (S i)) as (Hraised & Hrows & Hlog). subst g.
    cbn [parse_lines].
    destruct (Nat.eqb_spec (List.length (Py.split "009" l)) 12) as [H12|H12];
      cbn [negb].
    + destruct (Lines.eqtl_extraction anatomy_id l H12) as (r & -> & Hr).
      rewrite Lines.yielded_doing, filter_cons_True by exact H12.
      cbn [raised doing actions].
      split; [exact Hraised|]. split; [now constructor|].
      intros j line. rewrite elem_of_cons, Hlog. split.
      * intros [?|(k & Hk & -> & Hbad)]; [discriminate|].
        exists (S k). repeat split; [exact Hk | lia | exact Hbad].
      * intros ([|k] & Hk & -> & Hbad).
        -- injection Hk as <-. contradiction.
        -- right. exists k. repeat split; [exact Hk | lia | exact Hbad].
    + rewrite Lines.yielded_doing, filter_cons_False by exact H12.
      cbn [raised doing actions].
      split; [exact Hraised|]. split; [exact Hrows|].
      intros j line. rewrite elem_of_cons, Hlog. split.
      * intros [[= -> ->]|(k & Hk & -> & Hbad)].
        -- exists 0. repeat split; [lia | exact H12].
        -- exists (S k). repeat split; [exact Hk | lia | exact Hbad].
      * intros ([|k] & Hk & -> & Hbad).
        -- injection Hk as <-. left. f_equal. lia.
        -- right. exists k. repeat split; [exact Hk | lia | exact Hbad].
Qed.

(** X9. On the sQTL dataset a line with twelve columns gives a
    relationship exactly when its phenotype id has a fifth component
    between colons; the gene id is that component up to its first dot
    behind the ENSEMBL prefix.  Without a fifth component the extraction
    raises [IndexError]. *)
Theorem sqtl_extraction_needs_five_components (anatomy_id line phenotype : string) :
  twelve_columns line ->
  Py.split "009" line !! 1 = Some phenotype ->
  exists variant pval slope,
    Py.split "009" line !! 0 = Some variant /\
    Py.split "009" line !! 6 = Some pval /\
    Py.split "009" line !! 7 = Some slope /\
    extract_relationship true anatomy_id (Py.split "009" line) =
    match Py.split ":" phenotype !! 4 with
    | Some gene =>
        Ok (anatomy_id, variant, "ENSEMBL:" +:+ text_before "." gene, pval, slope)
    | None => Raise IndexError
    end.
Proof.
  intros Hlen H1.
  destruct (Lines.columns_exist _ Hlen) as (c0 & c1 & c6 & c7 & H0 & H1' & H6 & H7).
  exists c0, c6, c7. repeat split; try assumption.
  unfold extract_relationship, Py.index.
  unfold variant_column_index, gene_column_index, pval_column_index,
    slope_column_index.
  rewrite H0, H1, H6, H7. cbn [mbind result_bind].
  destruct (Py.split ":" phenotype !! 4) as [gene|]; cbn [mbind result_bind];
    [|reflexivity].
  now rewrite Lines.split_head.
Qed.

Lemma sqtl_extraction_needs_five_components_witness :
  exists variant pval slope,
    Py.split "009" Sample.short_phenotype_line !! 0 = Some variant /\
    Py.split "009" Sample.short_phenotype_line !! 6 = Some pval /\
    Py.split "009" Sample.short_phenotype_line !! 7 = Some slope /\
    extract_relationship true "UBERON:0002107"
      (Py.split "009" Sample.short_phenotype_line) =
    match Py.split ":" "chr1:497299:498399:clu_51878" !! 4 with
    | Some gene =>
        Ok ("UBERON:0002107", variant,
            "ENSEMBL:" +:+ text_before "." gene, pval, slope)
    | None => Raise IndexError
    end.
Proof.
  refine (sqtl_extraction_needs_five_components "UBERON:0002107"
            Sample.short_phenotype_line "chr1:497299:498399:clu_51878" _ _).
  - vm_compute. reflexivity.
  - vm_compute. reflexivity.
Defined.

(** ** The archive reader *)

Module Members.

Lemma yielded_elem g r : r ∈ yielded g <-> Yield r ∈ actions g.
Proof.
  unfold yielded. rewrite list_elem_of_omap. split.
  - intros ([] & Hin & Heq); try discriminate. now injection Heq as ->.
  - intros Hin. now exists (Yield r).
Qed.

(** The loop over the lines, on either dataset: no key error is logged,
    nothing but [IndexError] is raised, and the relationships have the
    anatomy id of the table and a gene id of the expected form. *)
Lemma parse_lines_facts is_sqtl anatomy_id member ls : forall i,
  let g := parse_lines is_sqtl anatomy_id member i ls in
  (LogKeyError ∉ actions g) /\
  (forall e, raised g = Some e -> e = IndexError) /\
  forall r, Yield r ∈ actions g ->
    anatomy_of r = anatomy_id /\
    exists x, gene_of r = "ENSEMBL:" +:+ text_before "." x.
Proof.
  induction ls as [|l ls IH]; intros i g; subst g; cbn [parse_lines].
  - cbn. repeat split; try discriminate;
      try (intros Hin; now apply not_elem_of_nil in Hin).
    all: now apply not_elem_of_nil in H.
  - destruct (IH (S i)) as (Hlog & Hraise & Hyield).
    destruct (negb _).
    + cbn [doing actions raised]. split; [|split; [exact Hraise|]].
      * rewrite not_elem_of_cons. split; [discriminate | exact Hlog].
      * intros r. rewrite elem_of_cons. intros [?|Hin]; [discriminate|].
        now apply Hyield.
    + destruct (extract_relationship _ _ _) as [r0|e] eqn:Hext.
      * cbn [doing actions raised]. split; [|split; [exact Hraise|]].
        -- rewrite not_elem_of_cons. split; [discriminate | exact Hlog].
        -- intros r. rewrite elem_of_cons. intros [[= ->]|Hin].
           ++ now apply (Lines.extraction_shape is_sqtl _ _ _ Hext).
           ++ now apply Hyield.
      * apply Parser.extraction_raises_index_error in Hext. subst e.
        cbn. split; [apply not_elem_of_nil|]. split; [now intros e [= <-]|].
        intros r Hin. now apply not_elem_of_nil in Hin.
Qed.

(** What the generator yields comes from a member with the marker whose
    tissue is in the table, and has the shape the loop gives it. *)
Lemma parse_members_facts is_sqtl lookup tar_files :
  let g := parse_members is_sqtl lookup tar_files in
  (LogKeyError ∉ actions g) /\
  (forall e, raised g = Some e -> e = IndexError \/ e = RuntimeError) /\
  forall r, Yield r ∈ actions g ->
    (exists m tissue,
       m ∈ tar_files /\ Py.contains "signif" (name m) = true /\
       tissue_name (name m) = Ok tissue /\
       lookup !! tissue = Some (anatomy_of r)) /\
    exists x, gene_of r = "ENSEMBL:" +:+ text_before "." x.
Proof.
  induction tar_files as [|m rest IH]; intros g; subst g; cbn [parse_members].
  - cbn. split; [apply not_elem_of_nil|]. split; [discriminate|].
    intros r Hin. now apply not_elem_of_nil in Hin.
  - destruct IH as (Hlog & Hraise & Hyield).
    assert (Hrest : forall r, Yield r ∈ actions (parse_members is_sqtl lookup rest) ->
              (exists m0 tissue,
                 m0 ∈ m :: rest /\ Py.contains "signif" (name m0) = true /\
                 tissue_name (name m0) = Ok tissue /\
                 lookup !! tissue = Some (anatomy_of r)) /\
              exists x, gene_of r = "ENSEMBL:" +:+ text_before "." x).
    { intros r Hin. destruct (Hyield r Hin) as [(m0 & t & Hm0 & ?) ?].
      split; [|assumption]. exists m0, t. split; [now right | assumption]. }
    cbn [doing actions raised]. unfold parse_member.
    destruct (Py.contains "signif" (name m)) eqn:Hmark.
    2: { split; [|split; [exact Hraise|]].
         - rewrite not_elem_of_cons. split; [discriminate | exact Hlog].
         - intros r. rewrite elem_of_cons. intros [?|Hin]; [discriminate|].
           now apply Hrest. }
    cbn [doing actions raised].
    change (Py.index (Py.split "/" (name m)) 1
            ≫= (fun directory => Py.index (Py.split "." directory) 0))
      with (tissue_name (name m)).
    destruct (tissue_name (name m)) as [tissue|e] eqn:Htissue.
    2: { cbn. split; [|split].
         - rewrite !not_elem_of_cons. repeat split; try discriminate.
           apply not_elem_of_nil.
         - intros e' [= <-]. left. unfold tissue_name in Htissue.
           destruct (Py.index (Py.split "/" (name m)) 1) eqn:Hd;
             cbn [mbind result_bind] in Htissue.
           + now apply Parser.index_raises in Htissue.
           + injection Htissue as <-. now apply Parser.index_raises in Hd.
         - intros r. rewrite !elem_of_cons.
           intros [?|[?|Hin]]; try discriminate.
           now apply not_elem_of_nil in Hin. }
    destruct (lookup !! tissue) as [anatomy_id|] eqn:Hlookup.
    2: { cbn [doing actions raised]. split; [|split; [exact Hraise|]].
         - rewrite !not_elem_of_cons. repeat split; try discriminate. exact Hlog.
         - intros r. rewrite !elem_of_cons.
           intros [?|[?|[?|Hin]]]; try discriminate. now apply Hrest. }
    cbn [doing actions raised].
    destruct (lines m) as [|header ls].
    { cbn. split; [|split].
      - rewrite !not_elem_of_cons. repeat split; try discriminate.
        apply not_elem_of_nil.
      - intros e [= <-]. now right.
      - intros r. rewrite !elem_of_cons.
        intros [?|[?|[?|Hin]]]; try discriminate.
        now apply not_elem_of_nil in Hin. }
    destruct (parse_lines_facts is_sqtl anatomy_id (name m) ls 1)
      as (Hlog1 & Hraise1 & Hyield1).
    assert (Hhere : forall r,
              Yield r ∈ actions (parse_lines is_sqtl anatomy_id (name m) 1 ls) ->
              (exists m0 tissue0,
                 m0 ∈ m :: rest /\ Py.contains "signif" (name m0) = true /\
                 tissue_name (name m0) = Ok tissue0 /\
                 lookup !! tissue0 = Some (anatomy_of r)) /\
              exists x, gene_of r = "ENSEMBL:" +:+ text_before "." x).
    { intros r Hin. destruct (Hyield1 r Hin) as [-> Hgene].
      split; [|exact Hgene]. exists m, tissue.
      repeat split; [left | exact Hmark | exact Htissue | exact Hlookup]. }
    destruct (raised (parse_lines is_sqtl anatomy_id (name m) 1 ls)) as [e|] eqn:Hr.
    + rewrite Hr. split; [|split].
      * rewrite !not_elem_of_cons. repeat split; try discriminate. exact Hlog1.
      * intros e' [= <-]. left. now apply Hraise1.
      * intros r. rewrite !elem_of_cons.
        intros [?|[?|[?|Hin]]]; try discriminate. now apply Hhere.
    + cbn [actions raised]. split; [|split; [exact Hraise|]].
      * rewrite !not_elem_of_cons, not_elem_of_app.
        repeat split; try discriminate; assumption.
      * intros r. rewrite !elem_of_cons, elem_of_app.
        intros [?|[?|[?|[Hin|Hin]]]]; try discriminate;
          [now apply Hhere | now apply Hrest].
Qed.

End Members.

(** X10. On either dataset the generator never logs a key error, so it
    never skips a line for a missing field, and the only exceptions it
    raises are [IndexError] and [RuntimeError]. *)
Theorem generator_only_raises_index_and_runtime_errors (tar_files : list tar_member)
    (is_sqtl : bool) (s : GTExLoader) :
  let g := parse_file_and_yield_relationships tar_files is_sqtl s in
  (LogKeyError ∉ actions g) /\
  forall e, raised g = Some e -> e = IndexError \/ e = RuntimeError.
Proof.
  intros g.
  destruct (Members.parse_members_facts is_sqtl (anatomy_id_lookup s) tar_files)
    as (Hlog & Hraise & _).
  now split.
Qed.

Module Origin.

Lemma yielded_doing_other a g :
  (forall r, a <> Yield r) -> yielded (doing a g) = yielded g.
Proof. intros Ha. unfold yielded. cbn. destruct a; try reflexivity. now destruct (Ha r). Qed.

Lemma yielded_followed_by g next :
  yielded (followed_by g next)
  = match raised g with
    | Some _ => yielded g
    | None => yielded g ++ yielded next
    end.
Proof.
  unfold followed_by, yielded. destruct (raised g); [reflexivity|].
  cbn. now rewrite omap_app.
Qed.

Lemma raised_followed_by g next :
  raised (followed_by g next)
  = match raised g with
    | Some e => Some e
    | None => raised next
    end.
Proof. unfold followed_by. now destruct (raised g) eqn:Hr. Qed.

(** A relationship the loop over the lines yields is what the body of
    the [try] block makes of one of the lines. *)
Lemma parse_lines_origin is_sqtl anatomy_id member r ls : forall i,
  Yield r ∈ actions (parse_lines is_sqtl anatomy_id member i ls) ->
  exists line,
    line ∈ ls /\ twelve_columns line /\
    extract_relationship is_sqtl anatomy_id (Py.split "009" line) = Ok r.
Proof.
  induction ls as [|l ls IH]; intros i; cbn [parse_lines].
  - intros Hin. now apply not_elem_of_nil in Hin.
  - assert (Hrest : Yield r ∈ actions (parse_lines is_sqtl anatomy_id member (S i) ls) ->
              exists line, line ∈ l :: ls /\ twelve_columns line /\
                extract_relationship is_sqtl anatomy_id (Py.split "009" line) = Ok r).
    { intros Hin. destruct (IH _ Hin) as (line & Hline & Hrow).
      exists line. split; [now right | exact Hrow]. }
    destruct (Nat.eqb (List.length (Py.split "009" l)) 12) eqn:H12; cbn [negb].
    + apply Nat.eqb_eq in H12.
      destruct (extract_relationship _ _ _) as [r0|[]] eqn:Hext; cbn;
        try (intros Hin; now apply not_elem_of_nil in Hin);
        rewrite elem_of_cons; (intros [Heq|Hin]; [|now apply Hrest]);
        try discriminate.
      injection Heq as ->. exists l. split; [left | now split].
    + cbn. rewrite elem_of_cons. intros [?|Hin]; [discriminate | now apply Hrest].
Qed.

(** What is yielded while the code for one member runs is yielded by
    the code for the rest, or comes from a line of that member. *)
Lemma parse_member_origin is_sqtl lookup m next r :
  Yield r ∈ actions (parse_member is_sqtl lookup m next) ->
  Yield r ∈ actions next \/
  exists tissue anatomy_id header ls line,
    Py.contains "signif" (name m) = true /\
    tissue_name (name m) = Ok tissue /\
    lookup !! tissue = Some anatomy_id /\
    lines m = header :: ls /\ line ∈ ls /\ twelve_columns line /\
    extract_relationship is_sqtl anatomy_id (Py.split "009" line) = Ok r.
Proof.
  unfold parse_member.
  destruct (Py.contains "signif" (name m)) eqn:Hmark; [|now left].
  change (Py.index (Py.split "/" (name m)) 1
          ≫= (fun directory => Py.index (Py.split "." directory) 0))
    with (tissue_name (name m)).
  cbn [doing actions]. rewrite elem_of_cons. intros [?|Hin]; [discriminate|].
  revert Hin.
  destruct (tissue_name (name m)) as [tissue|e] eqn:Htissue;
    [|intros Hin; now apply not_elem_of_nil in Hin].
  destruct (lookup !! tissue) as [anatomy_id|] eqn:Hlookup; cbn [doing actions];
    rewrite elem_of_cons; (intros [?|Hin]; [discriminate|]); [|now left].
  revert Hin. destruct (lines m) as [|header ls] eqn:Hlines;
    [intros Hin; now apply not_elem_of_nil in Hin|].
  cbv zeta.
  assert (Hhere : Yield r ∈ actions (parse_lines is_sqtl anatomy_id (name m) 1 ls) ->
            exists tissue0 anatomy_id0 header0 ls0 line,
              true = true /\ Ok tissue = Ok tissue0 /\
              lookup !! tissue0 = Some anatomy_id0 /\
              header :: ls = header0 :: ls0 /\ line ∈ ls0 /\ twelve_columns line /\
              extract_relationship is_sqtl anatomy_id0 (Py.split "009" line) = Ok r).
  { intros Hin. destruct (parse_lines_origin _ _ _ _ _ _ Hin) as (line & Hline & H12 & Hext).
    exists tissue, anatomy_id, header, ls, line. now repeat split. }
  destruct (raised (parse_lines is_sqtl anatomy_id (name m) 1 ls)).
  - intros Hin. right. now apply Hhere.
  - cbn [actions]. rewrite elem_of_app. intros [Hin|Hin]; [right; now apply Hhere | now left].
Qed.

Lemma parse_members_origin is_sqtl lookup tar_files r :
  Yield r ∈ actions (parse_members is_sqtl lookup tar_files) ->
  exists m tissue anatomy_id header ls line,
    m ∈ tar_files /\
    Py.contains "signif" (name m) = true /\
    tissue_name (name m) = Ok tissue /\
    lookup !! tissue = Some anatomy_id /\
    lines m = header :: ls /\ line ∈ ls /\ twelve_columns line /\
    extract_relationship is_sqtl anatomy_id (Py.split "009" line) = Ok r.
Proof.
  induction tar_files as [|m rest IH]; cbn [parse_members].
  - intros Hin. now apply not_elem_of_nil in Hin.
  - cbn [doing actions]. rewrite elem_of_cons. intros [?|Hin]; [discriminate|].
    apply parse_member_origin in Hin.
    destruct Hin as [Hin|(tissue & anatomy_id & header & ls & line & Hm)].
    + destruct (IH Hin) as (m0 & tissue & anatomy_id & header & ls & line & Hm0 & Hrest).
      exists m0, tissue, anatomy_id, header, ls, line. split; [now right | exact Hrest].
    + exists m, tissue, anatomy_id, header, ls, line. split; [left | exact Hm].
Qed.

(** The code for a member with the marker whose tissue is not in the
    table. *)
Lemma parse_member_unknown_tissue is_sqtl lookup m tissue next :
  Py.contains "signif" (name m) = true ->
  tissue_name (name m) = Ok tissue ->
  lookup !! tissue = None ->
  parse_member is_sqtl lookup m next
  = doing (LogReading (name m)) (doing (LogSkipping (name m)) next).
Proof.
  intros Hmark Htissue Hlookup. unfold parse_member. rewrite Hmark.
  change (Py.index (Py.split "/" (name m)) 1
          ≫= (fun directory => Py.index (Py.split "." directory) 0))
    with (tissue_name (name m)).
  now rewrite Htissue, Hlookup.
Qed.

End Origin.

(** X11. Every relationship the generator yields comes from a line of a
    member whose name has the marker and whose tissue is in the anatomy
    table: it is what the extraction makes of a line with twelve columns
    after the header of that member, with the anatomy id the table has for
    the tissue of that member.  A member with the marker whose tissue is
    not in the table contributes nothing: once its handle is obtained, the
    generator logs that it reads and skips it and goes on, and the archive
    without that member yields the same relationships and ends the same
    way. *)
Theorem yielded_anatomy_comes_from_table (tar_files : list tar_member)
    (is_sqtl : bool) (s : GTExLoader) :
  let parse l := parse_file_and_yield_relationships l is_sqtl s in
  (forall r,
     r ∈ yielded (parse tar_files) ->
     exists m tissue anatomy_id header ls line,
       m ∈ tar_files /\
       Py.contains "signif" (name m) = true /\
       tissue_name (name m) = Ok tissue /\
       anatomy_id_lookup s !! tissue = Some anatomy_id /\
       lines m = header :: ls /\ line ∈ ls /\ twelve_columns line /\
       extract_relationship is_sqtl anatomy_id (Py.split "009" line) = Ok r /\
       anatomy_of r = anatomy_id) /\
  (forall before m rest tissue,
     tar_files = before ++ m :: rest ->
     Py.contains "signif" (name m) = true ->
     tissue_name (name m) = Ok tissue ->
     anatomy_id_lookup s !! tissue = None ->
     parse tar_files
       = followed_by (parse before)
           (doing (Extractfile (name m))
              (doing (LogReading (name m))
                 (doing (LogSkipping (name m)) (parse rest)))) /\
     yielded (parse tar_files) = yielded (parse (before ++ rest)) /\
     raised (parse tar_files) = raised (parse (before ++ rest))).
Proof.
  intros parse. subst parse. unfold parse_file_and_yield_relationships. split.
  - intros r Hr. apply Members.yielded_elem in Hr.
    destruct (Origin.parse_members_origin _ _ _ _ Hr)
      as (m & tissue & anatomy_id & header & ls & line
          & Hm & Hmark & Htissue & Hlookup & Hlines & Hline & H12 & Hext).
    exists m, tissue, anatomy_id, header, ls, line.
    repeat (split; [assumption|]).
    now apply (Lines.extraction_shape is_sqtl _ _ _ Hext).
  - intros before m rest tissue -> Hmark Htissue Hlookup.
    rewrite !Handles.parse_members_app. cbn [parse_members].
    rewrite (Origin.parse_member_unknown_tissue _ _ _ _ _ Hmark Htissue Hlookup).
    split; [reflexivity|].
    rewrite !Origin.yielded_followed_by, !Origin.raised_followed_by.
    rewrite !Origin.yielded_doing_other by discriminate.
    now cbn [doing raised].
Qed.

Section OriginSample.
#[local] Existing Instance Sample.collaborators.

Lemma yielded_anatomy_comes_from_table_witness :
  (exists m line,
     m ∈ Sample.eqtl_archive /\
     tissue_name (name m) = Ok "Liver" /\
     line ∈ drop 1 (lines m) /\
     extract_relationship false "UBERON:0002107" (Py.split "009" line)
       = Ok ("UBERON:0002107", "chr1_100_A_T_b38",
             "ENSEMBL:ENSG00000227232", "0.25", "0.5")) /\
  yielded (parse_file_and_yield_relationships Sample.unknown_tissue_archive false
             (init_loader Sample.tissues))
    = yielded (parse_file_and_yield_relationships Sample.eqtl_archive false
                 (init_loader Sample.tissues)).
Proof.
  destruct (yielded_anatomy_comes_from_table Sample.unknown_tissue_archive false
              (init_loader Sample.tissues)) as [_ Hskip].
  destruct (yielded_anatomy_comes_from_table Sample.eqtl_archive false
              (init_loader Sample.tissues)) as [Horigin _].
  split.
  - destruct (Horigin ("UBERON:0002107", "chr1_100_A_T_b38",
                       "ENSEMBL:ENSG00000227232", "0.25", "0.5"))
      as (m & tissue & anatomy_id & header & ls & line
          & Hm & _ & Htissue & Hlookup & Hlines & Hline & _ & Hext & _).
    + vm_compute. left.
    + exists m, line.
      apply list_elem_of_singleton in Hm. subst m.
      vm_compute in Htissue. injection Htissue as <-.
      vm_compute in Hlookup. injection Hlookup as <-.
      split; [left|]. split; [vm_compute; reflexivity|].
      split; [|exact Hext]. rewrite Hlines. exact Hline.
  - refine (proj1 (proj2 (Hskip [] Sample.unknown_tissue_member Sample.eqtl_archive
                            "Spleen" eq_refl _ _ _))).
    + vm_compute. reflexivity.
    + vm_compute. reflexivity.
    + vm_compute. reflexivity.
Defined.

End OriginSample.

Section ParsedGenes.
Context `{Collaborators}.

(** X12. The gene registrar accepts every gene id the generator yields:
    the id has the ENSEMBL prefix and a colon after it, so reading the
    node name out of it cannot fail. *)
Theorem yielded_gene_is_registrable (tar_files : list tar_member)
    (is_sqtl : bool) (s : GTExLoader) (r : relationship) (w : world) :
  r ∈ yielded (parse_file_and_yield_relationships tar_files is_sqtl s) ->
  (exists x, gene_of r = "ENSEMBL:" +:+ text_before "." x) /\
  exists w', process_gene (gene_of r) w = Ok (gene_of r, w').
Proof.
  intros Hr. apply Members.yielded_elem in Hr.
  destruct (Members.parse_members_facts is_sqtl (anatomy_id_lookup s) tar_files)
    as (_ & _ & Hyield).
  destruct (Hyield r Hr) as [_ [x Hx]]. split; [now exists x|].
  destruct (decide (gene_of r ∈ written_genes (self w))) as [Hin|Hnin].
  - exists w. now apply process_gene_known.
  - destruct (process_gene_new (gene_of r) w Hnin) as (name & _ & Hg);
      [|eexists; exact Hg].
    rewrite Hx.
    change (Py.split ":" ("ENSEMBL:" +:+ text_before "." x))
      with ("ENSEMBL" :: Py.split ":" (text_before "." x)).
    pose proof (Lines.split_nonempty ":" (text_before "." x)) as Hne.
    destruct (Py.split ":" (text_before "." x));
      [contradiction | cbn [List.length]; lia].
Qed.

End ParsedGenes.

Section ParsedGenesSample.
#[local] Existing Instance Sample.collaborators.

Lemma yielded_gene_is_registrable_witness :
  let r := ("UBERON:0002107", "chr1_100_A_T_b38",
            "ENSEMBL:ENSG00000227232", "0.25", "-0.5") in
  (exists x, gene_of r = "ENSEMBL:" +:+ text_before "." x) /\
  exists w', process_gene (gene_of r) (init_world Sample.tissues) = Ok (gene_of r, w').
Proof.
  intros r.
  refine (yielded_gene_is_registrable Sample.good_sqtl_archive true
            (init_loader Sample.tissues) r (init_world Sample.tissues) _).
  vm_compute. left.
Defined.

End ParsedGenesSample.

(** ** Where the number texts are read *)

Section NumberConversion.
Context `{Collaborators}.

Lemma create_edge_unparsable anatomy_id variant_id gene_id p_value slope is_sqtl w :
  py_float p_value = None \/ py_float slope = None ->
  create_edge anatomy_id variant_id gene_id p_value slope is_sqtl w = Raise ValueError.
Proof.
  intros Hbad. unfold create_edge, float_of.
  destruct Hbad as [Hbad|Hbad]; rewrite Hbad;
    destruct is_sqtl; cbn [mbind result_bind]; try reflexivity;
    destruct (py_float slope); try reflexivity;
    destruct (py_float p_value); reflexivity.
Qed.

(** The gene registrar goes through on the gene id of a yielded tuple. *)
Lemma yielded_gene_registers tar_files is_sqtl s r w :
  r ∈ yielded (parse_file_and_yield_relationships tar_files is_sqtl s) ->
  exists w', process_gene (gene_of r) w = Ok (gene_of r, w').
Proof.
  intros Hr. apply Members.yielded_elem in Hr.
  destruct (Members.parse_members_facts is_sqtl (anatomy_id_lookup s) tar_files)
    as (_ & _ & Hyield).
  destruct (Hyield r Hr) as [_ [x Hx]].
  destruct (decide (gene_of r ∈ written_genes (self w))) as [Hin|Hnin].
  - exists w. now apply process_gene_known.
  - destruct (process_gene_new (gene_of r) w Hnin) as (name & _ & Hg);
      [|eexists; exact Hg].
    rewrite Hx.
    change (Py.split ":" ("ENSEMBL:" +:+ text_before "." x))
      with ("ENSEMBL" :: Py.split ":" (text_before "." x)).
    pose proof (Lines.split_nonempty ":" (text_before "." x)) as Hne.
    destruct (Py.split ":" (text_before "." x));
      [contradiction | cbn [List.length]; lia].
Qed.

Lemma comes_to_yielded is_sqtl tar_files w0 r w1 :
  comes_to is_sqtl tar_files w0 r w1 ->
  r ∈ yielded (parse_file_and_yield_relationships tar_files is_sqtl (self w0)).
Proof.
  intros (before & rest & Hy & _). rewrite Hy, elem_of_app. right. left.
Qed.

(** The loop body on a yielded tuple with an unparsable number whose
    variant has an id. *)
Lemma unparsable_relationship_raises tar_files is_sqtl s r w v w1 :
  r ∈ yielded (parse_file_and_yield_relationships tar_files is_sqtl s) ->
  unparsable r ->
  process_variant (variant_of r) w = Ok (v, w1) ->
  Py.truthy v <> None ->
  load_relationship is_sqtl r w = Raise ValueError.
Proof.
  intros Hr Hbad Hv Hid.
  destruct (yielded_gene_registers _ _ _ _ w1 Hr) as [w2 Hg].
  destruct r as [[[[anatomy_id gtex_variant] gtex_gene] p_value] slope].
  unfold unparsable, variant_of, gene_of, p_value_of, slope_of in *; cbn in Hbad, Hv, Hg.
  unfold load_relationship. rewrite Hv. cbn [mbind result_bind].
  destruct (Py.truthy v) as [variant_id|]; [|congruence].
  rewrite Hg. cbn [mbind result_bind]. now apply create_edge_unparsable.
Qed.

(** An exception of the loop body leaves the dataset. *)
Lemma load_dataset_raises is_sqtl tar_files w0 r w1 e :
  comes_to is_sqtl tar_files w0 r w1 ->
  load_relationship is_sqtl r w1 = Raise e ->
  load_dataset tar_files is_sqtl w0 = Raise e.
Proof.
  intros (before & rest & Hy & Hbefore) Hr. unfold load_dataset, consume.
  rewrite Hy, load_relationships_app, Hbefore.
  cbn [mbind result_bind load_relationships]. now rewrite Hr.
Qed.

(** A call of [process_variant] that returns nothing truthy writes
    nothing and accumulates nothing. *)
Lemma process_variant_falsy t w v w1 :
  process_variant t w = Ok (v, w1) ->
  Py.truthy v = None ->
  kgx_file_writer w1 = kgx_file_writer w /\
  written_genes (self w1) = written_genes (self w) /\
  edge_list (self w1) = edge_list (self w).
Proof.
  intros Hv Hfalsy.
  destruct (gtex_variant_to_hgvs_lookup (self w) !! t) as [c|] eqn:Hc.
  - unfold process_variant in Hv. rewrite Hc in Hv. injection Hv as _ <-.
    now repeat split.
  - rewrite (fresh_variant_id_truthy t w v w1 Hc Hv) in Hfalsy. subst v.
    destruct (process_variant_no_id _ _ _ Hv) as (Hk & Hg & He & _).
    now repeat split.
Qed.

(** C10, amended.  The two number texts are read in [create_edge] only,
    which raises [ValueError] on either dataset when [float] rejects one
    of them.  When the loop of [load] comes to a yielded tuple with such a
    text and the variant of the tuple has an id, nothing catches the
    exception short of [load]: the run ends in [SourceDataFailedError],
    on the eQTL dataset and, when the eQTL dataset has gone through, on
    the sQTL dataset.  When the variant has no id, the loop body returns
    before [create_edge] is called, whatever the number texts are: they
    are never read, nothing is written or accumulated for the tuple, and
    the loop goes on with the next tuple. *)
Theorem unparsable_number_aborts_run (eqtl_tar sqtl_tar : list tar_member)
    (w : world) :
  let start := normalize_anatomy_ids w in
  (forall anatomy_id variant_id gene_id p_value slope is_sqtl w1,
     py_float p_value = None \/ py_float slope = None ->
     create_edge anatomy_id variant_id gene_id p_value slope is_sqtl w1
       = Raise ValueError) /\
  (forall r w1 v w2,
     comes_to false eqtl_tar start r w1 ->
     unparsable r ->
     process_variant (variant_of r) w1 = Ok (v, w2) ->
     Py.truthy v <> None ->
     load_relationship false r w1 = Raise ValueError /\
     load eqtl_tar sqtl_tar w = Raise (SourceDataFailedError ValueError)) /\
  (forall w0 r w1 v w2,
     load_dataset eqtl_tar false start = Ok w0 ->
     comes_to true sqtl_tar w0 r w1 ->
     unparsable r ->
     process_variant (variant_of r) w1 = Ok (v, w2) ->
     Py.truthy v <> None ->
     load_relationship true r w1 = Raise ValueError /\
     load eqtl_tar sqtl_tar w = Raise (SourceDataFailedError ValueError)) /\
  (forall is_sqtl r rest w1 v w2,
     process_variant (variant_of r) w1 = Ok (v, w2) ->
     Py.truthy v = None ->
     load_relationship is_sqtl r w1 = Ok w2 /\
     load_relationships is_sqtl (r :: rest) w1
       = load_relationships is_sqtl rest w2 /\
     kgx_file_writer w2 = kgx_file_writer w1 /\
     written_genes (self w2) = written_genes (self w1) /\
     edge_list (self w2) = edge_list (self w1)).
Proof.
  intros start. refine (conj _ (conj _ (conj _ _))).
  - intros. now apply create_edge_unparsable.
  - intros r w1 v w2 Hcome Hbad Hv Hid.
    assert (Hr : load_relationship false r w1 = Raise ValueError).
    { eapply unparsable_relationship_raises; eauto using comes_to_yielded. }
    split; [exact Hr|]. unfold load. fold start.
    now rewrite (load_dataset_raises _ _ _ _ _ _ Hcome Hr).
  - intros w0 r w1 v w2 Heqtl Hcome Hbad Hv Hid.
    assert (Hr : load_relationship true r w1 = Raise ValueError).
    { eapply unparsable_relationship_raises; eauto using comes_to_yielded. }
    split; [exact Hr|]. unfold load. fold start. rewrite Heqtl.
    cbn [mbind result_bind].
    now rewrite (load_dataset_raises _ _ _ _ _ _ Hcome Hr).
  - intros is_sqtl r rest w1 v w2 Hv Hfalsy.
    destruct (process_variant_falsy _ _ _ _ Hv Hfalsy) as (Hk & Hg & He).
    assert (Hr : load_relationship is_sqtl r w1 = Ok w2).
    { destruct r as [[[[anatomy_id gtex_variant] gtex_gene] p_value] slope].
      unfold variant_of in Hv; cbn in Hv.
      unfold load_relationship. rewrite Hv. cbn [mbind result_bind].
      now rewrite Hfalsy. }
    refine (conj Hr (conj _ (conj Hk (conj Hg He)))).
    cbn [load_relationships]. now rewrite Hr.
Qed.

End NumberConversion.

Section NumberConversionSample.
#[local] Existing Instance Sample.collaborators.

(** C10 as it is stated fails.  The first line of this eQTL table has a
    slope that is not a number, and a variant that does not convert: the
    tuple is yielded and dropped, [create_edge] is not called on it, the
    next line is loaded and the run goes through. *)
Lemma unparsable_number_of_unresolved_variant_is_dropped :
  let r := ("UBERON:0002107", "chr1_100_A_N_b38", "ENSEMBL:ENSG00000227232",
            "0.25", "abc") in
  let start := normalize_anatomy_ids (init_world Sample.tissues) in
  yielded (parse_file_and_yield_relationships
             Sample.unresolved_bad_slope_archive false (self start))
    = [r; ("UBERON:0002107", "chr1_200_A_T_b38", "ENSEMBL:ENSG00000227232",
           "0.25", "0.5")] /\
  py_float (slope_of r) = None /\
  is_ok (load_relationship false r start) = true /\
  exists w',
    load Sample.unresolved_bad_slope_archive Sample.good_sqtl_archive
         (init_world Sample.tissues) = Ok w' /\
    map written_key (written_edges (kgx_file_writer w'))
      = [("HGVS:chr1:g.A>T", "ENSEMBL:ENSG00000227232", "CTD:increases_expression_of");
         ("HGVS:chr1:g.A>T", "ENSEMBL:ENSG00000227232", "CTD:affects_splicing_of")].
Proof.
  intros r start. refine (conj _ (conj _ (conj _ _))).
  - vm_compute. reflexivity.
  - vm_compute. reflexivity.
  - vm_compute. reflexivity.
  - eexists. split; vm_compute; reflexivity.
Qed.

Lemma unparsable_number_aborts_run_witness :
  load Sample.bad_slope_archive Sample.good_sqtl_archive (init_world Sample.tissues)
    = Raise (SourceDataFailedError ValueError) /\
  load Sample.eqtl_archive Sample.bad_pvalue_sqtl_archive (init_world Sample.tissues)
    = Raise (SourceDataFailedError ValueError).
Proof.
  split.
  - destruct (unparsable_number_aborts_run
                Sample.bad_slope_archive Sample.good_sqtl_archive
                (init_world Sample.tissues)) as (_ & Heqtl & _).
    refine (proj2 (Heqtl ("UBERON:0002107", "chr1_100_A_T_b38",
                          "ENSEMBL:ENSG00000227232", "0.25", "abc")
                         (normalize_anatomy_ids (init_world Sample.tissues))
                         (Some "HGVS:chr1:g.A>T") _ _ _ _ _)).
    + exists [], [("UBERON:0002107", "chr1_200_A_T_b38",
                   "ENSEMBL:ENSG00000227232", "0.25", "0.5")].
      split; vm_compute; reflexivity.
    + right. vm_compute. reflexivity.
    + vm_compute. reflexivity.
    + vm_compute. discriminate.
  - destruct (unparsable_number_aborts_run
                Sample.eqtl_archive Sample.bad_pvalue_sqtl_archive
                (init_world Sample.tissues)) as (_ & _ & Hsqtl & _).
    refine (proj2 (Hsqtl _ ("UBERON:0002107", "chr1_100_A_T_b38",
                            "ENSEMBL:ENSG00000227232", "n/a", "-0.5")
                         _ (Some "HGVS:chr1:g.A>T") _ _ _ _ _ _)).
    + vm_compute. reflexivity.
    + exists [], []. split; vm_compute; reflexivity.
    + left. vm_compute. reflexivity.
    + vm_compute. reflexivity.
    + vm_compute. discriminate.
Defined.

End NumberConversionSample.

(** ** One edge per triple of the accumulator of [load] *)

Module Shape.

Lemma append_cons c s t : String c s +:+ t = String c (s +:+ t).
Proof. reflexivity. Qed.

Lemma append_nil_r s : s +:+ EmptyString = s.
Proof.
  induction s as [|c s IH]; [reflexivity|]. now rewrite append_cons, IH.
Qed.

Lemma append_eq_cases s1 : forall r1 s2 r2,
  s1 +:+ r1 = s2 +:+ r2 ->
  (exists u, s1 = s2 +:+ u /\ r2 = u +:+ r1) \/
  (exists u, s2 = s1 +:+ u /\ r1 = u +:+ r2).
Proof.
  induction s1 as [|c s1 IH]; intros r1 s2 r2 Heq.
  - right. exists s2. now split.
  - destruct s2 as [|c2 s2].
    + left. exists (String c s1). now split.
    + rewrite !append_cons in Heq. injection Heq as -> Heq.
      destruct (IH _ _ _ Heq) as [(u & -> & ->)|(u & -> & ->)];
        [left | right]; exists u; now split.
Qed.

Lemma prefix_append s : forall b, String.prefix s (s +:+ b) = true.
Proof.
  induction s as [|c s IH]; intros b; [now destruct b|].
  rewrite append_cons. cbn [String.prefix].
  destruct (ascii_dec c c); [apply IH | congruence].
Qed.

Lemma contains_prefix sub s : String.prefix sub s = true -> Py.contains sub s = true.
Proof. intros Hp. destruct s; cbn [Py.contains]; now rewrite Hp. Qed.

Lemma contains_append sub a : forall b, Py.contains sub (a +:+ sub +:+ b) = true.
Proof.
  induction a as [|c a IH]; intros b.
  - change (EmptyString +:+ sub +:+ b) with (sub +:+ b).
    apply contains_prefix, prefix_append.
  - rewrite append_cons. cbn [Py.contains]. rewrite IH. apply orb_true_r.
Qed.

(** A text that begins where [k] begins and ends before a character
    that [k] does not have contains all of [k]. *)
Lemma without_character c k : forall u rest y,
  occurs c k = false ->
  u +:+ String c rest = k +:+ y ->
  exists u', u = k +:+ u'.
Proof.
  induction k as [|a k IH]; intros u rest y Hno Heq.
  - now exists u.
  - cbn [occurs] in Hno. apply orb_false_iff in Hno as [Hac Hno].
    apply Ascii.eqb_neq in Hac. rewrite append_cons in Heq.
    destruct u as [|b u].
    + change (String c rest = String a (k +:+ y)) in Heq. congruence.
    + rewrite append_cons in Heq. injection Heq as -> Heq.
      destruct (IH _ _ _ Hno Heq) as [u' ->]. now exists u'.
Qed.

(** The relations begin with a character they do not have again, also
    when the gene prefix follows. *)
Lemma relation_head p :
  known_predicate p ->
  exists k, occurs "C" k = false /\
            forall x, p +:+ "ENSEMBL:" +:+ x = String "C" (k +:+ x).
Proof.
  intros [-> | [-> | ->]].
  - exists "TD:affects_splicing_ofENSEMBL:". now split.
  - exists "TD:increases_expression_ofENSEMBL:". now split.
  - exists "TD:decreases_expression_ofENSEMBL:". now split.
Qed.

Lemma relation_injective pa pb xa xb :
  known_predicate pa -> known_predicate pb ->
  pa +:+ "ENSEMBL:" +:+ xa = pb +:+ "ENSEMBL:" +:+ xb ->
  pa = pb /\ xa = xb.
Proof.
  intros [-> | [-> | ->]] [-> | [-> | ->]];
    unfold affects_splicing, increases_expression, decreases_expression;
    cbv [String.append]; intros Heq; (split; congruence).
Qed.

(** When one of two keys that agree has the longer subject, that subject
    contains the relation of the other key and the gene prefix. *)
Lemma longer_subject_contains sa sb pa pb xa xb u :
  known_predicate pa -> known_predicate pb ->
  sa = sb +:+ u ->
  pb +:+ "ENSEMBL:" +:+ xb = u +:+ pa +:+ "ENSEMBL:" +:+ xa ->
  u = EmptyString \/ Py.contains (pb +:+ "ENSEMBL:") sa = true.
Proof.
  intros Hpa Hpb -> Hkey.
  destruct u as [|c u]; [now left|]. right.
  destruct (relation_head pa Hpa) as (ka & _ & Ha).
  destruct (relation_head pb Hpb) as (kb & Hno & Hb).
  rewrite Ha, Hb, append_cons in Hkey. injection Hkey as <- Hkey.
  symmetry in Hkey. destruct (without_character _ _ _ _ _ Hno Hkey) as [u' ->].
  specialize (Hb EmptyString). rewrite !append_nil_r in Hb.
  change (String "C" (kb +:+ u')) with (String "C" kb +:+ u').
  rewrite <- Hb.
  exact (contains_append (pb +:+ "ENSEMBL:") sb u').
Qed.

(** On records of the shape [load] accumulates the concatenated group
    key tells the triples apart. *)
Lemma shaped_unambiguous l : Forall accumulated_shape l -> unambiguous l.
Proof.
  rewrite Forall_forall. intros Hshape a b Ha Hb Hkey.
  destruct (Hshape a Ha) as (Hpa & [xa Hoa] & Hsa).
  destruct (Hshape b Hb) as (Hpb & [xb Hob] & Hsb).
  unfold group_key in Hkey. unfold triple. rewrite Hoa, Hob in *.
  assert (Hsame : subject a = subject b /\
                  predicate a +:+ "ENSEMBL:" +:+ xa
                  = predicate b +:+ "ENSEMBL:" +:+ xb).
  { apply append_eq_cases in Hkey as [(u & Hs & Hr)|(u & Hs & Hr)].
    - destruct (longer_subject_contains _ _ _ _ _ _ _ Hpa Hpb Hs Hr) as [->|Hin].
      + rewrite append_nil_r in Hs. now split.
      + rewrite (Hsa _ Hpb) in Hin. discriminate.
    - destruct (longer_subject_contains _ _ _ _ _ _ _ Hpb Hpa Hs Hr) as [->|Hin].
      + rewrite append_nil_r in Hs. now split.
      + rewrite (Hsb _ Hpa) in Hin. discriminate. }
  destruct Hsame as [Hs Hrest].
  destruct (relation_injective _ _ _ _ Hpa Hpb Hrest) as [Hp Hx].
  now rewrite Hs, Hp, Hx.
Qed.

Lemma occurs_append c a b : occurs c (a +:+ b) = occurs c a || occurs c b.
Proof.
  induction a as [|x a IH]; [reflexivity|].
  rewrite append_cons. cbn [occurs]. now rewrite IH, orb_assoc.
Qed.

Lemma prefix_occurs c sub : forall s,
  String.prefix sub s = true -> occurs c sub = true -> occurs c s = true.
Proof.
  induction sub as [|a sub IH]; intros s Hp Hc; [discriminate|].
  destruct s as [|b s]; [discriminate|]. cbn [String.prefix] in Hp.
  destruct (ascii_dec a b) as [->|]; [|discriminate].
  cbn [occurs] in *. apply orb_true_iff in Hc as [Hc|Hc].
  - now rewrite Hc.
  - rewrite (IH _ Hp Hc). apply orb_true_r.
Qed.

Lemma contains_occurs c sub s :
  Py.contains sub s = true -> occurs c sub = true -> occurs c s = true.
Proof.
  intros Hin Hc. induction s as [|a s IH]; cbn [Py.contains] in Hin;
    apply orb_true_iff in Hin as [Hp|Hin]; try discriminate;
    try exact (prefix_occurs _ _ _ Hp Hc).
  cbn [occurs]. rewrite (IH Hin). apply orb_true_r.
Qed.

(** The components of a split text do not have the separator. *)
Lemma split_occurs sep s : forall x, x ∈ Py.split sep s -> occurs sep x = false.
Proof.
  induction s as [|c s IH]; intros x; cbn [Py.split].
  - intros Hx. now apply list_elem_of_singleton in Hx as ->.
  - destruct (Ascii.eqb c sep) eqn:Hc.
    + rewrite elem_of_cons. intros [->|Hx]; [reflexivity | now apply IH].
    + destruct (Py.split sep s) as [|w ws].
      * intros Hx. apply list_elem_of_singleton in Hx as ->.
        cbn [occurs]. now rewrite Hc.
      * rewrite elem_of_cons. intros [->|Hx].
        -- cbn [occurs]. rewrite Hc. apply IH. left.
        -- apply IH. now right.
Qed.

Lemma index_elem {A} (l : list A) i x : Py.index l i = Ok x -> x ∈ l.
Proof.
  unfold Py.index. destruct (l !! i) eqn:Hl; [|discriminate].
  intros [= <-]. now apply list_elem_of_lookup_2 in Hl.
Qed.

Lemma truthy_some v id : Py.truthy v = Some id -> v = Some id.
Proof. destruct v as [[|c s]|]; cbn; congruence. Qed.

End Shape.

Section Accumulator.
Context `{Collaborators}.
Hypothesis converter : relation_free_converter.

Lemma init_world_shaped tissues : shaped (init_world tissues).
Proof.
  split; cbn; [constructor|]. intros t id. now rewrite lookup_empty.
Qed.

Lemma shaped_process_variant t w v w1 :
  shaped w ->
  process_variant t w = Ok (v, w1) ->
  shaped w1 /\ forall id, Py.truthy v = Some id -> relation_free id.
Proof.
  intros [Hacc Hcache]. unfold process_variant.
  destruct (gtex_variant_to_hgvs_lookup (self w) !! t) as [c|] eqn:Hc.
  { intros [= <- <-]. split; [now split|].
    intros id Hid. apply Shape.truthy_some in Hid. subst c.
    exact (Hcache t id Hc). }
  destruct (variant_request t) as [req|] eqn:Hreq; cbn [mbind result_bind];
    [|discriminate].
  destruct (Py.truthy (convert_variant_to_hgvs req)) as [hgvs|] eqn:Hconv;
    intros [= <- <-].
  - apply Shape.truthy_some in Hconv.
    pose proof (converter t req hgvs Hreq Hconv) as Hfree.
    split; [split; [exact Hacc|]|].
    + intros t' id. cbn. rewrite insert_insert_eq.
      destruct (decide (t' = t)) as [->|Hne].
      * rewrite lookup_insert_eq. now intros [= <-].
      * rewrite lookup_insert_ne by congruence. apply Hcache.
    + intros id. rewrite canonical_id_truthy. now intros [= <-].
  - split; [split; [exact Hacc|]|discriminate].
    intros t' id. cbn.
    destruct (decide (t' = t)) as [->|Hne].
    + rewrite lookup_insert_eq. discriminate.
    + rewrite lookup_insert_ne by congruence. apply Hcache.
Qed.

Lemma shaped_process_gene g w g' w1 :
  shaped w -> process_gene g w = Ok (g', w1) -> shaped w1 /\ g' = g.
Proof.
  intros Hs. unfold process_gene. destruct (decide _); [now intros [= <- <-]|].
  destruct (Py.index _ _); cbn [mbind result_bind]; [|discriminate].
  now intros [= <- <-].
Qed.

Lemma shaped_create_edge anatomy_id variant_id gene_id p_value slope is_sqtl w w1 :
  shaped w ->
  relation_free variant_id ->
  (exists x, gene_id = "ENSEMBL:" +:+ x) ->
  create_edge anatomy_id variant_id gene_id p_value slope is_sqtl w = Ok w1 ->
  shaped w1.
Proof.
  intros [Hacc Hcache] Hfree Hgene. unfold create_edge, float_of.
  destruct (py_float slope) as [sl|], (py_float p_value) as [pv|];
    destruct is_sqtl; cbn [mbind result_bind]; try discriminate;
    intros [= <-]; (split; [|exact Hcache]);
    cbn; apply Forall_app; (split; [exact Hacc|]);
    (constructor; [|constructor]);
    refine (conj _ (conj Hgene Hfree)); unfold known_predicate; cbn;
    try tauto; destruct (positive sl); tauto.
Qed.

Lemma shaped_load_relationship is_sqtl r w w1 :
  shaped w ->
  (exists x, gene_of r = "ENSEMBL:" +:+ x) ->
  load_relationship is_sqtl r w = Ok w1 ->
  shaped w1.
Proof.
  intros Hs Hgene.
  destruct r as [[[[anatomy_id gtex_variant] gtex_gene] p_value] slope].
  unfold gene_of in Hgene; cbn in Hgene. unfold load_relationship.
  destruct (process_variant gtex_variant w) as [[v w2]|] eqn:Hv;
    cbn [mbind result_bind]; [|discriminate].
  destruct (shaped_process_variant _ _ _ _ Hs Hv) as [Hs2 Hfree].
  destruct (Py.truthy v) as [variant_id|]; [|now intros [= <-]].
  destruct (process_gene gtex_gene w2) as [[gene_id w3]|] eqn:Hg;
    cbn [mbind result_bind]; [|discriminate].
  destruct (shaped_process_gene _ _ _ _ Hs2 Hg) as [Hs3 ->].
  intros Hc. eapply shaped_create_edge; eauto.
Qed.

Lemma shaped_load_relationships is_sqtl rs : forall w w1,
  shaped w ->
  Forall (fun r => exists x, gene_of r = "ENSEMBL:" +:+ x) rs ->
  load_relationships is_sqtl rs w = Ok w1 ->
  shaped w1.
Proof.
  induction rs as [|r rs IH]; intros w w1 Hs Hgenes; cbn [load_relationships].
  - now intros [= <-].
  - apply Forall_cons in Hgenes as [Hgene Hgenes].
    destruct (load_relationship is_sqtl r w) as [w2|] eqn:Hr;
      cbn [mbind result_bind]; [|discriminate].
    apply IH; [|exact Hgenes].
    eapply shaped_load_relationship; eauto.
Qed.

Lemma yielded_genes tar_files is_sqtl s :
  Forall (fun r => exists x, gene_of r = "ENSEMBL:" +:+ x)
         (yielded (parse_file_and_yield_relationships tar_files is_sqtl s)).
Proof.
  apply Forall_forall. intros r Hr. apply Members.yielded_elem in Hr.
  destruct (Members.parse_members_facts is_sqtl (anatomy_id_lookup s) tar_files)
    as (_ & _ & Hyield).
  destruct (Hyield r Hr) as [_ [x Hx]]. now exists (text_before "." x).
Qed.

(** The loop of [load] over a dataset keeps the loader in shape, and so
    does the rest of the work on the dataset. *)
Lemma shaped_loop tar_files is_sqtl w w1 :
  shaped w ->
  load_relationships is_sqtl
    (yielded (parse_file_and_yield_relationships tar_files is_sqtl (self w))) w
    = Ok w1 ->
  shaped w1.
Proof.
  intros Hs. apply shaped_load_relationships; [exact Hs | apply yielded_genes].
Qed.

Lemma shaped_load_dataset tar_files is_sqtl w w' :
  shaped w -> load_dataset tar_files is_sqtl w = Ok w' -> shaped w'.
Proof.
  intros Hs. unfold load_dataset, consume.
  destruct (load_relationships is_sqtl _ w) as [w1|] eqn:Hrs;
    cbn [mbind result_bind]; [|discriminate].
  apply shaped_loop in Hrs; [|exact Hs].
  destruct (raised _); cbn [mbind result_bind]; [discriminate|].
  rewrite Coalescing.coalesce_and_write_edges_runs.
  destruct (sorted_edges (edge_list (self w1))); cbn [mbind result_bind];
    [discriminate|].
  intros [= <-]. split; [constructor | exact (proj2 Hrs)].
Qed.

End Accumulator.

Section AccumulatedTriples.
Context `{Collaborators}.


End AccumulatedTriples.

Section AccumulatedTriplesSample.
#[local] Existing Instance Sample.collaborators.

(** The sample converter puts a variant id together from components of
    the token, which have no underscore; every relation has one. *)
Lemma sample_converter_relation_free : relation_free_converter.
Proof.
  intros t request hgvs Hreq Hconv p Hp.
  destruct (Py.contains (p +:+ "ENSEMBL:") (HGVS +:+ ":" +:+ hgvs)) eqn:Hin;
    [|reflexivity].
  apply (Shape.contains_occurs "_") in Hin;
    [|destruct Hp as [-> | [-> | ->]]; reflexivity].
  unfold variant_request in Hreq.
  set (variant_data := Py.split "_" (Py.drop_chars 3 t)) in *.
  destruct (Py.index variant_data 0) as [chrom|] eqn:H0;
    cbn [mbind result_bind] in Hreq; [|discriminate].
  destruct (Py.index variant_data 1) as [pos|];
    cbn [mbind result_bind] in Hreq; [|discriminate].
  destruct (int_of pos); cbn [mbind result_bind] in Hreq; [|discriminate].
  destruct (Py.index variant_data 2) as [ref|] eqn:H2;
    cbn [mbind result_bind] in Hreq; [|discriminate].
  destruct (Py.index variant_data 3) as [alt|] eqn:H3;
    cbn [mbind result_bind] in Hreq; [|discriminate].
  destruct (Py.index variant_data 4); cbn [mbind result_bind] in Hreq;
    [|discriminate].
  injection Hreq as <-.
  apply Shape.index_elem, Shape.split_occurs in H0, H2, H3.
  cbn in Hconv. unfold Sample.convert in Hconv. cbn in Hconv.
  destruct (String.eqb alt "N"); [discriminate|]. injection Hconv as <-.
  change HGVS with "HGVS" in Hin.
  rewrite !Shape.occurs_append, H0, H2, H3 in Hin. discriminate Hin.
Qed.


End AccumulatedTriplesSample.

(** ** Normalization and parsing *)

Module Renaming.

Lemma extraction_renamed f is_sqtl anatomy_id cols :
  extract_relationship is_sqtl (f anatomy_id) cols =
  match extract_relationship is_sqtl anatomy_id cols with
  | Ok (a, variant, gene, pval, slope) => Ok (f a, variant, gene, pval, slope)
  | Raise e => Raise e
  end.
Proof.
  unfold extract_relationship.
  repeat
    (match goal with
     | |- context [Py.index ?l ?i] =>
         destruct (Py.index l i); cbn [mbind result_bind]; try reflexivity
     | |- context [if ?b then _ else _] => destruct b
     end; cbn [mbind result_bind]);
    reflexivity.
Qed.

Lemma parse_lines_renamed f is_sqtl anatomy_id member ls : forall i,
  parse_lines is_sqtl (f anatomy_id) member i ls =
  renamed f (parse_lines is_sqtl anatomy_id member i ls).
Proof.
  induction ls as [|l ls IH]; intros i; cbn [parse_lines]; [reflexivity|].
  destruct (negb _).
  - rewrite IH. reflexivity.
  - rewrite extraction_renamed.
    destruct (extract_relationship is_sqtl anatomy_id (Py.split "009" l))
      as [[[[[a v] g] p] s]|[]]; try reflexivity;
      rewrite IH; reflexivity.
Qed.

Lemma parse_members_renamed f is_sqtl (lookup : gmap string string) tar_files :
  parse_members is_sqtl (f <$> lookup) tar_files =
  renamed f (parse_members is_sqtl lookup tar_files).
Proof.
  induction tar_files as [|m rest IH]; cbn [parse_members]; [reflexivity|].
  rewrite IH. unfold parse_member.
  destruct (Py.contains "signif" (name m)); [|reflexivity].
  destruct (_ ≫= _) as [tissue|e]; [|reflexivity].
  rewrite lookup_fmap.
  destruct (lookup !! tissue) as [anatomy_id|]; cbn [fmap option_fmap option_map];
    [|reflexivity].
  destruct (lines m) as [|header ls]; [reflexivity|].
  rewrite parse_lines_renamed.
  unfold renamed at 1 2. cbn [raised actions].
  destruct (raised (parse_lines is_sqtl anatomy_id (name m) 1 ls)) eqn:Hr.
  - unfold renamed, doing. cbn [actions raised map]. now rewrite Hr.
  - unfold renamed, doing. cbn [actions raised map]. now rewrite map_app.
Qed.

End Renaming.

(** X13. Normalizing the anatomy ids before parsing changes nothing in
    what the generator does but the anatomy ids of the relationships it
    yields: the same members are opened, the same lines are logged, the
    same exception ends it, and each relationship carries the normalized
    form of the id it would have carried. *)
Theorem normalization_renames_anatomy_only `{Collaborators}
    (tar_files : list tar_member) (is_sqtl : bool) (w : world) :
  parse_file_and_yield_relationships tar_files is_sqtl
    (self (normalize_anatomy_ids w))
  = renamed normalized
      (parse_file_and_yield_relationships tar_files is_sqtl (self w)).
Proof.
  unfold parse_file_and_yield_relationships, normalize_anatomy_ids.
  cbn [self with_self set_anatomy_id_lookup anatomy_id_lookup].
  apply (Renaming.parse_members_renamed normalized).
Qed.

(** ** Whole runs *)

Section Linked.
Context `{Collaborators}.

(** A step that only adds nodes, and whose new cache entries, genes and
    edges refer to nodes of the new sink, keeps the state linked. *)
Lemma linked_step w w' :
  linked w ->
  (forall id, id ∈ node_ids w -> id ∈ node_ids w') ->
  (forall t id, gtex_variant_to_hgvs_lookup (self w') !! t = Some (Some id) ->
     gtex_variant_to_hgvs_lookup (self w) !! t = Some (Some id) \/ id ∈ node_ids w') ->
  (forall g, g ∈ written_genes (self w') ->
     g ∈ written_genes (self w) \/ g ∈ node_ids w') ->
  (forall e, e ∈ edge_list (self w') ->
     e ∈ edge_list (self w) \/
     (subject e ∈ node_ids w' /\ object e ∈ node_ids w' /\
      known_predicate (predicate e))) ->
  (forall e, e ∈ written_edges (kgx_file_writer w') ->
     e ∈ written_edges (kgx_file_writer w) \/
     (subject_id e ∈ node_ids w' /\ object_id e ∈ node_ids w' /\
      known_predicate (edge_predicate e))) ->
  linked w'.
Proof.
  intros (Hcache & Hgenes & Hacc & Hout) Hgrow Hc Hg He Ho.
  rewrite Forall_forall in Hacc. rewrite Forall_forall in Hout.
  refine (conj _ (conj _ (conj _ _))).
  - intros t id Hid. destruct (Hc t id Hid) as [Hold|Hnew]; [|exact Hnew].
    apply Hgrow. exact (Hcache t id Hold).
  - intros g Hin. destruct (Hg g Hin) as [Hold|Hnew]; [|exact Hnew].
    apply Hgrow. exact (Hgenes g Hold).
  - apply Forall_forall. intros e Hin.
    destruct (He e Hin) as [Hold|Hnew]; [|exact Hnew].
    destruct (Hacc e Hold) as (Hs & Hob & Hp). auto.
  - apply Forall_forall. intros e Hin.
    destruct (Ho e Hin) as [Hold|Hnew]; [|exact Hnew].
    destruct (Hout e Hold) as (Hs & Hob & Hp). auto.
Qed.

Lemma init_world_linked tissues : linked (init_world tissues).
Proof.
  refine (conj _ (conj _ (conj _ _))); cbn.
  - intros t id. now rewrite lookup_empty.
  - intros g Hin. now apply not_elem_of_empty in Hin.
  - constructor.
  - constructor.
Qed.

Lemma linked_process_variant t w v w' :
  linked w -> process_variant t w = Ok (v, w') ->
  linked w' /\ forall id, v = Some id -> id ∈ node_ids w'.
Proof.
  intros Hl. unfold process_variant.
  destruct (gtex_variant_to_hgvs_lookup (self w) !! t) as [c|] eqn:Hc.
  { intros [= <- <-]. split; [exact Hl|]. intros id ->.
    destruct Hl as (Hcache & _). exact (Hcache t id Hc). }
  destruct (variant_request t) as [req|]; cbn [mbind result_bind]; [|discriminate].
  destruct (Py.truthy (convert_variant_to_hgvs req)) as [hgvs|];
    intros [= <- <-].
  - assert (Hnew : HGVS +:+ ":" +:+ hgvs ∈
                   node_ids (cache_variant t (Some (HGVS +:+ ":" +:+ hgvs))
                     (with_writer
                        (write_node (variant_node (HGVS +:+ ":" +:+ hgvs) hgvs))
                        (cache_variant t (Some (HGVS +:+ ":" +:+ hgvs))
                           (record_conversion req w))))).
    { unfold node_ids. cbn. rewrite map_app, elem_of_app. right. left. }
    split; [|now intros id [= <-]].
    apply (linked_step w); try exact Hl.
    + intros id. unfold node_ids. cbn. rewrite map_app, elem_of_app. tauto.
    + intros t' id. cbn. rewrite insert_insert_eq.
      destruct (decide (t' = t)) as [->|Hne].
      * rewrite lookup_insert_eq. intros [= <-]. right. exact Hnew.
      * rewrite lookup_insert_ne by congruence. tauto.
    + cbn. tauto.
    + cbn. tauto.
    + cbn. tauto.
  - split; [|discriminate].
    apply (linked_step w); try exact Hl; cbn; try tauto.
    intros t' id.
    destruct (decide (t' = t)) as [->|Hne].
    + rewrite lookup_insert_eq. discriminate.
    + rewrite lookup_insert_ne by congruence. tauto.
Qed.

Lemma linked_process_gene g w g' w' :
  linked w -> process_gene g w = Ok (g', w') ->
  linked w' /\ g' ∈ node_ids w'.
Proof.
  intros Hl. unfold process_gene.
  destruct (decide (g ∈ written_genes (self w))) as [Hin|Hnin].
  { intros [= <- <-]. split; [exact Hl|]. destruct Hl as (_ & Hgenes & _).
    now apply Hgenes. }
  destruct (Py.index (Py.split ":" g) 1) as [name|]; cbn [mbind result_bind];
    [|discriminate].
  intros [= <- <-].
  assert (Hnew : g ∈ node_ids
            (with_self (fun s => set_written_genes ({[g]} ∪ written_genes s) s)
               (with_writer (write_node (gene_node g name)) w))).
  { unfold node_ids. cbn. rewrite map_app, elem_of_app. right. left. }
  split; [|exact Hnew].
  apply (linked_step w); try exact Hl.
  - intros id. unfold node_ids. cbn. rewrite map_app, elem_of_app. tauto.
  - cbn. tauto.
  - cbn. intros g0. rewrite elem_of_union, elem_of_singleton.
    intros [->|Hold]; [right; exact Hnew | now left].
  - cbn. tauto.
  - cbn. tauto.
Qed.

Lemma linked_create_edge a v g p s is_sqtl w w' :
  linked w -> v ∈ node_ids w -> g ∈ node_ids w ->
  create_edge a v g p s is_sqtl w = Ok w' ->
  linked w'.
Proof.
  intros Hl Hv Hg. unfold create_edge, float_of.
  assert (Hknown : forall pr,
            (if is_sqtl then Ok affects_splicing
             else match py_float s with
                  | Some f => Ok (if positive f then increases_expression
                                  else decreases_expression)
                  | None => Raise ValueError
                  end) = Ok pr -> known_predicate pr).
  { intros pr. unfold known_predicate. destruct is_sqtl; [intros [= <-]; auto|].
    destruct (py_float s) as [f|]; [|discriminate].
    destruct (positive f); intros [= <-]; auto. }
  destruct is_sqtl; cbn [mbind result_bind].
  - destruct (py_float p); cbn [mbind result_bind]; [|discriminate].
    destruct (py_float s); cbn [mbind result_bind]; [|discriminate].
    intros [= <-].
    apply (linked_step w); try exact Hl; cbn; try tauto.
    intros e. rewrite elem_of_app, list_elem_of_singleton.
    intros [Hold| ->]; [now left|]. right. cbn.
    repeat split; try assumption. now left.
  - destruct (py_float s) as [f|] eqn:Hs; cbn [mbind result_bind]; [|discriminate].
    destruct (py_float p); cbn [mbind result_bind]; [|discriminate].
    intros [= <-].
    apply (linked_step w); try exact Hl; cbn; try tauto.
    intros e. rewrite elem_of_app, list_elem_of_singleton.
    intros [Hold| ->]; [now left|]. right. cbn.
    repeat split; try assumption. now apply Hknown.
Qed.

Lemma linked_load_relationship is_sqtl r w w' :
  linked w -> load_relationship is_sqtl r w = Ok w' -> linked w'.
Proof.
  intros Hl. destruct r as [[[[a t] g] p] s]. unfold load_relationship.
  destruct (process_variant t w) as [[v w1]|] eqn:Hv; cbn [mbind result_bind];
    [|discriminate].
  destruct (linked_process_variant _ _ _ _ Hl Hv) as [Hl1 Hid].
  destruct v as [id|]; cbn [Py.truthy]; [|now intros [= <-]].
  destruct id as [|c id]; [now intros [= <-]|].
  destruct (process_gene g w1) as [[g' w2]|] eqn:Hg; cbn [mbind result_bind];
    [|discriminate].
  destruct (linked_process_gene _ _ _ _ Hl1 Hg) as [Hl2 Hg'].
  apply linked_create_edge; [exact Hl2| |exact Hg'].
  assert (Hgrow : forall x, x ∈ node_ids w1 -> x ∈ node_ids w2).
  { revert Hg. unfold process_gene. destruct (decide _); [now intros [= _ <-]|].
    destruct (Py.index _ _); cbn [mbind result_bind]; [|discriminate].
    intros [= _ <-] x. unfold node_ids. cbn. rewrite map_app, elem_of_app. tauto. }
  apply Hgrow. now apply Hid.
Qed.

Lemma linked_load_relationships is_sqtl rs : forall w w',
  linked w -> load_relationships is_sqtl rs w = Ok w' -> linked w'.
Proof.
  induction rs as [|r rs IH]; intros w w' Hl; cbn [load_relationships].
  - now intros [= <-].
  - destruct (load_relationship is_sqtl r w) as [w1|] eqn:Hr;
      cbn [mbind result_bind]; [|discriminate].
    apply IH. now apply (linked_load_relationship is_sqtl r w).
Qed.

Lemma linked_coalesce w w' :
  linked w -> coalesce_and_write_edges w = Ok w' -> linked w'.
Proof.
  intros Hl. rewrite Coalescing.coalesce_and_write_edges_runs.
  pose proof (Sorting.sorted_perm (edge_list (self w))) as Hp.
  destruct (sorted_edges (edge_list (self w))) as [|x sl] eqn:Hsorted;
    [discriminate|].
  intros [= <-].
  apply (linked_step w); try exact Hl; unfold node_ids;
    cbn [self kgx_file_writer edge_list set_edge_list written_edges
         written_nodes written_genes gtex_variant_to_hgvs_lookup];
    try tauto.
  - intros e Hin. left. now rewrite <- Hp.
  - intros e. rewrite elem_of_app. intros [Hold|Hnew]; [now left|]. right.
    apply list_elem_of_In, in_map_iff in Hnew as (r & <- & Hr).
    apply list_elem_of_In, (Groups.run_head_in (x :: sl)) in Hr.
    rewrite Hp in Hr.
    destruct Hl as (_ & _ & Hacc & _). rewrite Forall_forall in Hacc.
    exact (Hacc _ Hr).
Qed.

Lemma linked_load_dataset tar_files is_sqtl w w' :
  linked w -> load_dataset tar_files is_sqtl w = Ok w' ->
  linked w' /\ edge_list (self w') = [].
Proof.
  intros Hl. unfold load_dataset, consume.
  destruct (load_relationships is_sqtl _ w) as [w1|] eqn:Hrs;
    cbn [mbind result_bind]; [|discriminate].
  apply linked_load_relationships in Hrs; [|exact Hl].
  destruct (raised _); cbn [mbind result_bind]; [discriminate|].
  destruct (coalesce_and_write_edges w1) as [w2|] eqn:Hco;
    cbn [mbind result_bind]; [|discriminate].
  apply linked_coalesce in Hco; [|exact Hrs].
  intros [= <-]. split; [|reflexivity].
  apply (linked_step w2); try exact Hco; cbn; try tauto.
  intros e Hin. now apply not_elem_of_nil in Hin.
Qed.

(** X14. A run of [load] that succeeds leaves no dangling reference: the
    subject and the object of every edge in the sink are ids of nodes in
    the sink, every predicate is one of the three relations of
    [create_edge], and the accumulator is empty again. *)
Theorem load_writes_no_dangling_edge (tissues : gmap string string)
    (eqtl_tar sqtl_tar : list tar_member) (w' : world) :
  load eqtl_tar sqtl_tar (init_world tissues) = Ok w' ->
  Forall (fun e => subject_id e ∈ node_ids w' /\ object_id e ∈ node_ids w' /\
                   known_predicate (edge_predicate e))
         (written_edges (kgx_file_writer w')) /\
  edge_list (self w') = [].
Proof.
  unfold load.
  assert (Hl : linked (normalize_anatomy_ids (init_world tissues))).
  { apply (linked_step (init_world tissues)); cbn; try tauto.
    apply init_world_linked. }
  destruct (load_dataset eqtl_tar false _) as [w1|] eqn:H1;
    cbn [mbind result_bind]; [|discriminate].
  apply linked_load_dataset in H1 as [Hl1 _]; [|exact Hl].
  destruct (load_dataset sqtl_tar true w1) as [w2|] eqn:H2; [|discriminate].
  apply linked_load_dataset in H2 as [Hl2 He]; [|exact Hl1].
  intros [= <-]. split; [|exact He]. now destruct Hl2 as (_ & _ & _ & Hout).
Qed.

(** X15. An eQTL archive without a member that has the marker makes
    [load] fail: nothing is yielded, the accumulator is still empty when
    the edges are to be coalesced, and the [IndexError] of the coalescer
    comes out as [SourceDataFailedError]; the sQTL archive is never
    opened. *)
Theorem load_without_marked_member_fails (eqtl_tar sqtl_tar : list tar_member)
    (w : world) :
  edge_list (self w) = [] ->
  Forall (fun m => Py.contains "signif" (name m) = false) eqtl_tar ->
  load eqtl_tar sqtl_tar w = Raise (SourceDataFailedError IndexError).
Proof.
  intros Hempty Hmarks. unfold load, load_dataset.
  set (w0 := normalize_anatomy_ids w).
  assert (Hgen : exists acts,
            parse_file_and_yield_relationships eqtl_tar false (self w0)
            = {| actions := map Extractfile acts; raised := None |}).
  { unfold parse_file_and_yield_relationships. generalize (anatomy_id_lookup (self w0)).
    intros lookup. induction Hmarks as [|m rest Hm _ [acts IH]].
    - now exists [].
    - exists (name m :: acts). cbn [parse_members]. unfold parse_member.
      now rewrite Hm, IH. }
  destruct Hgen as [acts ->]. unfold consume, yielded. cbn [actions raised].
  assert (Hnone : omap (fun a => match a with Yield r => Some r | _ => None end)
                       (map Extractfile acts) = []).
  { induction acts as [|a acts IH]; [reflexivity | exact IH]. }
  rewrite Hnone. cbn [load_relationships mbind result_bind].
  rewrite Coalescing.coalesce_and_write_edges_runs.
  replace (edge_list (self w0)) with (@nil edge) by (symmetry; exact Hempty).
  reflexivity.
Qed.

End Linked.

Section LinkedSample.
#[local] Existing Instance Sample.collaborators.

Lemma load_writes_no_dangling_edge_witness :
  exists w',
    load Sample.eqtl_archive Sample.good_sqtl_archive (init_world Sample.tissues)
      = Ok w' /\
    Forall (fun e => subject_id e ∈ node_ids w' /\ object_id e ∈ node_ids w' /\
                     known_predicate (edge_predicate e))
           (written_edges (kgx_file_writer w')) /\
    edge_list (self w') = [].
Proof.
  eexists. split; [vm_compute; reflexivity|].
  eapply (load_writes_no_dangling_edge Sample.tissues
            Sample.eqtl_archive Sample.good_sqtl_archive).
  vm_compute. reflexivity.
Defined.

Lemma load_without_marked_member_fails_witness :
  load Sample.readme_archive Sample.good_sqtl_archive (init_world Sample.tissues)
  = Raise (SourceDataFailedError IndexError).
Proof.
  refine (load_without_marked_member_fails Sample.readme_archive
            Sample.good_sqtl_archive (init_world Sample.tissues) _ _).
  - reflexivity.
  - repeat constructor.
Defined.

End LinkedSample.

(** ** Malformed variant tokens *)

Section Malformed.
Context `{Collaborators}.

Lemma short_token_request t :
  List.length (Py.split "_" (Py.drop_chars 3 t)) < 5 ->
  variant_request t = Raise IndexError \/ variant_request t = Raise ValueError.
Proof.
  intros Hlen. unfold variant_request, Py.index, int_of.
  destruct (Py.split "_" (Py.drop_chars 3 t) !! 0); cbn [mbind result_bind];
    [|now left].
  destruct (Py.split "_" (Py.drop_chars 3 t) !! 1); cbn [mbind result_bind];
    [|now left].
  destruct (py_int _); cbn [mbind result_bind]; [|now right].
  destruct (Py.split "_" (Py.drop_chars 3 t) !! 2); cbn [mbind result_bind];
    [|now left].
  destruct (Py.split "_" (Py.drop_chars 3 t) !! 3); cbn [mbind result_bind];
    [|now left].
  rewrite (lookup_ge_None_2 _ 4) by lia. now left.
Qed.

(** X16. A token that has not been seen and has fewer than five
    components after its first three characters is not recorded as a
    failed conversion: [process_variant] raises [IndexError], or
    [ValueError] when the position is there and is not an integer, before
    any conversion is asked for, and the loop body of [load] raises with
    it. *)
Theorem malformed_token_is_fatal (t : string) (w : world) :
  gtex_variant_to_hgvs_lookup (self w) !! t = None ->
  List.length (Py.split "_" (Py.drop_chars 3 t)) < 5 ->
  exists e,
    (e = IndexError \/ e = ValueError) /\
    process_variant t w = Raise e /\
    forall is_sqtl anatomy_id gene p_value slope,
      load_relationship is_sqtl (anatomy_id, t, gene, p_value, slope) w = Raise e.
Proof.
  intros Hc Hlen.
  assert (Hp : forall e, variant_request t = Raise e -> process_variant t w = Raise e).
  { intros e He. unfold process_variant. now rewrite Hc, He. }
  destruct (short_token_request t Hlen) as [He|He]; eexists;
    (split; [|split; [exact (Hp _ He)|]]); auto;
    intros; unfold load_relationship; now rewrite (Hp _ He).
Qed.

End Malformed.

Section MalformedSample.
#[local] Existing Instance Sample.collaborators.

Lemma malformed_token_is_fatal_witness :
  exists e,
    (e = IndexError \/ e = ValueError) /\
    process_variant "chr1_100_A_T" (init_world Sample.tissues) = Raise e /\
    forall is_sqtl anatomy_id gene p_value slope,
      load_relationship is_sqtl (anatomy_id, "chr1_100_A_T", gene, p_value, slope)
        (init_world Sample.tissues) = Raise e.
Proof.
  refine (malformed_token_is_fatal "chr1_100_A_T" (init_world Sample.tissues) _ _).
  - vm_compute. reflexivity.
  - vm_compute. lia.
Defined.

End MalformedSample.
